(** * pi-kiosk: sensor lifecycle, display controller and control loop

    A shallow embedding of [pi_kiosk/sensors.py], [pi_kiosk/display.py],
    the loop body of [pi_kiosk/main.py], the reading of the environment
    file in [pi_kiosk/config.py], and the sensors, screen controller and
    loop of the older stand-alone script [kiosk_sensors.py].

    Conventions of the embedding.
    - Python [float]s (the monotonic clock, distances, lux values, the lux
      ceiling of the configuration) are exact rationals [Q]; Python [int]s
      are [Z].  [int(x)] on a float rounds toward zero.  A driver object
      that reports NaN or an infinity has no counterpart here: statements
      about the values read are worded through the tests the code makes
      ([distance <= 0], [distance == 0]), not through what those tests
      imply for a number.
    - Every method takes the object it mutates and returns the new object;
      everything the method does to the outside world is returned as a
      list of [Event]s, in program order.
    - What the outside world answers (the clock, the driver objects, the
      exit status of commands) is an explicit argument of every method.
    - Calls to the logger are not modelled. *)

From Stdlib Require Import ZArith QArith Qround List Ascii String Bool Lia
  DecimalString.
Import ListNotations.
Open Scope Z_scope.

(** ** Outside world *)

(** The three ways a Python attribute access can end: the attribute is
    not defined on the object, evaluating it raises, or it yields a value. *)
Inductive Access (A : Type) : Type :=
| NoAttr
| Fault
| Yield (a : A).
Arguments NoAttr {A}.
Arguments Fault {A}.
Arguments Yield {A} a.

Inductive SensorKind : Type := Distance | Light.

(** Bus traffic caused by the sensor drivers. *)
Inductive BusOp : Type :=
| AcquireBus
| Construct (k : SensorKind)
| StartRanging
| ReadDataReady
| ReadDistance
| ClearInterrupt
| ReadLux.

(** Calls of the control loop into the screen controller. *)
Inductive Call : Type :=
| Call_wake_screen
| Call_sleep_screen
| Call_set_brightness (target : Z).

Inductive Event : Type :=
| Bus (op : BusOp)
| Spawn (argv : list string)
| WriteFile (path content : string)
| Invoke (c : Call).

(** An opaque bus object and an opaque driver object. *)
Inductive I2C : Type := I2C_bus.
Inductive Handle : Type := Driver (k : SensorKind) (serial : nat).

(** Answers of a driver object during one [read()]. [data_ready] is looked
    at twice by the source, by [hasattr] and by the attribute access. *)
Record Device : Type := {
  dev_data_ready_probe : Access bool;
  dev_data_ready : Access bool;
  dev_distance : Access (option Q);
  dev_clear_interrupt : Access unit;
  dev_lux : Access (option Q)
}.

(** Everything one call into a sensor can observe: the clock as read by
    [_ready], the clock as read by [_backoff], the result of building the
    driver object ([None] when the constructor raises) and the answers of
    the driver object. *)
Record Env : Type := {
  clock_ready : Q;
  clock_backoff : Q;
  new_driver : option Handle;
  device : Device
}.

(** What the operating system answers to the screen controller:
    [os.path.exists], whether a command ran and exited with status 0, and
    whether opening and writing a file went through without [OSError]. *)
Record Host : Type := {
  path_exists : string -> bool;
  run_ok : list string -> bool;
  write_ok : string -> string -> bool
}.

(** ** Float helpers *)

Definition Qltb (x y : Q) : bool := negb (Qle_bool y x).

(** Python's [min(a, b)] and [max(a, b)]: the first argument unless the
    second is strictly smaller (larger). *)
Definition py_min (a b : Q) : Q := if Qltb b a then b else a.
Definition py_max (a b : Q) : Q := if Qltb a b then b else a.

(** [int(x)]: round toward zero. *)
Definition int_of_float (x : Q) : Z :=
  if Qle_bool 0 x then Qfloor x else Qceiling x.

(** [str(n)] on an int. *)
Definition str (n : Z) : string := NilZero.string_of_int (Z.to_int n).

(** Truth value of a [str]. *)
Definition truthy (s : string) : bool :=
  match s with EmptyString => false | _ => true end.

(** ** [pi_kiosk/config.py] *)

(** The fields of [KioskConfig] that the sensors, the screen controller
    and the loop read. *)
Record KioskConfig : Type := {
  distance_threshold_mm : Z;
  inactivity_timeout_sec : Z;
  poll_interval_sec : Q;
  brightness_min : Z;
  brightness_max : Z;
  brightness_lux_max : Q;
  default_brightness : Z;
  brightnessctl_bin : string;
  brightnessctl_device : option string;
  backlight_path : option string;
  enable_distance_sensor : bool;
  enable_light_sensor : bool
}.

Definition as_brightness_bounds (cfg : KioskConfig) : Z * Z :=
  (brightness_min cfg, brightness_max cfg).

(** The [Field] bounds and the [brightness_max] validator. *)
Definition valid_config (cfg : KioskConfig) : Prop :=
  100 <= distance_threshold_mm cfg <= 5000 /\
  5 <= inactivity_timeout_sec cfg <= 3600 /\
  (1 # 10 <= poll_interval_sec cfg)%Q /\ (poll_interval_sec cfg <= 5)%Q /\
  0 <= brightness_min cfg <= 255 /\
  1 <= brightness_max cfg <= 255 /\
  (0 < brightness_lux_max cfg)%Q /\
  0 <= default_brightness cfg <= 255 /\
  brightness_min cfg < brightness_max cfg.

(** ** [pi_kiosk/sensors.py] *)

Module Sensors.

Record SensorReadings : Type := {
  distance_mm : option Q;
  ambient_lux : option Q
}.

(** [_BaseSensor] with the [_i2c] field both subclasses add. *)
Record Sensor : Type := {
  _enabled : bool;
  _sensor : option Handle;
  _fail_count : Z;
  _next_attempt : Q;
  _i2c : option I2C
}.

Definition set_sensor (h : option Handle) (s : Sensor) : Sensor :=
  {| _enabled := _enabled s; _sensor := h; _fail_count := _fail_count s;
     _next_attempt := _next_attempt s; _i2c := _i2c s |}.

Definition set_fail_count (n : Z) (s : Sensor) : Sensor :=
  {| _enabled := _enabled s; _sensor := _sensor s; _fail_count := n;
     _next_attempt := _next_attempt s; _i2c := _i2c s |}.

Definition set_next_attempt (t : Q) (s : Sensor) : Sensor :=
  {| _enabled := _enabled s; _sensor := _sensor s; _fail_count := _fail_count s;
     _next_attempt := t; _i2c := _i2c s |}.

(** [_BaseSensor.__init__] *)
Definition base_init (enabled : bool) (i2c : option I2C) : Sensor :=
  {| _enabled := enabled; _sensor := None; _fail_count := 0;
     _next_attempt := 0%Q; _i2c := i2c |}.

Definition is_supported (s : Sensor) : bool :=
  match _sensor s with Some _ => true | None => false end.

Definition disable (s : Sensor) : Sensor :=
  {| _enabled := false; _sensor := None; _fail_count := _fail_count s;
     _next_attempt := _next_attempt s; _i2c := _i2c s |}.

(** [_backoff]; [now] is what [time.monotonic()] returns there. *)
Definition _backoff (now : Q) (s : Sensor) : Sensor :=
  let s1 := set_fail_count (_fail_count s + 1) s in
  let delay := Z.min (2 ^ _fail_count s1) 60 in
  set_next_attempt (now + inject_Z delay)%Q s1.

(** [DistanceSensor._attempt_init] and [LightSensor._attempt_init]. They
    differ in the driver they build and in the ranging set-up of the
    distance sensor, whose exceptions are swallowed and so leave no mark
    on the sensor object. *)
Definition _attempt_init (k : SensorKind) (w : Env) (s : Sensor)
  : Sensor * list Event :=
  if negb (_enabled s) then (s, [])
  else match _i2c s with
       | None => (disable s, [])
       | Some _ =>
         let setup := match k with
                      | Distance => [Bus StartRanging]
                      | Light => []
                      end in
         match new_driver w with
         | Some h =>
           (set_fail_count 0 (set_sensor (Some h) s),
            Bus (Construct k) :: setup)
         | None =>
           (_backoff (clock_backoff w) (set_sensor None s),
            [Bus (Construct k)])
         end
       end.

(** [_ready] *)
Definition _ready (k : SensorKind) (w : Env) (s : Sensor)
  : bool * Sensor * list Event :=
  if negb (_enabled s) then (false, s, [])
  else if Qltb (clock_ready w) (_next_attempt s) then (false, s, [])
  else match _sensor s with
       | None =>
         let '(s1, tr) := _attempt_init k w s in
         (is_supported s1, s1, tr)
       | Some _ => (true, s, [])
       end.

(** The body of a [try:] block: the bus traffic it caused so far, and
    either the value it returned or the fact that it raised. *)
Inductive Outcome (A : Type) : Type :=
| Returned (a : A)
| Raised.
Arguments Returned {A} a.
Arguments Raised {A}.

Definition Try (A : Type) : Type := (list Event * Outcome A)%type.

Definition ret {A} (a : A) : Try A := ([], Returned a).

Definition bind {A B} (m : Try A) (k : A -> Try B) : Try B :=
  match m with
  | (tr, Returned a) => let '(tr', r) := k a in (tr ++ tr', r)
  | (tr, Raised) => (tr, Raised)
  end.

Notation "x <- m ;; k" := (bind m (fun x => k))
  (at level 61, m at next level, right associativity).

(** [hasattr(obj, name)] *)
Definition hasattr {A} (op : BusOp) (x : Access A) : Try bool :=
  match x with
  | NoAttr => ([], Returned false)
  | Fault => ([Bus op], Raised)
  | Yield _ => ([Bus op], Returned true)
  end.

(** [obj.name] *)
Definition getattr {A} (op : BusOp) (x : Access A) : Try A :=
  match x with
  | NoAttr => ([], Raised)
  | Fault => ([Bus op], Raised)
  | Yield a => ([Bus op], Returned a)
  end.

(** [getattr(obj, name, None)] *)
Definition getattr_default {A} (op : BusOp) (x : Access (option A))
  : Try (option A) :=
  match x with
  | NoAttr => ([], Returned None)
  | Fault => ([Bus op], Raised)
  | Yield a => ([Bus op], Returned a)
  end.

(** [hasattr(sensor, "data_ready") and not sensor.data_ready] *)
Definition data_not_ready (d : Device) : Try bool :=
  has <- hasattr ReadDataReady (dev_data_ready_probe d) ;;
  if has then
    r <- getattr ReadDataReady (dev_data_ready d) ;;
    ret (negb r)
  else ret false.

(** [if hasattr(sensor, "clear_interrupt"): sensor.clear_interrupt()];
    looking the method up causes no bus traffic, calling it does. *)
Definition clear_interrupt (d : Device) : Try unit :=
  match dev_clear_interrupt d with
  | NoAttr => ret tt
  | Fault => ([Bus ClearInterrupt], Raised)
  | Yield _ => ([Bus ClearInterrupt], Returned tt)
  end.

(** [not distance or distance <= 0] *)
Definition distance_invalid (distance : option Q) : bool :=
  match distance with
  | None => true
  | Some v => Qeq_bool v 0 || Qle_bool v 0
  end.

(** The [try:] body of [DistanceSensor.read].  [Returned None] is one of
    its plain [return None]s; [Returned (Some v)] is the path that resets
    [_fail_count] and returns [float(distance)]. *)
Definition distance_try (d : Device) : Try (option Q) :=
  nr <- data_not_ready d ;;
  if nr then ret None
  else
    distance <- getattr_default ReadDistance (dev_distance d) ;;
    _ <- clear_interrupt d ;;
    if distance_invalid distance then ret None else ret distance.

(** The [try:] body of [LightSensor.read]. *)
Definition light_try (d : Device) : Try (option Q) :=
  lux <- getattr_default ReadLux (dev_lux d) ;;
  match lux with
  | None => ret None
  | Some v => ret (Some v)
  end.

Definition read_try (k : SensorKind) : Device -> Try (option Q) :=
  match k with
  | Distance => distance_try
  | Light => light_try
  end.

(** [DistanceSensor.read] and [LightSensor.read] *)
Definition read (k : SensorKind) (w : Env) (s : Sensor)
  : option Q * Sensor * list Event :=
  let '(ok, s1, tr1) := _ready k w s in
  if negb ok then (None, s1, tr1)
  else match _sensor s1 with
       | None => (None, s1, tr1)
       | Some _ =>
         match read_try k (device w) with
         | (tr2, Returned (Some v)) =>
           (Some v, set_fail_count 0 s1, tr1 ++ tr2)
         | (tr2, Returned None) => (None, s1, tr1 ++ tr2)
         | (tr2, Raised) =>
           (None, _backoff (clock_backoff w) (set_sensor None s1), tr1 ++ tr2)
         end
       end.

(** [DistanceSensor.__init__] and [LightSensor.__init__] *)
Definition new_sensor (k : SensorKind) (enabled : bool) (i2c : option I2C)
  (w : Env) : Sensor * list Event :=
  let s := base_init enabled i2c in
  if _enabled s then _attempt_init k w s else (s, []).

(** [SensorSuite] *)
Record SensorSuite : Type := {
  bus : option I2C;
  distance : Sensor;
  light : Sensor
}.

(** [_init_i2c_bus]; [acquire] is what [busio.I2C(...)] gives, [None] when
    it raises. *)
Definition _init_i2c_bus (cfg : KioskConfig) (acquire : option I2C)
  : option I2C * list Event :=
  if negb (enable_distance_sensor cfg || enable_light_sensor cfg)
  then (None, [])
  else (acquire, [Bus AcquireBus]).

(** [SensorSuite.__init__] *)
Definition new_suite (cfg : KioskConfig) (acquire : option I2C)
  (wd wl : Env) : SensorSuite * list Event :=
  let '(i2c, tr0) := _init_i2c_bus cfg acquire in
  let '(d, tr1) := new_sensor Distance (enable_distance_sensor cfg) i2c wd in
  let '(l, tr2) := new_sensor Light (enable_light_sensor cfg) i2c wl in
  ({| bus := i2c; distance := d; light := l |}, tr0 ++ tr1 ++ tr2).

(** [SensorSuite.read] *)
Definition suite_read (wd wl : Env) (u : SensorSuite)
  : SensorReadings * SensorSuite * list Event :=
  let '(dv, d, tr1) := read Distance wd (distance u) in
  let '(lv, l, tr2) := read Light wl (light u) in
  ({| distance_mm := dv; ambient_lux := lv |},
   {| bus := bus u; distance := d; light := l |},
   tr1 ++ tr2).

Definition distance_supported (u : SensorSuite) : bool :=
  is_supported (distance u).

Definition light_supported (u : SensorSuite) : bool :=
  is_supported (light u).

(** [health_snapshot]: the values under the keys [distance_sensor],
    [light_sensor] and [i2c]. *)
Definition health_snapshot (u : SensorSuite) : bool * bool * bool :=
  (distance_supported u, light_supported u,
   match bus u with Some _ => true | None => false end).

End Sensors.

(** ** [pi_kiosk/display.py] *)

Module Display.

Record DisplayState : Type := {
  screen_on : bool;
  brightness : option Z
}.

Record ScreenController : Type := {
  _config : KioskConfig;
  _state : DisplayState;
  _warned_brightness : bool;
  _brightnessctl_bin : string;
  _brightnessctl_device : option string;
  _backlight_path : option string
}.

Definition set_state (st : DisplayState) (c : ScreenController)
  : ScreenController :=
  {| _config := _config c; _state := st;
     _warned_brightness := _warned_brightness c;
     _brightnessctl_bin := _brightnessctl_bin c;
     _brightnessctl_device := _brightnessctl_device c;
     _backlight_path := _backlight_path c |}.

Definition set_screen_on (b : bool) (c : ScreenController) : ScreenController :=
  set_state {| screen_on := b; brightness := brightness (_state c) |} c.

Definition set_state_brightness (v : Z) (c : ScreenController)
  : ScreenController :=
  set_state {| screen_on := screen_on (_state c); brightness := Some v |} c.

Definition set_warned (b : bool) (c : ScreenController) : ScreenController :=
  {| _config := _config c; _state := _state c;
     _warned_brightness := b;
     _brightnessctl_bin := _brightnessctl_bin c;
     _brightnessctl_device := _brightnessctl_device c;
     _backlight_path := _backlight_path c |}.

(** [ScreenController.__init__], with [DisplayState()]'s defaults. *)
Definition new_controller (cfg : KioskConfig) : ScreenController :=
  {| _config := cfg;
     _state := {| screen_on := true; brightness := None |};
     _warned_brightness := false;
     _brightnessctl_bin := brightnessctl_bin cfg;
     _brightnessctl_device := brightnessctl_device cfg;
     _backlight_path := backlight_path cfg |}.

Definition brightness_from_lux (c : ScreenController) (lux : option Q) : Z :=
  match lux with
  | None => default_brightness (_config c)
  | Some lux =>
    let '(min_b, max_b) := as_brightness_bounds (_config c) in
    let ratio :=
      py_min 1 (lux / py_max 1 (brightness_lux_max (_config c)))%Q in
    let value :=
      int_of_float (inject_Z min_b + inject_Z (max_b - min_b) * ratio)%Q in
    Z.max min_b (Z.min max_b value)
  end.

(** [_run]: one [subprocess.run]. *)
Definition _run (h : Host) (args : list string) : bool * list Event :=
  (run_ok h args, [Spawn args]).

(** [_run_display_cmd]; the environment handed to the command is not
    modelled. *)
Definition _run_display_cmd (h : Host) (args : list string) : list Event :=
  snd (_run h args).

Definition wake_screen (h : Host) (c : ScreenController)
  : ScreenController * list Event :=
  if screen_on (_state c) then (c, [])
  else
    let tr := _run_display_cmd h ["xset"; "dpms"; "force"; "on"]%string in
    (set_screen_on true c, tr).

Definition sleep_screen (h : Host) (c : ScreenController)
  : ScreenController * list Event :=
  if negb (screen_on (_state c)) then (c, [])
  else
    let tr := _run_display_cmd h ["xset"; "dpms"; "force"; "off"]%string in
    (set_screen_on false c, tr).

Definition _use_brightnessctl (h : Host) (c : ScreenController) (target : Z)
  : bool * list Event :=
  if negb (truthy (_brightnessctl_bin c))
     || negb (path_exists h (_brightnessctl_bin c))
  then (false, [])
  else
    let device_flag :=
      match _brightnessctl_device c with
      | Some d => if truthy d then [("--device=" ++ d)%string] else []
      | None => []
      end in
    let args :=
      [_brightnessctl_bin c] ++ device_flag ++ ["set"%string; str target] in
    _run h args.

Definition _write_backlight_file (h : Host) (c : ScreenController) (target : Z)
  : bool * list Event :=
  match _backlight_path c with
  | None => (false, [])
  | Some path =>
    if negb (truthy path) then (false, [])
    else (write_ok h path (str target), [WriteFile path (str target)])
  end.

(** [self._state.brightness == target] *)
Definition brightness_is (c : ScreenController) (target : Z) : bool :=
  match brightness (_state c) with
  | Some b => Z.eqb b target
  | None => false
  end.

Definition clamp (c : ScreenController) (target : Z) : Z :=
  let '(min_b, max_b) := as_brightness_bounds (_config c) in
  Z.max min_b (Z.min max_b target).

Definition set_brightness (h : Host) (c : ScreenController) (target : Z)
  : ScreenController * list Event :=
  let target := clamp c target in
  if brightness_is c target then (c, [])
  else
    let '(ok1, tr1) := _use_brightnessctl h c target in
    if ok1 then (set_state_brightness target c, tr1)
    else
      let '(ok2, tr2) := _write_backlight_file h c target in
      if ok2 then (set_state_brightness target c, tr1 ++ tr2)
      else
        ((if negb (_warned_brightness c) then set_warned true c else c),
         tr1 ++ tr2).

End Display.

(** ** The loop body of [pi_kiosk/main.py] *)

Module Main.

Import Sensors Display.

(** The two locals that survive from one iteration to the next. *)
Record LoopState : Type := {
  last_motion_ts : Q;
  last_health_log : Q
}.

(** The objects the loop works on. *)
Record Kiosk : Type := {
  sensors : SensorSuite;
  screen : ScreenController;
  loop : LoopState
}.

(** What one iteration observes: the two sensors' worlds, the clock read
    after [sensors.read()], and the host. *)
Record Tick : Type := {
  tick_distance : Env;
  tick_light : Env;
  tick_now : Q;
  tick_host : Host
}.

(** One iteration of [while running:]; [time.sleep] is not modelled. *)
Definition tick (cfg : KioskConfig) (w : Tick) (k : Kiosk)
  : Kiosk * list Event :=
  let '(readings, sensors1, tr_read) :=
    suite_read (tick_distance w) (tick_light w) (sensors k) in
  let now := tick_now w in
  let distance_capable :=
    enable_distance_sensor cfg && distance_supported sensors1 in
  let '(motion1, screen1, tr_wake) :=
    match distance_mm readings with
    | Some d =>
      if Qle_bool d (inject_Z (distance_threshold_mm cfg)) then
        let '(sc, tr) := wake_screen (tick_host w) (screen k) in
        (now, sc, Invoke Call_wake_screen :: tr)
      else (last_motion_ts (loop k), screen k, [])
    | None => (last_motion_ts (loop k), screen k, [])
    end in
  let '(screen2, tr_sleep) :=
    if distance_capable
       && Qltb (inject_Z (inactivity_timeout_sec cfg)) (now - motion1)%Q
    then
      let '(sc, tr) := sleep_screen (tick_host w) screen1 in
      (sc, Invoke Call_sleep_screen :: tr)
    else (screen1, []) in
  let target := brightness_from_lux screen2 (ambient_lux readings) in
  let '(screen3, tr_set) := set_brightness (tick_host w) screen2 target in
  let health1 :=
    if Qle_bool 60 (now - last_health_log (loop k))%Q then now
    else last_health_log (loop k) in
  ({| sensors := sensors1; screen := screen3;
      loop := {| last_motion_ts := motion1; last_health_log := health1 |} |},
   tr_read ++ tr_wake ++ tr_sleep
   ++ Invoke (Call_set_brightness target) :: tr_set).

(** The objects as [run] builds them before the loop; [t0] is the clock
    read that initialises [last_motion_ts]. *)
Definition start (cfg : KioskConfig) (acquire : option I2C) (wd wl : Env)
  (t0 : Q) : Kiosk * list Event :=
  let '(u, tr) := new_suite cfg acquire wd wl in
  ({| sensors := u; screen := new_controller cfg;
      loop := {| last_motion_ts := t0; last_health_log := 0%Q |} |}, tr).

(** The loop run for as many iterations as there are worlds. *)
Fixpoint run (cfg : KioskConfig) (ws : list Tick) (k : Kiosk)
  : Kiosk * list Event :=
  match ws with
  | [] => (k, [])
  | w :: ws' =>
    let '(k1, tr1) := tick cfg w k in
    let '(k2, tr2) := run cfg ws' k1 in
    (k2, tr1 ++ tr2)
  end.

End Main.

(** ** The loop body of [kiosk_sensors.py]

    The older script decides between waking and sleeping in one
    [if]/[elif]; [motion_supported] is read once before the loop. *)

Module Legacy.

Inductive Action : Type := Wake | Sleep | Idle.

Definition presence_step (threshold timeout : Z) (motion_supported : bool)
  (distance_mm : option Q) (now last_motion_ts : Q) : Q * Action :=
  if match distance_mm with
     | Some d => Qle_bool d (inject_Z threshold)
     | None => false
     end
  then (now, Wake)
  else if motion_supported
          && Qltb (inject_Z timeout) (now - last_motion_ts)%Q
       then (last_motion_ts, Sleep)
       else (last_motion_ts, Idle).

(** The module-level constants the script reads from the environment. *)
Record Settings : Type := {
  DISTANCE_THRESHOLD_MM : Z;
  INACTIVITY_TIMEOUT_SEC : Z;
  BRIGHTNESS_MIN : Z;
  BRIGHTNESS_MAX : Z;
  BRIGHTNESS_LUX_MAX : Q;
  DEFAULT_BRIGHTNESS : Z;
  BRIGHTNESSCTL_BIN : string;
  BRIGHTNESSCTL_DEVICE : string;
  BACKLIGHT_PATH : string
}.

Record SensorReadings : Type := {
  distance_mm : option Q;
  ambient_lux : option Q
}.

(** The script's [SensorSuite]: no lifecycle, the driver objects are
    built once. *)
Record SensorSuite : Type := {
  _i2c : option I2C;
  _distance_sensor : option Handle;
  _tof_started : bool;
  _light_sensor : option Handle
}.

(** [SensorSuite.__init__]: [_init_bus] then [_init_sensors].  [acquire]
    is what [busio.I2C(...)] gives, [driver_d] and [driver_l] what the
    two driver constructors give ([None] when they raise), [ranging]
    whether the ranging set-up went through. *)
Definition new_suite (acquire : option I2C)
  (driver_d driver_l : option Handle) (ranging : bool)
  : SensorSuite * list Event :=
  match acquire with
  | None =>
    ({| _i2c := None; _distance_sensor := None; _tof_started := false;
        _light_sensor := None |}, [Bus AcquireBus])
  | Some b =>
    ({| _i2c := Some b;
        _distance_sensor := driver_d;
        _tof_started := match driver_d with
                        | Some _ => ranging
                        | None => false
                        end;
        _light_sensor := driver_l |},
     Bus AcquireBus :: Bus (Construct Distance)
     :: match driver_d with
        | Some _ => [Bus StartRanging]
        | None => []
        end
     ++ [Bus (Construct Light)])
  end.

Definition distance_supported (u : SensorSuite) : bool :=
  match _distance_sensor u with Some _ => true | None => false end.

Definition light_supported (u : SensorSuite) : bool :=
  match _light_sensor u with Some _ => true | None => false end.

(** [distance is None or distance <= 0] *)
Definition distance_invalid (distance : option Q) : bool :=
  match distance with
  | None => true
  | Some v => Qle_bool v 0
  end.

(** The [try:] body of [_read_distance]. *)
Definition distance_try (d : Device) : Sensors.Try (option Q) :=
  Sensors.bind (Sensors.data_not_ready d) (fun nr =>
  if nr then Sensors.ret None
  else
    Sensors.bind
      (Sensors.getattr_default ReadDistance (dev_distance d))
      (fun distance =>
    Sensors.bind (Sensors.clear_interrupt d) (fun _ =>
    if distance_invalid distance then Sensors.ret None
    else Sensors.ret distance))).

Definition _read_distance (u : SensorSuite) (d : Device)
  : option Q * list Event :=
  match _distance_sensor u with
  | None => (None, [])
  | Some _ =>
    match distance_try d with
    | (tr, Sensors.Returned v) => (v, tr)
    | (tr, Sensors.Raised) => (None, tr)
    end
  end.

Definition _read_lux (u : SensorSuite) (d : Device)
  : option Q * list Event :=
  match _light_sensor u with
  | None => (None, [])
  | Some _ =>
    match Sensors.getattr_default ReadLux (dev_lux d) with
    | (tr, Sensors.Returned v) => (v, tr)
    | (tr, Sensors.Raised) => (None, tr)
    end
  end.

(** [SensorSuite.read]; [dd] and [dl] are the answers of the two driver
    objects. *)
Definition read (u : SensorSuite) (dd dl : Device)
  : SensorReadings * list Event :=
  let '(dv, tr1) := _read_distance u dd in
  let '(lv, tr2) := _read_lux u dl in
  ({| distance_mm := dv; ambient_lux := lv |}, tr1 ++ tr2).

(** The script's [ScreenController]. *)
Record ScreenController : Type := {
  _last_brightness : option Z;
  _screen_on : bool;
  _brightnessctl_available : bool;
  _warned_brightness : bool
}.

Definition new_controller (g : Settings) (h : Host) : ScreenController :=
  {| _last_brightness := None;
     _screen_on := true;
     _brightnessctl_available := path_exists h (BRIGHTNESSCTL_BIN g);
     _warned_brightness := false |}.

Definition set_screen_on (b : bool) (c : ScreenController)
  : ScreenController :=
  {| _last_brightness := _last_brightness c;
     _screen_on := b;
     _brightnessctl_available := _brightnessctl_available c;
     _warned_brightness := _warned_brightness c |}.

Definition set_last_brightness (v : Z) (c : ScreenController)
  : ScreenController :=
  {| _last_brightness := Some v;
     _screen_on := _screen_on c;
     _brightnessctl_available := _brightnessctl_available c;
     _warned_brightness := _warned_brightness c |}.

Definition set_warned (c : ScreenController) : ScreenController :=
  {| _last_brightness := _last_brightness c;
     _screen_on := _screen_on c;
     _brightnessctl_available := _brightnessctl_available c;
     _warned_brightness := true |}.

Definition wake_screen (c : ScreenController)
  : ScreenController * list Event :=
  if _screen_on c then (c, [])
  else (set_screen_on true c,
        [Spawn ["xset"; "dpms"; "force"; "on"]%string]).

Definition sleep_screen (c : ScreenController)
  : ScreenController * list Event :=
  if negb (_screen_on c) then (c, [])
  else (set_screen_on false c,
        [Spawn ["xset"; "dpms"; "force"; "off"]%string]).

(** [self._last_brightness == target] *)
Definition last_is (c : ScreenController) (target : Z) : bool :=
  match _last_brightness c with
  | Some b => Z.eqb b target
  | None => false
  end.

(** [set_brightness]; the result of [_run] is not looked at. *)
Definition set_brightness (g : Settings) (h : Host) (c : ScreenController)
  (target : Z) : ScreenController * list Event :=
  let target := Z.max (BRIGHTNESS_MIN g) (Z.min (BRIGHTNESS_MAX g) target) in
  if last_is c target then (c, [])
  else if _brightnessctl_available c then
    let cmd :=
      BRIGHTNESSCTL_BIN g
      :: (if truthy (BRIGHTNESSCTL_DEVICE g)
          then [("--device=" ++ BRIGHTNESSCTL_DEVICE g)%string]
          else [])
      ++ ["set"%string; str target] in
    (set_last_brightness target c, [Spawn cmd])
  else if truthy (BACKLIGHT_PATH g) then
    if write_ok h (BACKLIGHT_PATH g) (str target)
    then (set_last_brightness target c,
          [WriteFile (BACKLIGHT_PATH g) (str target)])
    else ((if negb (_warned_brightness c) then set_warned c else c),
          [WriteFile (BACKLIGHT_PATH g) (str target)])
  else ((if negb (_warned_brightness c) then set_warned c else c), []).

(** The script's [brightness_from_lux]: no clamp after [int(...)]. *)
Definition brightness_from_lux (g : Settings) (lux : option Q) : Z :=
  match lux with
  | None => DEFAULT_BRIGHTNESS g
  | Some lux =>
    let ratio := py_min 1 (lux / py_max 1 (BRIGHTNESS_LUX_MAX g))%Q in
    int_of_float
      (inject_Z (BRIGHTNESS_MIN g)
       + inject_Z (BRIGHTNESS_MAX g - BRIGHTNESS_MIN g) * ratio)%Q
  end.

(** What [main] carries from one iteration to the next. *)
Record Kiosk : Type := {
  sensors : SensorSuite;
  screen : ScreenController;
  last_motion_ts : Q;
  motion_supported : bool
}.

(** One iteration of [while True:] in [main]; the decision is
    [presence_step]. *)
Definition tick (g : Settings) (h : Host) (dd dl : Device) (now : Q)
  (k : Kiosk) : Kiosk * list Event :=
  let '(readings, tr_read) := read (sensors k) dd dl in
  let '(motion1, action) :=
    presence_step (DISTANCE_THRESHOLD_MM g) (INACTIVITY_TIMEOUT_SEC g)
      (motion_supported k) (distance_mm readings) now (last_motion_ts k) in
  let '(screen1, tr_power) :=
    match action with
    | Wake =>
      let '(sc, tr) := wake_screen (screen k) in
      (sc, Invoke Call_wake_screen :: tr)
    | Sleep =>
      let '(sc, tr) := sleep_screen (screen k) in
      (sc, Invoke Call_sleep_screen :: tr)
    | Idle => (screen k, [])
    end in
  let target := brightness_from_lux g (ambient_lux readings) in
  let '(screen2, tr_set) := set_brightness g h screen1 target in
  ({| sensors := sensors k; screen := screen2; last_motion_ts := motion1;
      motion_supported := motion_supported k |},
   tr_read ++ tr_power ++ Invoke (Call_set_brightness target) :: tr_set).

End Legacy.

(** ** [pi_kiosk/config.py]: reading the environment file

    [str.strip] and [shlex.split] are taken as given: [strip] is the
    first, [shlex_split] the second with [None] for a [ValueError]. *)

Module Config.

(** A [dict] from [str] to [str], in insertion order. *)
Definition Dict : Type := list (string * string).

Fixpoint dict_get (k : string) (d : Dict) : option string :=
  match d with
  | [] => None
  | (k', v) :: d' => if String.eqb k' k then Some v else dict_get k d'
  end.

(** [d[k] = v] *)
Fixpoint dict_set (k v : string) (d : Dict) : Dict :=
  match d with
  | [] => [(k, v)]
  | (k', v') :: d' =>
    if String.eqb k' k then (k', v) :: d' else (k', v') :: dict_set k v d'
  end.

(** [d.update(e)] *)
Definition dict_update (d e : Dict) : Dict :=
  fold_left (fun acc kv => dict_set (fst kv) (snd kv) acc) e d.

(** [line.startswith("#")] *)
Definition is_comment (line : string) : bool :=
  match line with
  | String c _ => Ascii.eqb c "#"%char
  | EmptyString => false
  end.

(** [line.partition("=")] as [(key, raw_value)]; [None] when ["="] is
    not in the line. *)
Fixpoint partition_eq (line : string) : option (string * string) :=
  match line with
  | EmptyString => None
  | String c rest =>
    if Ascii.eqb c "="%char then Some (EmptyString, rest)
    else match partition_eq rest with
         | Some (key, raw_value) => Some (String c key, raw_value)
         | None => None
         end
  end.

Section Parse.

Variable strip : string -> string.
Variable shlex_split : string -> option (list string).

(** The value stored for a stripped right-hand side. *)
Definition parse_value (value : string) : string :=
  if truthy value then
    match shlex_split value with
    | Some (token :: _) => token
    | Some [] => EmptyString
    | None => value
    end
  else EmptyString.

(** The body of the [for] loop of [parse_env_lines]. *)
Definition parse_line (data : Dict) (raw_line : string) : Dict :=
  let line := strip raw_line in
  if negb (truthy line) || is_comment line then data
  else match partition_eq line with
       | None => data
       | Some (key, raw_value) =>
         let key := strip key in
         let value := strip raw_value in
         if negb (truthy key) then data
         else dict_set key (parse_value value) data
       end.

Definition parse_env_lines (lines : list string) : Dict :=
  fold_left parse_line lines [].

(** The configuration file as [load_config] finds it: absent; present
    with [read_text] raising [OSError]; present with [read_text] raising
    something that is not an [OSError] (a [UnicodeDecodeError] on bytes
    that are not UTF-8); present with the given lines. *)
Inductive ConfigFile : Type :=
| Missing
| Unreadable
| Undecodable
| Content (lines : list string).

(** How [load_config] gets to [KioskConfig.model_validate]: with the
    dictionary it hands over, or not at all because it raised
    [ConfigError], or because an exception it does not catch went
    through. *)
Inductive Loaded : Type :=
| Data (data : Dict)
| Raised_ConfigError
| Raised_uncaught.

(** [load_config] up to the call of [KioskConfig.model_validate]: the
    file's assignments, then the environment on top. *)
Definition load_config_data (file : ConfigFile) (environ : Dict) : Loaded :=
  match file with
  | Missing => Data (dict_update [] environ)
  | Unreadable => Raised_ConfigError
  | Undecodable => Raised_uncaught
  | Content lines =>
    Data (dict_update (dict_update [] (parse_env_lines lines)) environ)
  end.

End Parse.

End Config.

(** * Vocabulary of the properties *)

Section Vocabulary.

Import Sensors Display Main.

(** The lux from which [brightness_from_lux] saturates, and the float it
    hands to [int(...)]. *)
Definition lux_ceiling (c : ScreenController) : Q :=
  py_max 1 (brightness_lux_max (_config c)).

Definition lux_value (c : ScreenController) (lux : Q) : Q :=
  (inject_Z (brightness_min (_config c))
   + inject_Z (brightness_max (_config c) - brightness_min (_config c))
     * py_min 1 (lux / lux_ceiling c))%Q.

(** The state [Ready] of the state machine at clock reading [now]: the
    sensor is enabled, holds a driver object, and no backoff is pending. *)
Definition Ready (now : Q) (s : Sensor) : Prop :=
  _enabled s = true /\ _sensor s <> None /\ (_next_attempt s <= now)%Q.

(** The state [Disabled]. *)
Definition Disabled (s : Sensor) : Prop :=
  _enabled s = false /\ _sensor s = None.

(** A read that yields a semantically invalid value: the data is ready,
    nothing raises, and the distance is missing or not strictly positive,
    respectively the lux value is missing. *)
Definition invalid_value (k : SensorKind) (d : Device) : Prop :=
  match k with
  | Distance =>
    (dev_data_ready_probe d = NoAttr
     \/ (exists b, dev_data_ready_probe d = Yield b)
        /\ dev_data_ready d = Yield true)
    /\ (dev_distance d = NoAttr
        \/ exists v, dev_distance d = Yield v /\ distance_invalid v = true)
    /\ dev_clear_interrupt d <> Fault
  | Light => dev_lux d = NoAttr \/ dev_lux d = Yield None
  end.

(** The capability raises somewhere in the [try:] body of [read]. *)
Definition read_raises (k : SensorKind) (d : Device) : Prop :=
  exists tr, read_try k d = (tr, Raised).



(** A sensor driven through any sequence of its methods. *)
Inductive Op : Type :=
| Op_read (w : Env)
| Op_ready (w : Env)
| Op_attempt_init (w : Env)
| Op_backoff (now : Q)
| Op_disable
| Op_is_supported.

Inductive Reply : Type :=
| Reply_value (v : option Q)
| Reply_bool (b : bool)
| Reply_none.

Definition apply_op (k : SensorKind) (op : Op) (s : Sensor)
  : Sensor * Reply * list Event :=
  match op with
  | Op_read w =>
    let '(v, s1, tr) := read k w s in (s1, Reply_value v, tr)
  | Op_ready w =>
    let '(b, s1, tr) := _ready k w s in (s1, Reply_bool b, tr)
  | Op_attempt_init w =>
    let '(s1, tr) := _attempt_init k w s in (s1, Reply_none, tr)
  | Op_backoff now => (_backoff now s, Reply_none, [])
  | Op_disable => (disable s, Reply_none, [])
  | Op_is_supported => (s, Reply_bool (is_supported s), [])
  end.

Fixpoint apply_ops (k : SensorKind) (ops : list Op) (s : Sensor)
  : Sensor * list Reply * list Event :=
  match ops with
  | [] => (s, [], [])
  | op :: ops' =>
    let '(s1, r, tr1) := apply_op k op s in
    let '(s2, rs, tr2) := apply_ops k ops' s1 in
    (s2, r :: rs, tr1 ++ tr2)
  end.

(** A reply that reports nothing: no reading, not ready, not supported. *)
Definition silent (r : Reply) : Prop :=
  match r with
  | Reply_value v => v = None
  | Reply_bool b => b = false
  | Reply_none => True
  end.

Definition xset_on : list string := ["xset"; "dpms"; "force"; "on"]%string.
Definition xset_off : list string := ["xset"; "dpms"; "force"; "off"]%string.

(** The [if]/[elif] chain of [set_brightness]: [brightnessctl] first, the
    backlight file when that did not succeed. *)
Definition backends (h : Host) (c : ScreenController) (target : Z)
  : bool * list Event :=
  let '(ok1, tr1) := _use_brightnessctl h c target in
  if ok1 then (true, tr1)
  else let '(ok2, tr2) := _write_backlight_file h c target in
       (ok2, tr1 ++ tr2).

Definition is_call (e : Event) : bool :=
  match e with Invoke _ => true | _ => false end.

(** The calls into the screen controller recorded in a trace. *)
Definition calls (tr : list Event) : list Event := filter is_call tr.

(** Whether this iteration saw somebody within the threshold. *)
Definition presence (cfg : KioskConfig) (readings : SensorReadings) : bool :=
  match distance_mm readings with
  | Some d => Qle_bool d (inject_Z (distance_threshold_mm cfg))
  | None => false
  end.

(** [(now - last_motion_ts) > config.inactivity_timeout_sec], with the
    [last_motion_ts] the iteration leaves behind. *)
Definition tick_idle_for (cfg : KioskConfig) (w : Tick) (k' : Kiosk) : bool :=
  Qltb (inject_Z (inactivity_timeout_sec cfg))
    (tick_now w - last_motion_ts (loop k'))%Q.

End Vocabulary.

Section TraceVocabulary.

Import Sensors Display Main.

(** How many events of a trace satisfy [p]. *)
Definition count (p : Event -> bool) (tr : list Event) : nat :=
  List.length (filter p tr).

Definition is_construct (e : Event) : bool :=
  match e with Bus (Construct _) => true | _ => false end.

Definition is_value_read (e : Event) : bool :=
  match e with Bus ReadDistance | Bus ReadLux => true | _ => false end.

(** Traffic with a driver object: everything on the bus but acquiring
    the bus itself. *)
Definition is_driver_traffic (e : Event) : bool :=
  match e with
  | Bus AcquireBus => false
  | Bus _ => true
  | _ => false
  end.

Definition is_spawn (e : Event) : bool :=
  match e with Spawn _ => true | _ => false end.

Definition is_write (e : Event) : bool :=
  match e with WriteFile _ _ => true | _ => false end.

Definition is_set_brightness_call (e : Event) : bool :=
  match e with Invoke (Call_set_brightness _) => true | _ => false end.

(** The command, if any, carries [value] as its last argument,
    respectively as the file content. *)
Definition carries (value : string) (e : Event) : Prop :=
  match e with
  | Spawn argv => exists front, argv = front ++ ["set"%string; value]
  | WriteFile _ content => content = value
  | _ => False
  end.

(** What every reachable sensor built on the bus object [i2c] satisfies. *)
Definition sane (i2c : option I2C) (s : Sensor) : Prop :=
  0 <= _fail_count s
  /\ _i2c s = i2c
  /\ (is_supported s = true -> _enabled s = true /\ i2c <> None).

(** [SensorSuite.read] called once per pair of worlds, in order. *)
Fixpoint suite_reads (ws : list (Env * Env)) (u : SensorSuite)
  : SensorSuite * list SensorReadings :=
  match ws with
  | [] => (u, [])
  | (wd, wl) :: ws' =>
    let '(r, u1, _) := suite_read wd wl u in
    let '(u2, rs) := suite_reads ws' u1 in
    (u2, r :: rs)
  end.

(** A screen controller driven through any sequence of its methods. *)
Inductive ScreenOp : Type :=
| Screen_wake (h : Host)
| Screen_sleep (h : Host)
| Screen_set (h : Host) (target : Z).

Definition apply_screen_op (op : ScreenOp) (c : ScreenController)
  : ScreenController * list Event :=
  match op with
  | Screen_wake h => wake_screen h c
  | Screen_sleep h => sleep_screen h c
  | Screen_set h target => set_brightness h c target
  end.

Fixpoint apply_screen_ops (ops : list ScreenOp) (c : ScreenController)
  : ScreenController * list Event :=
  match ops with
  | [] => (c, [])
  | op :: ops' =>
    let '(c1, tr1) := apply_screen_op op c in
    let '(c2, tr2) := apply_screen_ops ops' c1 in
    (c2, tr1 ++ tr2)
  end.

(** The tracked brightness, when there is one, lies within the bounds of
    the configuration. *)
Definition brightness_in_bounds (c : ScreenController) : Prop :=
  match brightness (_state c) with
  | Some b =>
    brightness_min (_config c) <= b <= brightness_max (_config c)
  | None => True
  end.

(** The settings of the older script that correspond to a
    configuration. *)
Definition settings_of (cfg : KioskConfig) : Legacy.Settings :=
  {| Legacy.DISTANCE_THRESHOLD_MM := distance_threshold_mm cfg;
     Legacy.INACTIVITY_TIMEOUT_SEC := inactivity_timeout_sec cfg;
     Legacy.BRIGHTNESS_MIN := brightness_min cfg;
     Legacy.BRIGHTNESS_MAX := brightness_max cfg;
     Legacy.BRIGHTNESS_LUX_MAX := brightness_lux_max cfg;
     Legacy.DEFAULT_BRIGHTNESS := default_brightness cfg;
     Legacy.BRIGHTNESSCTL_BIN := brightnessctl_bin cfg;
     Legacy.BRIGHTNESSCTL_DEVICE :=
       match brightnessctl_device cfg with Some d => d | None => EmptyString end;
     Legacy.BACKLIGHT_PATH :=
       match backlight_path cfg with Some p => p | None => EmptyString end |}.

End TraceVocabulary.

Section ParseVocabulary.

Import Config.

Variable strip : string -> string.
Variable shlex_split : string -> option (list string).

(** The assignment a raw line makes, if it makes one: its stripped form
    is not empty, is not a comment, contains ["="], and the stripped text
    before the first ["="] is not empty. *)
Definition assignment (raw_line : string) : option (string * string) :=
  let line := strip raw_line in
  if truthy line && negb (is_comment line) then
    match partition_eq line with
    | Some (key, raw_value) =>
      if truthy (strip key)
      then Some (strip key, parse_value shlex_split (strip raw_value))
      else None
    | None => None
    end
  else None.

(** The value the last line assigning [k] gives it. *)
Fixpoint last_assignment (k : string) (lines : list string)
  : option string :=
  match lines with
  | [] => None
  | raw_line :: rest =>
    match last_assignment k rest with
    | Some v => Some v
    | None =>
      match assignment raw_line with
      | Some (k', v) => if String.eqb k' k then Some v else None
      | None => None
      end
    end
  end.

End ParseVocabulary.

(** * Sample objects *)

(** The defaults of [KioskConfig] with the given timeout, lux ceiling
    and backlight path. *)
Definition sample_config (timeout : Z) (lux_max : Q) (path : option string)
  : KioskConfig :=
  {| distance_threshold_mm := 1500;
     inactivity_timeout_sec := timeout;
     poll_interval_sec := 1 # 2;
     brightness_min := 10;
     brightness_max := 255;
     brightness_lux_max := lux_max;
     default_brightness := 120;
     brightnessctl_bin := "/usr/bin/brightnessctl";
     brightnessctl_device := None;
     backlight_path := path;
     enable_distance_sensor := true;
     enable_light_sensor := true |}.

(** The defaults of [KioskConfig]. *)
Definition default_config : KioskConfig := sample_config 90 400 None.

(** The defaults with [BRIGHTNESS_LUX_MAX=0.5]. *)
Definition dim_room_config : KioskConfig :=
  sample_config 90 (1 # 2) None.

(** A sensor of kind [k] in state [Ready] with [fails] earlier failures
    whose last backoff ran out at clock reading [due]. *)
Definition held_sensor (k : SensorKind) (fails : Z) (due : Q)
  : Sensors.Sensor :=
  {| Sensors._enabled := true;
     Sensors._sensor := Some (Driver k 0);
     Sensors._fail_count := fails;
     Sensors._next_attempt := due;
     Sensors._i2c := Some I2C_bus |}.

(** A sensor that lost its driver object after [fails] failures and waits
    until [due]. *)
Definition waiting_sensor (fails : Z) (due : Q) : Sensors.Sensor :=
  {| Sensors._enabled := true;
     Sensors._sensor := None;
     Sensors._fail_count := fails;
     Sensors._next_attempt := due;
     Sensors._i2c := Some I2C_bus |}.

(** A driver object that answers every access; distance and lux as given. *)
Definition answering (ready : bool) (distance lux : option Q) : Device :=
  {| dev_data_ready_probe := Yield ready;
     dev_data_ready := Yield ready;
     dev_distance := Yield distance;
     dev_clear_interrupt := Yield tt;
     dev_lux := Yield lux |}.

(** A driver object whose every access raises. *)
Definition broken : Device :=
  {| dev_data_ready_probe := Fault;
     dev_data_ready := Fault;
     dev_distance := Fault;
     dev_clear_interrupt := Fault;
     dev_lux := Fault |}.

(** The world at clock reading [t]. *)
Definition world (t : Q) (driver : option Handle) (d : Device) : Env :=
  {| clock_ready := t; clock_backoff := t; new_driver := driver; device := d |}.

(** A host on which every path exists; commands exit with status 0 iff
    [cmd], file writes go through iff [file]. *)
Definition host (cmd file : bool) : Host :=
  {| path_exists := fun _ => true;
     run_ok := fun _ => cmd;
     write_ok := fun _ _ => file |}.

(** A host on which no path exists and nothing works. *)
Definition bare_host : Host :=
  {| path_exists := fun _ => false;
     run_ok := fun _ => false;
     write_ok := fun _ _ => false |}.

(** The defaults with [BACKLIGHT_PATH] set. *)
Definition backlight_config : KioskConfig :=
  sample_config 90 400
    (Some "/sys/class/backlight/rpi_backlight/brightness"%string).

(** A kiosk with the given distance sensor, a light sensor that holds a
    driver object, a freshly built screen controller, and the last motion
    at [last]. *)
Definition kiosk_at (cfg : KioskConfig) (distance : Sensors.Sensor)
  (last : Q) : Main.Kiosk :=
  {| Main.sensors :=
       {| Sensors.bus := Some I2C_bus;
          Sensors.distance := distance;
          Sensors.light := held_sensor Light 0 0 |};
     Main.screen := Display.new_controller cfg;
     Main.loop := {| Main.last_motion_ts := last;
                     Main.last_health_log := 0%Q |} |}.

(** One iteration at clock reading [t] with the given driver answers. *)
Definition iteration (t : Q) (d : Device) : Main.Tick :=
  {| Main.tick_distance := world t None d;
     Main.tick_light := world t None d;
     Main.tick_now := t;
     Main.tick_host := host true true |}.

(** The defaults with a timeout of -1, which the bounds of the
    configuration exclude. *)
Definition impatient_config : KioskConfig :=
  sample_config (-1) 400 None.

(** * Properties *)

(** ** Rational arithmetic behind the float helpers *)

Section FloatFacts.

Lemma Qltb_lt (x y : Q) : Qltb x y = true <-> (x < y)%Q.
Proof.
  unfold Qltb. rewrite negb_true_iff. split.
  - intro H. apply Qnot_le_lt. intro Hle.
    apply Qle_bool_iff in Hle. congruence.
  - intro H. destruct (Qle_bool y x) eqn:E; [|reflexivity].
    apply Qle_bool_iff in E. exfalso. exact (Qlt_not_le _ _ H E).
Qed.

Lemma Qltb_ge (x y : Q) : Qltb x y = false <-> (y <= x)%Q.
Proof.
  unfold Qltb. rewrite negb_false_iff. apply Qle_bool_iff.
Qed.

Lemma py_max_lower (a b : Q) : (a <= py_max a b)%Q /\ (b <= py_max a b)%Q.
Proof.
  unfold py_max. destruct (Qltb a b) eqn:E.
  - apply Qltb_lt in E. split; [apply Qlt_le_weak; exact E | apply Qle_refl].
  - apply Qltb_ge in E. split; [apply Qle_refl | exact E].
Qed.

Lemma py_max_above (a b : Q) : (a <= b)%Q -> (py_max a b == b)%Q.
Proof.
  intro H. unfold py_max. destruct (Qltb a b) eqn:E.
  - reflexivity.
  - apply Qltb_ge in E. apply Qle_antisym; assumption.
Qed.

Lemma py_min_mono (a x y : Q) :
  (x <= y)%Q -> (py_min a x <= py_min a y)%Q.
Proof.
  intro H. unfold py_min.
  destruct (Qltb x a) eqn:Ex, (Qltb y a) eqn:Ey.
  - exact H.
  - apply Qltb_lt in Ex. apply Qlt_le_weak; exact Ex.
  - apply Qltb_ge in Ex. apply Qltb_lt in Ey. exfalso.
    apply (Qlt_irrefl a).
    apply Qle_lt_trans with x; [exact Ex|].
    apply Qle_lt_trans with y; assumption.
  - apply Qle_refl.
Qed.

Lemma py_min_saturates (a x : Q) : (a <= x)%Q -> py_min a x = a.
Proof.
  intro H. unfold py_min. apply Qltb_ge in H. rewrite H. reflexivity.
Qed.

Lemma py_min_below (a x : Q) : (x < a)%Q -> py_min a x = x.
Proof.
  intro H. unfold py_min. apply Qltb_lt in H. rewrite H. reflexivity.
Qed.

Lemma Qceiling_nonpos (x : Q) : (x <= 0)%Q -> Qceiling x <= 0.
Proof.
  intro H. change 0 with (Qceiling (inject_Z 0)).
  apply Qceiling_resp_le. exact H.
Qed.

Lemma Qfloor_nonneg (x : Q) : (0 <= x)%Q -> 0 <= Qfloor x.
Proof.
  intro H. change 0 with (Qfloor (inject_Z 0)).
  apply Qfloor_resp_le. exact H.
Qed.

Lemma int_of_float_mono (x y : Q) :
  (x <= y)%Q -> int_of_float x <= int_of_float y.
Proof.
  intro H. unfold int_of_float.
  destruct (Qle_bool 0 x) eqn:Ex, (Qle_bool 0 y) eqn:Ey.
  - apply Qfloor_resp_le; exact H.
  - apply Qle_bool_iff in Ex.
    assert (Hy : Qle_bool 0 y = true)
      by (apply Qle_bool_iff; apply Qle_trans with x; assumption).
    congruence.
  - apply Qle_bool_iff in Ey.
    assert (Hx : (x <= 0)%Q).
    { apply Qlt_le_weak. apply Qltb_lt. unfold Qltb. rewrite Ex. reflexivity. }
    pose proof (Qceiling_nonpos x Hx). pose proof (Qfloor_nonneg y Ey). lia.
  - apply Qceiling_resp_le; exact H.
Qed.

Lemma int_of_float_inject (x : Q) (z : Z) :
  (x == inject_Z z)%Q -> int_of_float x = z.
Proof.
  intro H. unfold int_of_float.
  rewrite (Qfloor_comp _ _ H), (Qceiling_comp _ _ H).
  rewrite Qfloor_Z, Qceiling_Z. destruct (Qle_bool 0 x); reflexivity.
Qed.

End FloatFacts.

(** ** Brightness as a function of ambient light *)

Section BrightnessFromLux.

Import Display.

Variable c : ScreenController.

Lemma brightness_from_lux_some (lux : Q) :
  brightness_from_lux c (Some lux)
  = Z.max (brightness_min (_config c))
      (Z.min (brightness_max (_config c)) (int_of_float (lux_value c lux))).
Proof. reflexivity. Qed.

Lemma lux_ceiling_pos : (0 < lux_ceiling c)%Q.
Proof.
  apply Qlt_le_trans with 1%Q; [reflexivity|].
  apply (py_max_lower 1 (brightness_lux_max (_config c))).
Qed.

Lemma ratio_mono (x y : Q) :
  (x <= y)%Q -> (x / lux_ceiling c <= y / lux_ceiling c)%Q.
Proof.
  intro H. unfold Qdiv. apply Qmult_le_compat_r; [exact H|].
  apply Qinv_le_0_compat. apply Qlt_le_weak. exact lux_ceiling_pos.
Qed.

Lemma lux_value_mono (x y : Q) :
  brightness_min (_config c) <= brightness_max (_config c) ->
  (x <= y)%Q -> (lux_value c x <= lux_value c y)%Q.
Proof.
  intros Hb H. unfold lux_value. apply Qplus_le_compat; [apply Qle_refl|].
  rewrite !(Qmult_comm (inject_Z _)).
  apply Qmult_le_compat_r.
  - apply py_min_mono, ratio_mono, H.
  - change 0%Q with (inject_Z 0). rewrite <- Zle_Qle. lia.
Qed.

Lemma lux_value_saturated (x : Q) :
  (lux_ceiling c <= x)%Q ->
  (lux_value c x == inject_Z (brightness_max (_config c)))%Q.
Proof.
  intro H. unfold lux_value. rewrite py_min_saturates.
  - rewrite Qmult_1_r, <- inject_Z_plus. apply inject_Z_injective. lia.
  - apply Qle_shift_div_l; [exact lux_ceiling_pos|].
    rewrite Qmult_1_l. exact H.
Qed.

Lemma lux_value_dark :
  (lux_value c 0 == inject_Z (brightness_min (_config c)))%Q.
Proof.
  unfold lux_value. rewrite py_min_below.
  - unfold Qdiv. rewrite Qmult_0_l, Qmult_0_r, Qplus_0_r. reflexivity.
  - unfold Qdiv. rewrite Qmult_0_l. reflexivity.
Qed.

End BrightnessFromLux.

Lemma default_config_valid : valid_config default_config.
Proof.
  unfold valid_config, Qle, Qlt; simpl. lia.
Qed.

Lemma dim_room_config_valid : valid_config dim_room_config.
Proof.
  unfold valid_config, Qle, Qlt; simpl. lia.
Qed.

(** The spec's scenario: lux 200 of 400, bounds 10 and 255, gives 132. *)
Example brightness_half_scale :
  Display.brightness_from_lux (Display.new_controller default_config)
    (Some 200%Q) = 132.
Proof. reflexivity. Qed.

(** ** C3 *)

(** C3, as stated, fails: with [BRIGHTNESS_LUX_MAX=0.5], which the bounds
    of the configuration accept, the brightness at [lux = lux_max] is 132,
    not [brightness_max = 255]. *)
Lemma brightness_at_lux_max_counterexample :
  valid_config dim_room_config /\
  Display.brightness_from_lux (Display.new_controller dim_room_config)
    (Some (brightness_lux_max dim_room_config)) = 132 /\
  Display.brightness_from_lux (Display.new_controller dim_room_config)
    (Some (brightness_lux_max dim_room_config))
  <> brightness_max dim_room_config.
Proof.
  split; [exact dim_room_config_valid|].
  split; [reflexivity|]. vm_compute. discriminate.
Qed.

(** C3, amended: for every configuration with [brightness_lux_max > 0]
    and [brightness_max > brightness_min], no lux gives the default
    brightness, lux 0 gives [brightness_min], lux [max(1.0, lux_max)]
    gives [brightness_max], the function is non-decreasing in lux, and it
    stays at [brightness_max] from [max(1.0, lux_max)] on; in particular
    lux [lux_max] gives [brightness_max] whenever [lux_max >= 1]. *)
Theorem brightness_from_lux_profile (c : Display.ScreenController) :
  (0 < brightness_lux_max (Display._config c))%Q ->
  brightness_min (Display._config c) < brightness_max (Display._config c) ->
  let cfg := Display._config c in
  let top := py_max 1 (brightness_lux_max cfg) in
  Display.brightness_from_lux c None = default_brightness cfg /\
  Display.brightness_from_lux c (Some 0%Q) = brightness_min cfg /\
  Display.brightness_from_lux c (Some top) = brightness_max cfg /\
  (forall x y : Q, (x <= y)%Q ->
     Display.brightness_from_lux c (Some x)
     <= Display.brightness_from_lux c (Some y)) /\
  (forall x : Q, (top <= x)%Q ->
     Display.brightness_from_lux c (Some x) = brightness_max cfg) /\
  ((1 <= brightness_lux_max cfg)%Q ->
     Display.brightness_from_lux c (Some (brightness_lux_max cfg))
     = brightness_max cfg).
Proof.
  intros _ Hb cfg top. fold cfg in Hb.
  assert (Hsat : forall x : Q, (top <= x)%Q ->
            Display.brightness_from_lux c (Some x) = brightness_max cfg).
  { intros x Hx. rewrite brightness_from_lux_some.
    rewrite (int_of_float_inject _ _ (lux_value_saturated c x Hx)).
    fold cfg. lia. }
  split; [reflexivity|].
  split.
  { rewrite brightness_from_lux_some.
    rewrite (int_of_float_inject _ _ (lux_value_dark c)). fold cfg. lia. }
  split; [apply Hsat, Qle_refl|].
  split.
  { intros x y Hxy. rewrite !brightness_from_lux_some.
    assert (Hm := int_of_float_mono _ _
                    (lux_value_mono c x y ltac:(fold cfg; lia) Hxy)).
    fold cfg in Hm |- *. lia. }
  split; [exact Hsat|].
  intro H1. apply Hsat. unfold top.
  rewrite (py_max_above _ _ H1). apply Qle_refl.
Qed.

Lemma brightness_from_lux_profile_witness :
  valid_config (Display._config (Display.new_controller default_config)) /\
  Display.brightness_from_lux (Display.new_controller default_config)
    (Some 400%Q) = 255 /\
  Display.brightness_from_lux (Display.new_controller default_config)
    (Some 150%Q)
  <= Display.brightness_from_lux (Display.new_controller default_config)
       (Some 250%Q).
Proof.
  split; [exact default_config_valid|].
  assert (Hlux : (0 < brightness_lux_max
                        (Display._config
                           (Display.new_controller default_config)))%Q)
    by reflexivity.
  assert (Hb : brightness_min
                 (Display._config (Display.new_controller default_config))
               < brightness_max
                   (Display._config (Display.new_controller default_config)))
    by reflexivity.
  destruct (brightness_from_lux_profile
              (Display.new_controller default_config) Hlux Hb)
    as (_ & _ & _ & Hmono & _ & Htop).
  split.
  - apply Htop. unfold Qle; simpl; lia.
  - apply Hmono. unfold Qle; simpl; lia.
Defined.

(** ** The sensor state machine *)

Section SensorLifecycle.

Import Sensors.

Lemma ready_passes (k : SensorKind) (w : Env) (s : Sensor) :
  Ready (clock_ready w) s -> _ready k w s = (true, s, []).
Proof.
  intros (He & Hs & Ht). unfold _ready. rewrite He. simpl.
  apply Qltb_ge in Ht. rewrite Ht.
  destruct (_sensor s); [reflexivity | congruence].
Qed.

Lemma read_when_ready (k : SensorKind) (w : Env) (s : Sensor) :
  Ready (clock_ready w) s ->
  read k w s =
  match read_try k (device w) with
  | (tr, Returned (Some v)) => (Some v, set_fail_count 0 s, tr)
  | (tr, Returned None) => (None, s, tr)
  | (tr, Raised) => (None, _backoff (clock_backoff w) (set_sensor None s), tr)
  end.
Proof.
  intro H. unfold read. rewrite (ready_passes k w s H). simpl.
  destruct H as (_ & Hs & _).
  destruct (_sensor s); [|congruence].
  destruct (read_try k (device w)) as [tr [[v|]|]]; reflexivity.
Qed.

Lemma data_ready_passes (d : Device) :
  dev_data_ready_probe d = NoAttr
  \/ (exists b, dev_data_ready_probe d = Yield b)
     /\ dev_data_ready d = Yield true ->
  exists tr, data_not_ready d = (tr, Returned false).
Proof.
  unfold data_not_ready.
  intros [Hp | [[b Hp] Hr]]; rewrite Hp; [|rewrite Hr]; simpl; eauto.
Qed.

Lemma invalid_value_returns_none (k : SensorKind) (d : Device) :
  invalid_value k d -> exists tr, read_try k d = (tr, Returned None).
Proof.
  destruct k; simpl.
  - intros (Hdr & Hdist & Hclr). unfold distance_try.
    destruct (data_ready_passes d Hdr) as [tr0 Hnr]. rewrite Hnr.
    unfold clear_interrupt.
    destruct Hdist as [Hd | [v [Hd Hinv]]]; rewrite Hd;
      destruct (dev_clear_interrupt d) as [| |[]]; try congruence;
      simpl; try rewrite Hinv; unfold ret; simpl; eauto.
  - unfold light_try. intros [H | H]; rewrite H; simpl; eauto.
Qed.

Lemma backoff_fields (now : Q) (s : Sensor) :
  _fail_count (_backoff now s) = _fail_count s + 1 /\
  _next_attempt (_backoff now s)
  = (now + inject_Z (Z.min (2 ^ (_fail_count s + 1)) 60))%Q /\
  _enabled (_backoff now s) = _enabled s /\
  _sensor (_backoff now s) = _sensor s /\
  _i2c (_backoff now s) = _i2c s.
Proof. repeat split. Qed.

Lemma disabled_step (k : SensorKind) (op : Op) (s : Sensor) :
  Disabled s ->
  Disabled (fst (fst (apply_op k op s)))
  /\ silent (snd (fst (apply_op k op s)))
  /\ snd (apply_op k op s) = [].
Proof.
  intros [He Hs]. destruct op; simpl.
  - unfold read, _ready. rewrite He. simpl. repeat split; assumption.
  - unfold _ready. rewrite He. simpl. repeat split; assumption.
  - unfold _attempt_init. rewrite He. simpl. repeat split; assumption.
  - repeat split; assumption.
  - repeat split.
  - unfold is_supported. rewrite Hs. repeat split; assumption.
Qed.

Lemma disabled_is_terminal (k : SensorKind) (ops : list Op) :
  forall s : Sensor,
    Disabled s ->
    Disabled (fst (fst (apply_ops k ops s)))
    /\ Forall silent (snd (fst (apply_ops k ops s)))
    /\ snd (apply_ops k ops s) = [].
Proof.
  induction ops as [|op ops IH]; intros s Hd; simpl.
  - repeat split; [apply Hd | apply Hd | constructor].
  - destruct (disabled_step k op s Hd) as (Hd1 & Hr & Htr).
    destruct (apply_op k op s) as [[s1 r] tr1]; simpl in *.
    specialize (IH s1 Hd1).
    destruct (apply_ops k ops s1) as [[s2 rs] tr2]; simpl in *.
    destruct IH as (Hd2 & Hrs & Htr2). subst.
    repeat split; try apply Hd2. constructor; assumption.
Qed.

Lemma new_sensor_without_bus (k : SensorKind) (enabled : bool) (w : Env) :
  Disabled (fst (new_sensor k enabled None w))
  /\ snd (new_sensor k enabled None w) = [].
Proof.
  destruct enabled; repeat split.
Qed.

End SensorLifecycle.

Lemma held_sensor_ready (k : SensorKind) (fails : Z) :
  Ready 5 (held_sensor k fails 0).
Proof.
  repeat split; [discriminate | unfold Qle; simpl; lia].
Qed.

(** ** [_fail_count] is never negative *)

Section Reachable.

Import Sensors.

Ltac split_cases :=
  repeat match goal with
         | |- context [match ?x with _ => _ end] => destruct x eqn:?
         | |- context [if ?x then _ else _] => destruct x eqn:?
         end.

Lemma attempt_init_fail_count (k : SensorKind) (w : Env) (s : Sensor) :
  0 <= _fail_count s -> 0 <= _fail_count (fst (_attempt_init k w s)).
Proof.
  intro H. unfold _attempt_init. split_cases; simpl; lia.
Qed.

Lemma ready_fail_count (k : SensorKind) (w : Env) (s : Sensor) :
  0 <= _fail_count s -> 0 <= _fail_count (snd (fst (_ready k w s))).
Proof.
  intro H. unfold _ready.
  pose proof (attempt_init_fail_count k w s H) as Hi.
  destruct (_attempt_init k w s) as [s1 tr]. simpl in Hi.
  split_cases; simpl; assumption.
Qed.

Lemma read_fail_count (k : SensorKind) (w : Env) (s : Sensor) :
  0 <= _fail_count s -> 0 <= _fail_count (snd (fst (read k w s))).
Proof.
  intro H. unfold read.
  pose proof (ready_fail_count k w s H) as Hr.
  destruct (_ready k w s) as [[ok s1] tr1]. simpl in Hr.
  destruct (read_try k (device w)) as [tr2 [[v|]|]];
    split_cases; simpl; lia.
Qed.

Lemma fail_count_never_negative (k : SensorKind) (ops : list Op) :
  forall s : Sensor,
    0 <= _fail_count s -> 0 <= _fail_count (fst (fst (apply_ops k ops s))).
Proof.
  induction ops as [|op ops IH]; intros s H; simpl; [exact H|].
  assert (H1 : 0 <= _fail_count (fst (fst (apply_op k op s)))).
  { destruct op; simpl.
    - pose proof (read_fail_count k w s H) as Hr.
      destruct (read k w s) as [[v s1] tr]. exact Hr.
    - pose proof (ready_fail_count k w s H) as Hr.
      destruct (_ready k w s) as [[b s1] tr]. exact Hr.
    - pose proof (attempt_init_fail_count k w s H) as Hr.
      destruct (_attempt_init k w s) as [s1 tr]. exact Hr.
    - lia.
    - exact H.
    - exact H. }
  destruct (apply_op k op s) as [[s1 r] tr1]. simpl in H1.
  specialize (IH s1 H1).
  destruct (apply_ops k ops s1) as [[s2 rs] tr2]. exact IH.
Qed.

End Reachable.

(** ** C1 *)

(** C1, as stated, fails: a [Ready] distance sensor that reads distance 0,
    and a [Ready] light sensor whose lux is [None], return [None] and stay
    exactly as they were; the driver object is kept and [_fail_count] is
    not incremented. *)
Lemma invalid_reading_counterexample :
  let d := answering true (Some 0%Q) None in
  let sd := held_sensor Distance 0 0 in
  let sl := held_sensor Light 0 0 in
  Ready 5 sd /\ invalid_value Distance d /\
  Ready 5 sl /\ invalid_value Light d /\
  Sensors.read Distance (world 5 None d) sd
  = (None, sd,
     [Bus ReadDataReady; Bus ReadDataReady; Bus ReadDistance;
      Bus ClearInterrupt]) /\
  Sensors.read Light (world 5 None d) sl = (None, sl, [Bus ReadLux]) /\
  ~ (Sensors._sensor
       (snd (fst (Sensors.read Distance (world 5 None d) sd))) = None) /\
  ~ (Sensors._fail_count
       (snd (fst (Sensors.read Light (world 5 None d) sl)))
     = Sensors._fail_count sl + 1).
Proof.
  cbv zeta.
  split; [apply held_sensor_ready|].
  split.
  { simpl. repeat split.
    - right. split; [exists true|]; reflexivity.
    - right. exists (Some 0%Q). split; reflexivity.
    - discriminate. }
  split; [apply held_sensor_ready|].
  split; [right; reflexivity|].
  split; [reflexivity|].
  split; [reflexivity|].
  split; vm_compute; discriminate.
Qed.

(** C1, amended: for every sensor in state [Ready], a read that yields a
    semantically invalid value (a distance that is missing or not strictly
    positive, a missing lux value) returns [None] and leaves the sensor
    exactly as it was: the driver object is kept, [_fail_count] is neither
    incremented nor reset, no backoff is scheduled.  Only a read in which
    the capability raises is handled as an I/O failure: the driver object
    is dropped, [_fail_count] is incremented, a backoff is scheduled and
    [None] is returned. *)
Theorem invalid_reading_is_neutral (k : SensorKind) (w : Env)
  (s : Sensors.Sensor) :
  Ready (clock_ready w) s ->
  (invalid_value k (device w) ->
   exists tr, Sensors.read k w s = (None, s, tr)) /\
  (read_raises k (device w) ->
   exists tr,
     Sensors.read k w s
     = (None,
        {| Sensors._enabled := true;
           Sensors._sensor := None;
           Sensors._fail_count := Sensors._fail_count s + 1;
           Sensors._next_attempt :=
             (clock_backoff w
              + inject_Z (Z.min (2 ^ (Sensors._fail_count s + 1)) 60))%Q;
           Sensors._i2c := Sensors._i2c s |},
        tr)).
Proof.
  intro Hr. rewrite (read_when_ready k w s Hr). split.
  - intro Hi. destruct (invalid_value_returns_none k _ Hi) as [tr Ht].
    rewrite Ht. eauto.
  - intros [tr Ht]. rewrite Ht. exists tr.
    destruct Hr as (He & _ & _).
    unfold Sensors._backoff, Sensors.set_next_attempt,
      Sensors.set_fail_count, Sensors.set_sensor. simpl.
    rewrite He. reflexivity.
Qed.

Lemma invalid_reading_is_neutral_witness :
  exists tr,
    Sensors.read Distance (world 5 None (answering true (Some 0%Q) None))
      (held_sensor Distance 2 0)
    = (None, held_sensor Distance 2 0, tr).
Proof.
  apply (invalid_reading_is_neutral Distance
           (world 5 None (answering true (Some 0%Q) None))
           (held_sensor Distance 2 0)).
  - repeat split; [discriminate | unfold Qle; simpl; lia].
  - simpl. repeat split.
    + right. split; [exists true|]; reflexivity.
    + right. exists (Some 0%Q). split; reflexivity.
    + discriminate.
Defined.

(** ** C4 *)





(** The first seven delays of the schedule. *)
Example backoff_delays :
  map (fun n => Sensors._next_attempt
                  (Sensors._backoff 0 (waiting_sensor n 0)))
      [0; 1; 2; 3; 4; 5; 6]
  = map (fun d => (0 + inject_Z d)%Q) [2; 4; 8; 16; 32; 60; 60].
Proof. reflexivity. Qed.

(** ** C5 *)

(** C5: while the clock reading is before [_next_attempt], [read] of
    either sensor returns [None], causes no bus traffic (so neither a read
    nor an initialisation attempt) and leaves the sensor as it was. *)
Theorem read_waits_for_backoff (k : SensorKind) (w : Env)
  (s : Sensors.Sensor) :
  (clock_ready w < Sensors._next_attempt s)%Q ->
  Sensors.read k w s = (None, s, []) /\
  Sensors._ready k w s = (false, s, []).
Proof.
  intro Hlt. apply Qltb_lt in Hlt.
  unfold Sensors.read, Sensors._ready. rewrite Hlt.
  destruct (Sensors._enabled s); split; reflexivity.
Qed.

Lemma read_waits_for_backoff_witness :
  Sensors.read Distance (world 3 (Some (Driver Distance 1))
                           (answering true (Some 1200%Q) None))
    (waiting_sensor 2 4)
  = (None, waiting_sensor 2 4, []).
Proof.
  apply (read_waits_for_backoff Distance
           (world 3 (Some (Driver Distance 1))
              (answering true (Some 1200%Q) None))
           (waiting_sensor 2 4)).
  unfold Qlt; simpl; lia.
Defined.

(** ** C10 *)

(** C10: a [Ready] distance sensor whose driver object answers
    [data_ready] with [False] returns [None] and stays exactly as it was;
    the only bus traffic is the two looks at [data_ready]. *)
Theorem data_not_ready_is_neutral (w : Env) (s : Sensors.Sensor) (b : bool) :
  Ready (clock_ready w) s ->
  dev_data_ready_probe (device w) = Yield b ->
  dev_data_ready (device w) = Yield false ->
  Sensors.read Distance w s
  = (None, s, [Bus ReadDataReady; Bus ReadDataReady]).
Proof.
  intros Hr Hp Hd. rewrite (read_when_ready Distance w s Hr). simpl.
  unfold Sensors.distance_try, Sensors.data_not_ready.
  rewrite Hp, Hd. reflexivity.
Qed.

Lemma data_not_ready_is_neutral_witness :
  Sensors.read Distance (world 5 None (answering false (Some 1200%Q) None))
    (held_sensor Distance 3 0)
  = (None, held_sensor Distance 3 0, [Bus ReadDataReady; Bus ReadDataReady]).
Proof.
  apply (data_not_ready_is_neutral
           (world 5 None (answering false (Some 1200%Q) None))
           (held_sensor Distance 3 0) false).
  - repeat split; [discriminate | unfold Qle; simpl; lia].
  - reflexivity.
  - reflexivity.
Defined.

(** The two other outcomes of a [Ready] distance sensor, for contrast: a
    valid distance resets [_fail_count]; a raising capability drops the
    driver object and schedules a backoff. *)
Example distance_read_success :
  Sensors.read Distance (world 5 None (answering true (Some 1200%Q) None))
    (held_sensor Distance 3 0)
  = (Some 1200%Q, held_sensor Distance 0 0,
     [Bus ReadDataReady; Bus ReadDataReady; Bus ReadDistance;
      Bus ClearInterrupt]).
Proof. reflexivity. Qed.

Example distance_read_failure :
  Sensors.read Distance (world 5 None broken) (held_sensor Distance 3 0)
  = (None,
     {| Sensors._enabled := true;
        Sensors._sensor := None;
        Sensors._fail_count := 4;
        Sensors._next_attempt := (5 + inject_Z 16)%Q;
        Sensors._i2c := Some I2C_bus |},
     [Bus ReadDataReady]).
Proof. reflexivity. Qed.

(** ** C6 *)

(** C6: when the bus cannot be acquired although a sensor is enabled in
    the configuration, building the suite touches the bus once and builds
    no driver object, and leaves both sensors [Disabled]; from [Disabled],
    whatever methods are called in whatever worlds, the sensor stays
    [Disabled], every [read] returns [None], [is_supported] and [_ready]
    answer [False], and there is no bus traffic at all. *)
Theorem bus_failure_disables_for_good (cfg : KioskConfig) (wd wl : Env) :
  enable_distance_sensor cfg || enable_light_sensor cfg = true ->
  let u := fst (Sensors.new_suite cfg None wd wl) in
  snd (Sensors.new_suite cfg None wd wl) = [Bus AcquireBus] /\
  Disabled (Sensors.distance u) /\
  Disabled (Sensors.light u) /\
  Sensors.health_snapshot u = (false, false, false) /\
  (forall (k : SensorKind) (s : Sensors.Sensor) (ops : list Op),
     Disabled s ->
     Disabled (fst (fst (apply_ops k ops s)))
     /\ Sensors.is_supported (fst (fst (apply_ops k ops s))) = false
     /\ Forall silent (snd (fst (apply_ops k ops s)))
     /\ snd (apply_ops k ops s) = []).
Proof.
  intros Hen u.
  assert (Hd := new_sensor_without_bus Distance
                  (enable_distance_sensor cfg) wd).
  assert (Hl := new_sensor_without_bus Light (enable_light_sensor cfg) wl).
  assert (Hu : Sensors.new_suite cfg None wd wl
               = ({| Sensors.bus := None;
                     Sensors.distance :=
                       fst (Sensors.new_sensor Distance
                              (enable_distance_sensor cfg) None wd);
                     Sensors.light :=
                       fst (Sensors.new_sensor Light
                              (enable_light_sensor cfg) None wl) |},
                  [Bus AcquireBus])).
  { unfold Sensors.new_suite, Sensors._init_i2c_bus. rewrite Hen. simpl.
    destruct (Sensors.new_sensor Distance _ None wd) as [d tr1].
    destruct (Sensors.new_sensor Light _ None wl) as [l tr2].
    simpl in *. destruct Hd as [_ ->], Hl as [_ ->]. reflexivity. }
  subst u. rewrite Hu. simpl.
  split; [reflexivity|].
  split; [apply Hd|].
  split; [apply Hl|].
  split.
  { unfold Sensors.health_snapshot, Sensors.distance_supported,
      Sensors.light_supported, Sensors.is_supported. simpl.
    destruct Hd as [[_ ->] _], Hl as [[_ ->] _]. reflexivity. }
  intros k s ops Hs.
  destruct (disabled_is_terminal k ops s Hs) as (H1 & H2 & H3).
  repeat split; try apply H1; try assumption.
  unfold Sensors.is_supported. destruct H1 as [_ ->]. reflexivity.
Qed.

Lemma bus_failure_disables_for_good_witness :
  let w := world 0 (Some (Driver Distance 1))
             (answering true (Some 1200%Q) (Some 200%Q)) in
  let u := fst (Sensors.new_suite default_config None w w) in
  snd (Sensors.new_suite default_config None w w) = [Bus AcquireBus] /\
  Disabled (Sensors.distance u) /\
  Disabled (Sensors.light u) /\
  Sensors.health_snapshot u = (false, false, false).
Proof.
  cbv zeta.
  pose proof (bus_failure_disables_for_good default_config
                (world 0 (Some (Driver Distance 1))
                   (answering true (Some 1200%Q) (Some 200%Q)))
                (world 0 (Some (Driver Distance 1))
                   (answering true (Some 1200%Q) (Some 200%Q)))
                eq_refl) as H.
  cbv zeta in H. destruct H as (H1 & H2 & H3 & H4 & _).
  repeat split; first [exact H1 | apply H2 | apply H3 | exact H4].
Defined.

(** A disabled sensor asked to read a hundred seconds later, with the bus
    back and a healthy driver object on offer, still does nothing. *)
Example disabled_sensor_stays_quiet :
  apply_ops Distance
    [Op_read (world 100 (Some (Driver Distance 1))
                (answering true (Some 1200%Q) None));
     Op_is_supported]
    (Sensors.disable (held_sensor Distance 0 0))
  = (Sensors.disable (held_sensor Distance 0 0),
     [Reply_value None; Reply_bool false], []).
Proof. reflexivity. Qed.

(** ** The screen controller *)

Section ScreenPower.

Import Display.

Lemma use_brightnessctl_at_most_one (h : Host) (c : ScreenController)
  (t : Z) : (List.length (snd (_use_brightnessctl h c t)) <= 1)%nat.
Proof.
  unfold _use_brightnessctl.
  destruct (negb (truthy (_brightnessctl_bin c))
            || negb (path_exists h (_brightnessctl_bin c))); simpl; lia.
Qed.

Lemma write_backlight_file_at_most_one (h : Host) (c : ScreenController)
  (t : Z) : (List.length (snd (_write_backlight_file h c t)) <= 1)%nat.
Proof.
  unfold _write_backlight_file.
  destruct (_backlight_path c) as [p|]; simpl; [|lia].
  destruct (negb (truthy p)); simpl; lia.
Qed.

Lemma backends_at_most_two (h : Host) (c : ScreenController) (t : Z) :
  (List.length (snd (backends h c t)) <= 2)%nat.
Proof.
  unfold backends.
  pose proof (use_brightnessctl_at_most_one h c t) as H1.
  pose proof (write_backlight_file_at_most_one h c t) as H2.
  destruct (_use_brightnessctl h c t) as [[|] tr1]; simpl in *; [lia|].
  destruct (_write_backlight_file h c t) as [ok2 tr2]; simpl in *.
  rewrite List.length_app. lia.
Qed.

(** The backends look at the configuration copied into the controller,
    not at its tracked state. *)
Lemma backends_ignore_state (h : Host) (c : ScreenController)
  (st : DisplayState) (t : Z) :
  backends h (set_state st c) t = backends h c t.
Proof. reflexivity. Qed.

Lemma backends_ignore_warned (h : Host) (c : ScreenController)
  (b : bool) (t : Z) :
  backends h (set_warned b c) t = backends h c t.
Proof. reflexivity. Qed.

Lemma set_brightness_unfold (h : Host) (c : ScreenController) (target : Z) :
  set_brightness h c target =
  if brightness_is c (clamp c target) then (c, [])
  else if fst (backends h c (clamp c target))
       then (set_state_brightness (clamp c target) c,
             snd (backends h c (clamp c target)))
       else ((if negb (_warned_brightness c) then set_warned true c else c),
             snd (backends h c (clamp c target))).
Proof.
  unfold set_brightness, backends.
  destruct (brightness_is c (clamp c target)); [reflexivity|].
  destruct (_use_brightnessctl h c (clamp c target)) as [[|] tr1];
    [reflexivity|].
  destruct (_write_backlight_file h c (clamp c target)) as [[|] tr2];
    reflexivity.
Qed.

End ScreenPower.

(** ** C8 *)

(** C8: [wake_screen] and [sleep_screen] do nothing when the tracked
    [screen_on] already has the requested value; otherwise each issues
    exactly one [xset] command and sets [screen_on] to the requested value
    whatever the command's exit status; a second call requesting the same
    state right after issues nothing, so the two calls together issue at
    most one command. *)
Theorem screen_power_is_idempotent (h h' : Host)
  (c : Display.ScreenController) :
  Display.wake_screen h c
  = (if Display.screen_on (Display._state c) then (c, [])
     else (Display.set_screen_on true c, [Spawn xset_on])) /\
  Display.sleep_screen h c
  = (if Display.screen_on (Display._state c)
     then (Display.set_screen_on false c, [Spawn xset_off])
     else (c, [])) /\
  Display.screen_on (Display._state (fst (Display.wake_screen h c))) = true /\
  Display.screen_on (Display._state (fst (Display.sleep_screen h c))) = false /\
  Display.wake_screen h' (fst (Display.wake_screen h c))
  = (fst (Display.wake_screen h c), []) /\
  Display.sleep_screen h' (fst (Display.sleep_screen h c))
  = (fst (Display.sleep_screen h c), []) /\
  (List.length (snd (Display.wake_screen h c)
                ++ snd (Display.wake_screen h'
                          (fst (Display.wake_screen h c)))) <= 1)%nat /\
  (List.length (snd (Display.sleep_screen h c)
                ++ snd (Display.sleep_screen h'
                          (fst (Display.sleep_screen h c)))) <= 1)%nat.
Proof.
  unfold Display.wake_screen, Display.sleep_screen.
  destruct (Display.screen_on (Display._state c)) eqn:E; simpl;
    rewrite ?E; simpl; repeat split; lia.
Qed.

(** The tracked state after a wake or a sleep that went out differs from
    the old one in [screen_on] only. *)
Example wake_after_sleep :
  let c := Display.new_controller default_config in
  let c1 := fst (Display.sleep_screen (host false false) c) in
  Display.wake_screen (host false false) c1 = (c, [Spawn xset_on]).
Proof. reflexivity. Qed.

(** ** C9 *)

(** C9: a freshly built controller tracks [screen_on = True] and no
    applied brightness; its first [wake_screen] issues nothing and its
    first [sleep_screen] issues exactly one command. *)
Theorem fresh_controller_is_awake (cfg : KioskConfig) (h : Host) :
  Display._state (Display.new_controller cfg)
  = {| Display.screen_on := true; Display.brightness := None |} /\
  Display.wake_screen h (Display.new_controller cfg)
  = (Display.new_controller cfg, []) /\
  snd (Display.sleep_screen h (Display.new_controller cfg))
  = [Spawn xset_off] /\
  List.length (snd (Display.sleep_screen h (Display.new_controller cfg)))
  = 1%nat.
Proof. repeat split. Qed.

(** ** C2 *)

(** C2, as stated, fails.  With [brightnessctl] present but exiting
    non-zero and a backlight file that can be written, two calls with the
    same value issue two commands, not one.  With no backend available, a
    target that differs from the last applied brightness issues no command
    at all. *)
Lemma set_brightness_counterexample :
  let c := Display.new_controller backlight_config in
  let h := host false true in
  let first := Display.set_brightness h c 132 in
  let second := Display.set_brightness h (fst first) 132 in
  snd first
  = [Spawn ["/usr/bin/brightnessctl"; "set"; "132"]%string;
     WriteFile "/sys/class/backlight/rpi_backlight/brightness" "132"] /\
  snd second = [] /\
  List.length (snd first ++ snd second) <> 1%nat /\
  let c0 := Display.new_controller default_config in
  Display.brightness_is c0 (Display.clamp c0 132) = false /\
  Display.set_brightness bare_host c0 132
  = (Display.set_warned true c0, []).
Proof.
  cbv zeta. repeat split. vm_compute. discriminate.
Qed.

(** C2, amended: [set_brightness] issues no command and changes nothing
    when the clamped target equals the last applied brightness.
    Otherwise it goes through the backends in order, [brightnessctl] when
    its binary is configured and exists, then, if that did not succeed,
    the backlight file when a path is configured, which makes between
    zero and two commands.  If a backend succeeds, the last applied
    brightness becomes the clamped target and a repeated call with the
    same value issues nothing; the two calls together issue exactly one
    command when it is the first backend tried that succeeds.  If no
    backend succeeds, the tracked state is unchanged and a later call with
    the same target goes through the backends again. *)
Theorem set_brightness_is_idempotent (h h' : Host)
  (c : Display.ScreenController) (target : Z) :
  let t := Display.clamp c target in
  let c' := fst (Display.set_brightness h c target) in
  let tr := snd (Display.set_brightness h c target) in
  let tr' := snd (Display.set_brightness h' c' target) in
  (Display.brightness_is c t = true -> c' = c /\ tr = []) /\
  (Display.brightness_is c t = false ->
   tr = snd (backends h c t) /\ (List.length tr <= 2)%nat) /\
  (Display.brightness_is c t = false -> fst (backends h c t) = true ->
   Display.brightness (Display._state c') = Some t
   /\ Display.set_brightness h' c' target = (c', [])) /\
  (Display.brightness_is c t = false ->
   fst (Display._use_brightnessctl h c t) = true
   \/ snd (Display._use_brightnessctl h c t) = []
      /\ fst (Display._write_backlight_file h c t) = true ->
   List.length (tr ++ tr') = 1%nat) /\
  (Display.brightness_is c t = false -> fst (backends h c t) = false ->
   Display._state c' = Display._state c
   /\ tr' = snd (backends h' c t)).
Proof.
  intros t c' tr tr'. subst c' tr tr'.
  rewrite (set_brightness_unfold h c target). fold t.
  destruct (Display.brightness_is c t) eqn:Eis.
  { repeat split; intros; discriminate. }
  split; [discriminate|].
  split.
  { intros _. split; [|destruct (fst (backends h c t))];
      try apply backends_at_most_two.
    destruct (fst (backends h c t)); reflexivity. }
  assert (Hok : fst (backends h c t) = true ->
          Display.set_brightness h' (Display.set_state_brightness t c) target
          = (Display.set_state_brightness t c, [])).
  { intros _. rewrite set_brightness_unfold.
    change (Display.clamp (Display.set_state_brightness t c) target) with t.
    unfold Display.brightness_is at 1. simpl. rewrite Z.eqb_refl.
    reflexivity. }
  split.
  { intros _ Hb. rewrite Hb. simpl. split; [reflexivity | exact (Hok Hb)]. }
  split.
  { intros _ Hfirst.
    assert (Hb : fst (backends h c t) = true
                 /\ List.length (snd (backends h c t)) = 1%nat).
    { unfold backends, Display._use_brightnessctl,
        Display._write_backlight_file, Display._run in *.
      destruct (negb (truthy (Display._brightnessctl_bin c))
                || negb (path_exists h (Display._brightnessctl_bin c)));
        simpl in *.
      - destruct Hfirst as [Hf | [_ Hf]]; [discriminate|].
        destruct (Display._backlight_path c) as [p|]; simpl in *;
          [|discriminate].
        destruct (negb (truthy p)); simpl in *; [discriminate|].
        rewrite Hf. split; reflexivity.
      - destruct Hfirst as [Hf | [Hf _]]; [|discriminate].
        rewrite Hf. split; reflexivity. }
    destruct Hb as [Hb Hlen]. rewrite Hb. simpl.
    rewrite (Hok Hb). simpl. rewrite List.app_nil_r. exact Hlen. }
  intros _ Hb. rewrite Hb. simpl.
  destruct (negb (Display._warned_brightness c)); simpl.
  - split; [reflexivity|]. rewrite set_brightness_unfold.
    change (Display.clamp (Display.set_warned true c) target) with t.
    change (Display.brightness_is (Display.set_warned true c) t)
      with (Display.brightness_is c t).
    rewrite Eis, backends_ignore_warned.
    destruct (fst (backends h' c t)); reflexivity.
  - split; [reflexivity|]. rewrite set_brightness_unfold. fold t.
    rewrite Eis. destruct (fst (backends h' c t)); reflexivity.
Qed.

(** ** The control loop *)

Section ControlLoop.

Import Sensors Display Main.

Lemma calls_app (a b : list Event) : calls (a ++ b) = calls a ++ calls b.
Proof. apply filter_app. Qed.

Lemma calls_in (c : Call) (tr : list Event) :
  In (Invoke c) tr <-> In (Invoke c) (calls tr).
Proof.
  unfold calls. rewrite filter_In. simpl. tauto.
Qed.

Lemma read_try_no_calls (k : SensorKind) (d : Device) :
  calls (fst (read_try k d)) = [].
Proof.
  destruct k; simpl.
  - unfold distance_try, data_not_ready, clear_interrupt.
    destruct (dev_data_ready_probe d) as [| |p]; try reflexivity;
      destruct (dev_data_ready d) as [| |[|]]; try reflexivity;
      destruct (dev_distance d) as [| |v]; try reflexivity;
      destruct (dev_clear_interrupt d) as [| |u]; try reflexivity;
      simpl; try destruct (distance_invalid v); reflexivity.
  - unfold light_try. destruct (dev_lux d) as [| |[v|]]; reflexivity.
Qed.

Lemma attempt_init_no_calls (k : SensorKind) (w : Env) (s : Sensor) :
  calls (snd (_attempt_init k w s)) = [].
Proof.
  unfold _attempt_init.
  destruct (_enabled s), (_i2c s), (new_driver w), k; reflexivity.
Qed.

Lemma ready_no_calls (k : SensorKind) (w : Env) (s : Sensor) :
  calls (snd (_ready k w s)) = [].
Proof.
  unfold _ready.
  destruct (negb (_enabled s)); [reflexivity|].
  destruct (Qltb (clock_ready w) (_next_attempt s)); [reflexivity|].
  destruct (_sensor s); [reflexivity|].
  pose proof (attempt_init_no_calls k w s) as H.
  destruct (_attempt_init k w s) as [s1 tr]. exact H.
Qed.

Lemma read_no_calls (k : SensorKind) (w : Env) (s : Sensor) :
  calls (snd (read k w s)) = [].
Proof.
  unfold read.
  pose proof (ready_no_calls k w s) as H1.
  pose proof (read_try_no_calls k (device w)) as H2.
  destruct (_ready k w s) as [[ok s1] tr1]. simpl in H1.
  destruct ok; simpl; [|exact H1].
  destruct (_sensor s1); [|exact H1].
  destruct (read_try k (device w)) as [tr2 [[v|]|]]; simpl in *;
    rewrite calls_app, H1, H2; reflexivity.
Qed.

Lemma suite_read_no_calls (wd wl : Env) (u : SensorSuite) :
  calls (snd (suite_read wd wl u)) = [].
Proof.
  unfold suite_read.
  pose proof (read_no_calls Distance wd (distance u)) as H1.
  pose proof (read_no_calls Light wl (light u)) as H2.
  destruct (read Distance wd (distance u)) as [[dv d] tr1].
  destruct (read Light wl (light u)) as [[lv l] tr2]. simpl in *.
  rewrite calls_app, H1, H2. reflexivity.
Qed.

Lemma wake_screen_no_calls (h : Host) (c : ScreenController) :
  calls (snd (wake_screen h c)) = [].
Proof.
  unfold wake_screen. destruct (screen_on (_state c)); reflexivity.
Qed.

Lemma sleep_screen_no_calls (h : Host) (c : ScreenController) :
  calls (snd (sleep_screen h c)) = [].
Proof.
  unfold sleep_screen. destruct (screen_on (_state c)); reflexivity.
Qed.

Lemma set_brightness_no_calls (h : Host) (c : ScreenController) (t : Z) :
  calls (snd (set_brightness h c t)) = [].
Proof.
  unfold set_brightness, _use_brightnessctl, _write_backlight_file, _run.
  destruct (brightness_is c (clamp c t)); [reflexivity|].
  destruct (negb (truthy (_brightnessctl_bin c))
            || negb (path_exists h (_brightnessctl_bin c)));
    [|destruct (run_ok h _); [reflexivity|]];
    (destruct (_backlight_path c) as [p|];
     [destruct (negb (truthy p)); [|destruct (write_ok h p _)]|]);
    reflexivity.
Qed.

(** The calls one iteration makes, in order, and what it leaves in
    [last_motion_ts] and in the suite. *)
Lemma tick_calls (cfg : KioskConfig) (w : Tick) (k : Kiosk) :
  let after_read := suite_read (tick_distance w) (tick_light w) (sensors k) in
  let readings := fst (fst after_read) in
  let k' := fst (tick cfg w k) in
  sensors k' = snd (fst after_read) /\
  last_motion_ts (loop k')
  = (if presence cfg readings then tick_now w else last_motion_ts (loop k)) /\
  exists target : Z,
    calls (snd (tick cfg w k))
    = (if presence cfg readings then [Invoke Call_wake_screen] else [])
      ++ (if enable_distance_sensor cfg && distance_supported (sensors k')
             && Qltb (inject_Z (inactivity_timeout_sec cfg))
                  (tick_now w - last_motion_ts (loop k'))%Q
          then [Invoke Call_sleep_screen] else [])
      ++ [Invoke (Call_set_brightness target)].
Proof.
  cbv zeta. unfold tick, presence.
  pose proof (suite_read_no_calls (tick_distance w) (tick_light w)
                (sensors k)) as Hread.
  destruct (suite_read (tick_distance w) (tick_light w) (sensors k))
    as [[readings sensors1] tr_read]. simpl in Hread. simpl fst. simpl snd.
  pose proof (wake_screen_no_calls (tick_host w) (screen k)) as Hwake.
  destruct (wake_screen (tick_host w) (screen k)) as [sc_w tr_w].
  simpl in Hwake.
  set (seen := match distance_mm readings with
               | Some d => Qle_bool d (inject_Z (distance_threshold_mm cfg))
               | None => false
               end).
  assert (Hstep :
    match distance_mm readings with
    | Some d =>
      if Qle_bool d (inject_Z (distance_threshold_mm cfg))
      then (tick_now w, sc_w, Invoke Call_wake_screen :: tr_w)
      else (last_motion_ts (loop k), screen k, [])
    | None => (last_motion_ts (loop k), screen k, [])
    end
    = (if seen then tick_now w else last_motion_ts (loop k),
       if seen then sc_w else screen k,
       if seen then Invoke Call_wake_screen :: tr_w else [])).
  { subst seen. destruct (distance_mm readings) as [d|]; [|reflexivity].
    destruct (Qle_bool d _); reflexivity. }
  rewrite Hstep. clear Hstep.
  set (motion1 := if seen then tick_now w else last_motion_ts (loop k)).
  set (screen1 := if seen then sc_w else screen k).
  set (go := enable_distance_sensor cfg && distance_supported sensors1
             && Qltb (inject_Z (inactivity_timeout_sec cfg))
                  (tick_now w - motion1)%Q).
  pose proof (sleep_screen_no_calls (tick_host w) screen1) as Hsleep.
  destruct (sleep_screen (tick_host w) screen1) as [sc_s tr_s].
  simpl in Hsleep.
  assert (Hstep :
    (if go then (sc_s, Invoke Call_sleep_screen :: tr_s) else (screen1, []))
    = (if go then sc_s else screen1,
       if go then Invoke Call_sleep_screen :: tr_s else []))
    by (destruct go; reflexivity).
  rewrite Hstep. clear Hstep.
  set (screen2 := if go then sc_s else screen1).
  set (target := brightness_from_lux screen2 (ambient_lux readings)).
  pose proof (set_brightness_no_calls (tick_host w) screen2 target) as Hset.
  destruct (set_brightness (tick_host w) screen2 target) as [sc_b tr_b].
  simpl in Hset. simpl.
  split; [reflexivity|]. split; [reflexivity|].
  exists target. rewrite !calls_app, Hread. simpl. rewrite Hset.
  change (enable_distance_sensor cfg && distance_supported sensors1
          && Qltb (inject_Z (inactivity_timeout_sec cfg))
               (tick_now w - motion1)%Q) with go.
  clearbody target go motion1 seen.
  destruct seen, go; simpl; rewrite ?Hwake, ?Hsleep; reflexivity.
Qed.

End ControlLoop.

Section SleepDecision.

Import Sensors Display Main.

Lemma read_when_disabled (k : SensorKind) (w : Env) (s : Sensor) :
  _enabled s = false -> read k w s = (None, s, []).
Proof.
  intro He. unfold read, _ready. rewrite He. reflexivity.
Qed.

Lemma tick_keeps_disabled (cfg : KioskConfig) (w : Tick) (k : Kiosk) :
  Disabled (distance (sensors k)) ->
  distance (sensors (fst (tick cfg w k))) = distance (sensors k).
Proof.
  intros [He _]. destruct (tick_calls cfg w k) as (Hs & _). rewrite Hs.
  unfold suite_read. rewrite (read_when_disabled Distance _ _ He).
  destruct (read Light (tick_light w) (light (sensors k))) as [[lv l] tr2].
  reflexivity.
Qed.

Lemma tick_sleep_iff (cfg : KioskConfig) (w : Tick) (k : Kiosk) :
  In (Invoke Call_sleep_screen) (snd (tick cfg w k)) <->
  enable_distance_sensor cfg
  && distance_supported (sensors (fst (tick cfg w k)))
  && Qltb (inject_Z (inactivity_timeout_sec cfg))
       (tick_now w - last_motion_ts (loop (fst (tick cfg w k))))%Q = true.
Proof.
  rewrite calls_in.
  destruct (tick_calls cfg w k) as (_ & _ & target & Hc). rewrite Hc.
  destruct (presence cfg _);
    destruct (enable_distance_sensor cfg && _ && _); simpl; split;
    intro H; try reflexivity; try discriminate; try tauto;
    repeat (destruct H as [H|H]; try discriminate H); contradiction.
Qed.

Lemma run_without_distance_never_sleeps (cfg : KioskConfig)
  (ws : list Tick) :
  forall k : Kiosk,
    Disabled (distance (sensors k)) ->
    ~ In (Invoke Call_sleep_screen) (snd (run cfg ws k)).
Proof.
  induction ws as [|w ws IH]; intros k Hd; simpl; [tauto|].
  pose proof (tick_keeps_disabled cfg w k Hd) as Hk.
  pose proof (tick_sleep_iff cfg w k) as Hiff.
  destruct (tick cfg w k) as [k1 tr1]. simpl in *.
  assert (Hd1 : Disabled (distance (sensors k1))) by (rewrite Hk; exact Hd).
  specialize (IH k1 Hd1).
  destruct (run cfg ws k1) as [k2 tr2]. simpl in *.
  rewrite in_app_iff. intros [H | H]; [|exact (IH H)].
  apply Hiff in H. unfold distance_supported, is_supported in H.
  destruct Hd1 as [_ Hn]. rewrite Hn in H.
  rewrite andb_false_r in H. discriminate.
Qed.

(** With a timeout that is not negative, the [if]/[elif] of the older
    script decides to sleep in exactly the iterations in which the two
    independent [if]s of [run] do. *)
Lemma legacy_sleep_agrees (cfg : KioskConfig) (supported : bool)
  (readings : SensorReadings) (now last : Q) :
  0 <= inactivity_timeout_sec cfg ->
  snd (Legacy.presence_step (distance_threshold_mm cfg)
         (inactivity_timeout_sec cfg) supported (distance_mm readings)
         now last) = Legacy.Sleep
  <->
  supported
  && Qltb (inject_Z (inactivity_timeout_sec cfg))
       (now - (if presence cfg readings then now else last))%Q = true.
Proof.
  intro Ht. unfold Legacy.presence_step, presence.
  destruct (match distance_mm readings with
            | Some d => Qle_bool d (inject_Z (distance_threshold_mm cfg))
            | None => false
            end); simpl.
  - assert (Hz : Qltb (inject_Z (inactivity_timeout_sec cfg)) (now - now)%Q
                 = false).
    { apply Qltb_ge.
      assert (E : (now - now == inject_Z 0)%Q) by (simpl; ring).
      rewrite E, <- Zle_Qle. exact Ht. }
    rewrite Hz, andb_false_r. split; discriminate.
  - destruct (supported && _); simpl; split; intro H;
      try reflexivity; discriminate.
Qed.

End SleepDecision.

(** The spec's scenarios: 1200 mm under a threshold of 1500 mm wakes and
    moves [last_motion_ts]; 91 s without a reading, timeout 90 s, sensor
    supported, sleeps once. *)
Example somebody_near :
  let r := Main.tick default_config
             (iteration 50 (answering true (Some 1200%Q) (Some 200%Q)))
             (kiosk_at default_config (held_sensor Distance 0 0) 7) in
  calls (snd r)
  = [Invoke Call_wake_screen; Invoke (Call_set_brightness 132)] /\
  Main.last_motion_ts (Main.loop (fst r)) = 50%Q.
Proof. split; reflexivity. Qed.

Example nobody_for_91_seconds :
  calls (snd (Main.tick default_config
                (iteration 98 (answering false None (Some 200%Q)))
                (kiosk_at default_config (held_sensor Distance 0 0) 7)))
  = [Invoke Call_sleep_screen; Invoke (Call_set_brightness 132)].
Proof. reflexivity. Qed.

(** The same 91 seconds with the distance sensor waiting for a retry. *)
Example nobody_but_no_sensor :
  calls (snd (Main.tick default_config
                (iteration 98 (answering false None (Some 200%Q)))
                (kiosk_at default_config (waiting_sensor 6 120) 7)))
  = [Invoke (Call_set_brightness 132)].
Proof. reflexivity. Qed.

(** ** C7 *)

(** C7: in every iteration of the loop, [sleep_screen] is called exactly
    when the distance sensor is enabled in the configuration, is supported
    after this iteration's read, and the clock reading minus
    [last_motion_ts] (as this iteration leaves it) exceeds the timeout.
    With the sensor unsupported it is not called, whatever the clock says.
    The check is made whether or not [wake_screen] was called in the same
    iteration: the calls of an iteration are an optional [wake_screen],
    then [sleep_screen] under the condition above, then [set_brightness].
    Over any number of iterations a disabled distance sensor means no
    [sleep_screen] at all. *)
Theorem sleep_needs_live_distance_sensor (cfg : KioskConfig)
  (w : Main.Tick) (k : Main.Kiosk) :
  let k' := fst (Main.tick cfg w k) in
  let tr := snd (Main.tick cfg w k) in
  let supported := Sensors.distance_supported (Main.sensors k') in
  let idle := (tick_idle_for cfg w k') in
  (In (Invoke Call_sleep_screen) tr <->
   enable_distance_sensor cfg = true /\ supported = true /\
   (inject_Z (inactivity_timeout_sec cfg)
    < Main.tick_now w - Main.last_motion_ts (Main.loop k'))%Q) /\
  (supported = false -> ~ In (Invoke Call_sleep_screen) tr) /\
  (exists (wake : list Event) (target : Z),
     (wake = [] \/ wake = [Invoke Call_wake_screen]) /\
     calls tr
     = wake
       ++ (if enable_distance_sensor cfg && supported && idle
           then [Invoke Call_sleep_screen] else [])
       ++ [Invoke (Call_set_brightness target)]) /\
  (forall ws : list Main.Tick,
     Disabled (Sensors.distance (Main.sensors k)) ->
     ~ In (Invoke Call_sleep_screen) (snd (Main.run cfg ws k))).
Proof.
  cbv zeta. pose proof (tick_sleep_iff cfg w k) as Hiff.
  split.
  { rewrite Hiff, !andb_true_iff, Qltb_lt. tauto. }
  split.
  { intros Hs H. apply Hiff in H. unfold tick_idle_for in *.
    rewrite Hs, andb_false_r in H. discriminate. }
  split.
  { destruct (tick_calls cfg w k) as (_ & _ & target & Hc).
    exists (if presence cfg
                 (fst (fst (Sensors.suite_read (Main.tick_distance w)
                              (Main.tick_light w) (Main.sensors k))))
            then [Invoke Call_wake_screen] else []), target.
    split; [|exact Hc].
    destruct (presence cfg _); [right | left]; reflexivity. }
  intros ws Hd. apply run_without_distance_never_sleeps. exact Hd.
Qed.

(** With a negative timeout the two loops part: [run] wakes and sleeps
    in the same iteration, the older script only wakes. *)
Example wake_and_sleep_in_one_iteration :
  calls (snd (Main.tick impatient_config
                (iteration 50 (answering true (Some 1200%Q) (Some 200%Q)))
                (kiosk_at impatient_config (held_sensor Distance 0 0) 7)))
  = [Invoke Call_wake_screen; Invoke Call_sleep_screen;
     Invoke (Call_set_brightness 132)] /\
  Legacy.presence_step 1500 (-1) true (Some 1200%Q) 50 7
  = (50%Q, Legacy.Wake).
Proof. split; reflexivity. Qed.

(** * Further properties *)

(** ** Sensors: what a read returns and what it touches *)

Section SensorReads.

Import Sensors.

Lemma attempt_init_supported (k : SensorKind) (w : Env) (s : Sensor) :
  _enabled s = true ->
  is_supported (fst (_attempt_init k w s)) = true ->
  _enabled (fst (_attempt_init k w s)) = true.
Proof.
  intros He. unfold _attempt_init. rewrite He. simpl.
  destruct (_i2c s); [|discriminate].
  destruct (new_driver w); simpl; [intros _; exact He | discriminate].
Qed.

Lemma ready_true_state (k : SensorKind) (w : Env) (s : Sensor) :
  fst (fst (_ready k w s)) = true ->
  _enabled (snd (fst (_ready k w s))) = true
  /\ is_supported (snd (fst (_ready k w s))) = true.
Proof.
  unfold _ready. destruct (_enabled s) eqn:He; simpl; [|discriminate].
  destruct (Qltb (clock_ready w) (_next_attempt s)); simpl; [discriminate|].
  destruct (_sensor s) eqn:Hs; simpl.
  - intros _. unfold is_supported. rewrite Hs. split; [exact He | reflexivity].
  - pose proof (attempt_init_supported k w s He) as Hi.
    destruct (_attempt_init k w s) as [s1 tr]. simpl in *.
    intro H. split; [exact (Hi H) | exact H].
Qed.

Lemma Qle_bool_false_lt (v : Q) : Qle_bool v 0 = false -> (0 < v)%Q.
Proof.
  intro H. apply Qltb_lt. unfold Qltb. rewrite H. reflexivity.
Qed.

Lemma distance_try_value (d : Device) (tr : list Event) (v : Q) :
  distance_try d = (tr, Returned (Some v)) ->
  (0 < v)%Q /\ dev_distance d = Yield (Some v).
Proof.
  unfold distance_try, data_not_ready, clear_interrupt, distance_invalid.
  destruct (dev_data_ready_probe d) as [| |p]; simpl; try discriminate;
    try (destruct (dev_data_ready d) as [| |[|]]; simpl; try discriminate);
    destruct (dev_distance d) as [| |[x|]]; simpl; try discriminate;
    destruct (dev_clear_interrupt d) as [| |u]; simpl; try discriminate;
    destruct (Qeq_bool x 0); simpl; try discriminate;
    destruct (Qle_bool x 0) eqn:Hle; simpl; try discriminate;
    intro H; injection H as _ Hv; subst x;
    (split; [exact (Qle_bool_false_lt v Hle) | reflexivity]).
Qed.

Lemma light_try_value (d : Device) (tr : list Event) (v : Q) :
  light_try d = (tr, Returned (Some v)) -> dev_lux d = Yield (Some v).
Proof.
  unfold light_try.
  destruct (dev_lux d) as [| |[x|]]; simpl; try discriminate.
  intro H. injection H as _ Hv. subst x. reflexivity.
Qed.

End SensorReads.

(** X1: whenever [read] returns a value, the sensor afterwards is enabled,
    holds a driver object and has [_fail_count = 0], and the value is the
    one the driver object reported; a distance returned has passed both
    tests of the validity guard: it is not zero, and [distance <= 0] is
    false for it. *)
Theorem read_value_is_sound (k : SensorKind) (w : Env) (s : Sensors.Sensor)
  (v : Q) :
  fst (fst (Sensors.read k w s)) = Some v ->
  Sensors._enabled (snd (fst (Sensors.read k w s))) = true /\
  Sensors.is_supported (snd (fst (Sensors.read k w s))) = true /\
  Sensors._fail_count (snd (fst (Sensors.read k w s))) = 0 /\
  match k with
  | Distance =>
    dev_distance (device w) = Yield (Some v)
    /\ ~ (v == 0)%Q /\ ~ (v <= 0)%Q
  | Light => dev_lux (device w) = Yield (Some v)
  end.
Proof.
  unfold Sensors.read.
  pose proof (ready_true_state k w s) as Hr.
  destruct (Sensors._ready k w s) as [[ok s1] tr1]. simpl in Hr.
  destruct ok; simpl; [|discriminate].
  destruct (Hr eq_refl) as [He Hs]. unfold Sensors.is_supported in *.
  destruct (Sensors._sensor s1) eqn:Hh; simpl; [|discriminate].
  destruct (Sensors.read_try k (device w)) as [tr2 [[x|]|]] eqn:Ht;
    simpl; try discriminate.
  intro H. injection H as Hx. subst x. rewrite Hh.
  repeat split; try assumption.
  destruct k; simpl in Ht.
  - destruct (distance_try_value _ _ _ Ht) as [Hpos Hd].
    split; [exact Hd|]. split.
    + intro E. rewrite E in Hpos. exact (Qlt_irrefl 0 Hpos).
    + intro Hle. exact (Qlt_not_le _ _ Hpos Hle).
  - exact (light_try_value _ _ _ Ht).
Qed.

Lemma read_value_is_sound_witness :
  Sensors._fail_count
    (snd (fst (Sensors.read Distance
                 (world 5 None (answering true (Some 1200%Q) None))
                 (held_sensor Distance 3 0)))) = 0 /\
  dev_distance
    (device (world 5 None (answering true (Some 1200%Q) None)))
  = Yield (Some 1200%Q).
Proof.
  assert (H : fst (fst (Sensors.read Distance
                          (world 5 None (answering true (Some 1200%Q) None))
                          (held_sensor Distance 3 0))) = Some 1200%Q)
    by reflexivity.
  destruct (read_value_is_sound Distance _ _ _ H) as (_ & _ & Hf & Hv & _).
  split; [exact Hf | exact Hv].
Defined.

Section SensorTraffic.

Import Sensors.

Lemma count_app (p : Event -> bool) (a b : list Event) :
  count p (a ++ b) = (count p a + count p b)%nat.
Proof.
  unfold count. rewrite filter_app, List.length_app. reflexivity.
Qed.

Lemma read_try_traffic (k : SensorKind) (d : Device) :
  count is_construct (fst (read_try k d)) = 0%nat
  /\ (count is_value_read (fst (read_try k d)) <= 1)%nat
  /\ forallb is_driver_traffic (fst (read_try k d)) = true.
Proof.
  destruct k; simpl.
  - unfold distance_try, data_not_ready, clear_interrupt, distance_invalid.
    destruct (dev_data_ready_probe d) as [| |p];
      destruct (dev_data_ready d) as [| |[|]];
      destruct (dev_distance d) as [| |[x|]];
      destruct (dev_clear_interrupt d) as [| |u];
      simpl;
      try (destruct (Qeq_bool x 0); simpl);
      try (destruct (Qle_bool x 0); simpl);
      unfold count; simpl; (split; [|split]); try reflexivity; lia.
  - unfold light_try. destruct (dev_lux d) as [| |[v|]];
      unfold count; simpl; (split; [|split]); try reflexivity; lia.
Qed.

Lemma attempt_init_traffic (k : SensorKind) (w : Env) (s : Sensor) :
  (count is_construct (snd (_attempt_init k w s)) <= 1)%nat
  /\ count is_value_read (snd (_attempt_init k w s)) = 0%nat
  /\ forallb is_driver_traffic (snd (_attempt_init k w s)) = true.
Proof.
  unfold _attempt_init.
  destruct (_enabled s), (_i2c s), (new_driver w), k;
    unfold count; simpl; (split; [|split]); try reflexivity; lia.
Qed.

Lemma ready_traffic (k : SensorKind) (w : Env) (s : Sensor) :
  (count is_construct (snd (_ready k w s)) <= 1)%nat
  /\ count is_value_read (snd (_ready k w s)) = 0%nat
  /\ forallb is_driver_traffic (snd (_ready k w s)) = true.
Proof.
  unfold _ready.
  pose proof (attempt_init_traffic k w s) as H.
  destruct (_attempt_init k w s) as [s1 tr]. simpl in H.
  destruct (negb (_enabled s)); [unfold count; simpl; (split; [|split]); try reflexivity; lia|].
  destruct (Qltb (clock_ready w) (_next_attempt s));
    [unfold count; simpl; (split; [|split]); try reflexivity; lia|].
  destruct (_sensor s); [unfold count; simpl; (split; [|split]); try reflexivity; lia|].
  exact H.
Qed.

Lemma read_traffic (k : SensorKind) (w : Env) (s : Sensor) :
  (count is_construct (snd (read k w s)) <= 1)%nat
  /\ (count is_value_read (snd (read k w s)) <= 1)%nat
  /\ forallb is_driver_traffic (snd (read k w s)) = true.
Proof.
  unfold read.
  pose proof (ready_traffic k w s) as (H1 & H2 & H3).
  pose proof (read_try_traffic k (device w)) as (T1 & T2 & T3).
  destruct (_ready k w s) as [[ok s1] tr1]. simpl in H1, H2, H3.
  destruct ok; simpl; [|split; [|split]; [lia | lia | assumption]].
  destruct (_sensor s1); simpl; [|split; [|split]; [lia | lia | assumption]].
  destruct (read_try k (device w)) as [tr2 [[v|]|]]; simpl in *;
    rewrite !count_app, forallb_app, H3, T3;
    (split; [|split]); try reflexivity; lia.
Qed.

Lemma apply_op_traffic (k : SensorKind) (op : Op) (s : Sensor) :
  forallb is_driver_traffic (snd (apply_op k op s)) = true.
Proof.
  destruct op; simpl; try reflexivity.
  - pose proof (read_traffic k w s) as (_ & _ & H).
    destruct (read k w s) as [[v s1] tr]. exact H.
  - pose proof (ready_traffic k w s) as (_ & _ & H).
    destruct (_ready k w s) as [[b s1] tr]. exact H.
  - pose proof (attempt_init_traffic k w s) as (_ & _ & H).
    destruct (_attempt_init k w s) as [s1 tr]. exact H.
Qed.

End SensorTraffic.

(** X2: one call of [read] builds at most one driver object and reads at
    most one value (distance or lux) from it. *)
Theorem read_touches_hardware_once (k : SensorKind) (w : Env)
  (s : Sensors.Sensor) :
  (count is_construct (snd (Sensors.read k w s)) <= 1)%nat /\
  (count is_value_read (snd (Sensors.read k w s)) <= 1)%nat.
Proof.
  destruct (read_traffic k w s) as (H1 & H2 & _). split; assumption.
Qed.

(** X3: whatever methods are called on a sensor, in whatever worlds, all
    it ever does is talk to its driver object: it never acquires the bus
    again, never runs a command, never writes a file and never calls the
    screen controller. *)
Theorem sensor_only_talks_to_its_driver (k : SensorKind) (ops : list Op)
  (s : Sensors.Sensor) :
  Forall (fun e => is_driver_traffic e = true) (snd (apply_ops k ops s)) /\
  ~ In (Bus AcquireBus) (snd (apply_ops k ops s)).
Proof.
  assert (H : forallb is_driver_traffic (snd (apply_ops k ops s)) = true).
  { revert s. induction ops as [|op ops IH]; intro s; simpl; [reflexivity|].
    pose proof (apply_op_traffic k op s) as H1.
    destruct (apply_op k op s) as [[s1 r] tr1]. simpl in H1.
    specialize (IH s1).
    destruct (apply_ops k ops s1) as [[s2 rs] tr2]. simpl in *.
    rewrite forallb_app, H1, IH. reflexivity. }
  rewrite forallb_forall in H. split.
  - apply Forall_forall. exact H.
  - intro Hin. specialize (H _ Hin). discriminate.
Qed.

(** ** Sensors: recovery, invariants and the backoff schedule *)

(** X4: a sensor that lost its driver object and whose backoff has run
    out rebuilds the driver object and reads from it in the same call: if
    building succeeds and the new object reports a valid value, [read]
    returns that value and leaves the sensor holding the new object with
    [_fail_count = 0]. *)
Theorem read_recovers_in_one_call (k : SensorKind) (w : Env)
  (s : Sensors.Sensor) (h : Handle) (tr : list Event) (v : Q) :
  Sensors._enabled s = true ->
  Sensors._sensor s = None ->
  Sensors._i2c s <> None ->
  (Sensors._next_attempt s <= clock_ready w)%Q ->
  new_driver w = Some h ->
  Sensors.read_try k (device w) = (tr, Sensors.Returned (Some v)) ->
  Sensors.read k w s
  = (Some v,
     {| Sensors._enabled := true;
        Sensors._sensor := Some h;
        Sensors._fail_count := 0;
        Sensors._next_attempt := Sensors._next_attempt s;
        Sensors._i2c := Sensors._i2c s |},
     (Bus (Construct k)
      :: match k with Distance => [Bus StartRanging] | Light => [] end)
     ++ tr).
Proof.
  intros He Hs Hb Ht Hn Hr.
  unfold Sensors.read, Sensors._ready, Sensors._attempt_init.
  rewrite He. simpl. apply Qltb_ge in Ht. rewrite Ht, Hs, Hn.
  destruct (Sensors._i2c s) eqn:Ei; [|congruence]. simpl.
  rewrite Hr. unfold Sensors.set_fail_count, Sensors.set_sensor. simpl.
  rewrite He, Ei. reflexivity.
Qed.

Lemma read_recovers_in_one_call_witness :
  Sensors.read Light
    (world 9 (Some (Driver Light 7)) (answering true None (Some 200%Q)))
    (waiting_sensor 3 8)
  = (Some 200%Q,
     {| Sensors._enabled := true;
        Sensors._sensor := Some (Driver Light 7);
        Sensors._fail_count := 0;
        Sensors._next_attempt := 8;
        Sensors._i2c := Some I2C_bus |},
     [Bus (Construct Light); Bus ReadLux]).
Proof.
  apply (read_recovers_in_one_call Light
           (world 9 (Some (Driver Light 7))
              (answering true None (Some 200%Q)))
           (waiting_sensor 3 8) (Driver Light 7) [Bus ReadLux] 200%Q).
  - reflexivity.
  - reflexivity.
  - discriminate.
  - unfold Qle; simpl; lia.
  - reflexivity.
  - reflexivity.
Defined.

Section SensorInvariant.

Import Sensors.

Lemma sane_attempt_init (i2c : option I2C) (k : SensorKind) (w : Env)
  (s : Sensor) :
  sane i2c s -> sane i2c (fst (_attempt_init k w s)).
Proof.
  intros (Hf & Hb & Hs). unfold _attempt_init.
  destruct (_enabled s) eqn:He; simpl;
    [|split; [|split]; [assumption | assumption |];
      rewrite He; exact Hs].
  destruct (_i2c s) eqn:Ei; simpl.
  - destruct (new_driver w); simpl.
    + split; [simpl; lia|]. split; [simpl; congruence|].
      intros _. simpl. split; [exact He | congruence].
    + split; [simpl; lia|]. split; [simpl; congruence|].
      unfold is_supported. simpl. discriminate.
  - split; [assumption|]. split; [simpl; congruence|].
    unfold is_supported. simpl. discriminate.
Qed.

Lemma sane_ready (i2c : option I2C) (k : SensorKind) (w : Env) (s : Sensor) :
  sane i2c s -> sane i2c (snd (fst (_ready k w s))).
Proof.
  intro H. unfold _ready.
  pose proof (sane_attempt_init i2c k w s H) as Hi.
  destruct (_attempt_init k w s) as [s1 tr]. simpl in Hi.
  destruct (negb (_enabled s)); [exact H|].
  destruct (Qltb (clock_ready w) (_next_attempt s)); [exact H|].
  destruct (_sensor s); [exact H | exact Hi].
Qed.

Lemma sane_read (i2c : option I2C) (k : SensorKind) (w : Env) (s : Sensor) :
  sane i2c s -> sane i2c (snd (fst (read k w s))).
Proof.
  intro H. unfold read.
  pose proof (sane_ready i2c k w s H) as Hr.
  destruct (_ready k w s) as [[ok s1] tr1]. simpl in Hr.
  destruct ok; simpl; [|exact Hr].
  destruct (_sensor s1) eqn:Hs; simpl; [|exact Hr].
  destruct Hr as (Hf & Hb & Hsup).
  assert (Hen : _enabled s1 = true /\ i2c <> None)
    by (apply Hsup; unfold is_supported; rewrite Hs; reflexivity).
  destruct (read_try k (device w)) as [tr2 [[v|]|]]; simpl.
  - split; [simpl; lia|]. split; [exact Hb|]. intros _. exact Hen.
  - split; [exact Hf|]. split; [exact Hb|]. intros _. exact Hen.
  - split; [simpl; lia|]. split; [exact Hb|].
    unfold is_supported. simpl. discriminate.
Qed.

Lemma sane_apply_op (i2c : option I2C) (k : SensorKind) (op : Op)
  (s : Sensor) :
  sane i2c s -> sane i2c (fst (fst (apply_op k op s))).
Proof.
  intro H. destruct op; simpl.
  - pose proof (sane_read i2c k w s H) as Hr.
    destruct (read k w s) as [[v s1] tr]. exact Hr.
  - pose proof (sane_ready i2c k w s H) as Hr.
    destruct (_ready k w s) as [[b s1] tr]. exact Hr.
  - pose proof (sane_attempt_init i2c k w s H) as Hr.
    destruct (_attempt_init k w s) as [s1 tr]. exact Hr.
  - destruct H as (Hf & Hb & Hs).
    split; [simpl; lia|]. split; [exact Hb | exact Hs].
  - destruct H as (Hf & Hb & Hs).
    split; [exact Hf|]. split; [exact Hb|].
    unfold is_supported. simpl. discriminate.
  - exact H.
Qed.

Lemma sane_apply_ops (i2c : option I2C) (k : SensorKind) (ops : list Op) :
  forall s : Sensor, sane i2c s -> sane i2c (fst (fst (apply_ops k ops s))).
Proof.
  induction ops as [|op ops IH]; intros s H; simpl; [exact H|].
  pose proof (sane_apply_op i2c k op s H) as H1.
  destruct (apply_op k op s) as [[s1 r] tr1]. simpl in H1.
  specialize (IH s1 H1).
  destruct (apply_ops k ops s1) as [[s2 rs] tr2]. exact IH.
Qed.

Lemma sane_new_sensor (k : SensorKind) (enabled : bool) (i2c : option I2C)
  (w : Env) :
  sane i2c (fst (new_sensor k enabled i2c w)).
Proof.
  assert (H0 : sane i2c (base_init enabled i2c)).
  { split; [simpl; lia|]. split; [reflexivity|].
    unfold is_supported. simpl. discriminate. }
  unfold new_sensor. simpl. destruct enabled.
  - apply sane_attempt_init. exact H0.
  - exact H0.
Qed.

Lemma reachable_sensor_is_sane (k : SensorKind) (enabled : bool)
  (i2c : option I2C) (w : Env) (ops : list Op) :
  let s := fst (fst (apply_ops k ops (fst (new_sensor k enabled i2c w)))) in
  0 <= _fail_count s
  /\ _i2c s = i2c
  /\ (is_supported s = true -> _enabled s = true /\ i2c <> None).
Proof.
  apply (sane_apply_ops i2c k ops). apply sane_new_sensor.
Qed.

End SensorInvariant.

(** X5: from its constructor on, through any sequence of method calls in
    any worlds, a sensor has a [_fail_count] that is not negative, keeps
    the bus object it was built with, and holds a driver object only
    while it is enabled and was given a bus. *)
Theorem sensor_stays_sane (k : SensorKind) (enabled : bool)
  (i2c : option I2C) (w : Env) (ops : list Op) :
  let s := fst (fst (apply_ops k ops
                       (fst (Sensors.new_sensor k enabled i2c w)))) in
  0 <= Sensors._fail_count s /\
  Sensors._i2c s = i2c /\
  (Sensors.is_supported s = true ->
   Sensors._enabled s = true /\ i2c <> None).
Proof.
  exact (reachable_sensor_is_sane k enabled i2c w ops).
Qed.

Section BackoffArithmetic.

Lemma delay_at_least_two (n : Z) : 0 <= n -> 2 <= Z.min (2 ^ (n + 1)) 60.
Proof.
  intro H. apply Z.min_glb; [|lia].
  change 2 with (2 ^ 1) at 1. apply Z.pow_le_mono_r; lia.
Qed.

Lemma delay_monotone (m n : Z) :
  0 <= m <= n -> Z.min (2 ^ (m + 1)) 60 <= Z.min (2 ^ (n + 1)) 60.
Proof.
  intro H. apply Z.min_le_compat_r. apply Z.pow_le_mono_r; lia.
Qed.

Lemma delay_capped (n : Z) : 5 <= n -> Z.min (2 ^ (n + 1)) 60 = 60.
Proof.
  intro H. apply Z.min_r.
  apply Z.le_trans with (2 ^ 6); [vm_compute; discriminate|].
  apply Z.pow_le_mono_r; lia.
Qed.

End BackoffArithmetic.

(** X6: after a read of a [Ready] sensor in which the capability raised,
    every read whose clock reading is less than 2 seconds after the
    failure returns [None] without touching the hardware and leaves the
    sensor as the failure left it. *)
Theorem quiet_after_failure (k : SensorKind) (w w' : Env)
  (s : Sensors.Sensor) :
  0 <= Sensors._fail_count s ->
  Ready (clock_ready w) s ->
  read_raises k (device w) ->
  (clock_ready w' < clock_backoff w + 2)%Q ->
  let failed := snd (fst (Sensors.read k w s)) in
  Sensors.read k w' failed = (None, failed, []).
Proof.
  intros Hf Hr [tr Ht] Hlt failed. subst failed.
  rewrite (read_when_ready k w s Hr), Ht. simpl.
  unfold Sensors.read, Sensors._ready. simpl.
  destruct (Sensors._enabled s); simpl; [|reflexivity].
  assert (Hq : Qltb (clock_ready w')
                 (clock_backoff w
                  + inject_Z (Z.min (2 ^ (Sensors._fail_count s + 1)) 60))
               = true).
  { apply Qltb_lt. eapply Qlt_le_trans; [exact Hlt|].
    apply Qplus_le_r. change 2%Q with (inject_Z 2). rewrite <- Zle_Qle.
    apply delay_at_least_two. exact Hf. }
  rewrite Hq. reflexivity.
Qed.

Lemma quiet_after_failure_witness :
  let w := world 5 None broken in
  let w' := world (13 # 2) (Some (Driver Distance 1))
              (answering true (Some 1200%Q) None) in
  let failed := snd (fst (Sensors.read Distance w
                            (held_sensor Distance 0 0))) in
  Sensors.read Distance w' failed = (None, failed, []).
Proof.
  cbv zeta.
  apply (quiet_after_failure Distance (world 5 None broken)
           (world (13 # 2) (Some (Driver Distance 1))
              (answering true (Some 1200%Q) None))
           (held_sensor Distance 0 0)).
  - simpl. lia.
  - apply held_sensor_ready.
  - exists [Bus ReadDataReady]. reflexivity.
  - unfold Qlt; simpl; lia.
Defined.

(** X7: the backoff schedule is monotone and capped: more earlier
    failures never give a shorter delay, the delay is at least 2 seconds,
    and from the sixth consecutive failure on it is exactly 60 seconds. *)
Theorem backoff_is_monotone (now : Q) (s1 s2 : Sensors.Sensor) :
  0 <= Sensors._fail_count s1 <= Sensors._fail_count s2 ->
  (Sensors._next_attempt (Sensors._backoff now s1)
   <= Sensors._next_attempt (Sensors._backoff now s2))%Q /\
  (now + 2 <= Sensors._next_attempt (Sensors._backoff now s1))%Q /\
  (5 <= Sensors._fail_count s2 ->
   Sensors._next_attempt (Sensors._backoff now s2) = (now + inject_Z 60)%Q).
Proof.
  intro H. simpl. split; [|split].
  - apply Qplus_le_r. rewrite <- Zle_Qle. apply delay_monotone. exact H.
  - apply Qplus_le_r. change 2%Q with (inject_Z 2). rewrite <- Zle_Qle.
    apply delay_at_least_two. lia.
  - intro H5. rewrite (delay_capped _ H5). reflexivity.
Qed.

Lemma backoff_is_monotone_witness :
  (Sensors._next_attempt (Sensors._backoff 10 (waiting_sensor 1 0))
   <= Sensors._next_attempt (Sensors._backoff 10 (waiting_sensor 7 0)))%Q.
Proof.
  apply (backoff_is_monotone 10 (waiting_sensor 1 0) (waiting_sensor 7 0)).
  simpl. lia.
Defined.

(** ** The sensor suite *)

(** X8: with both sensors switched off in the configuration the suite
    never touches the bus: building it acquires nothing, whatever the bus
    would have answered, and every later [read] returns no reading and
    causes no traffic. *)
Theorem suite_without_sensors_skips_bus (cfg : KioskConfig)
  (acquire : option I2C) (wd wl wd' wl' : Env) :
  enable_distance_sensor cfg = false ->
  enable_light_sensor cfg = false ->
  let u := fst (Sensors.new_suite cfg acquire wd wl) in
  snd (Sensors.new_suite cfg acquire wd wl) = [] /\
  Sensors.health_snapshot u = (false, false, false) /\
  Sensors.suite_read wd' wl' u
  = ({| Sensors.distance_mm := None; Sensors.ambient_lux := None |}, u, []).
Proof.
  intros Hd Hl. unfold Sensors.new_suite, Sensors._init_i2c_bus.
  rewrite Hd, Hl. simpl. repeat split.
Qed.

Lemma suite_without_sensors_skips_bus_witness :
  snd (Sensors.new_suite
         {| distance_threshold_mm := 1500;
            inactivity_timeout_sec := 90;
            poll_interval_sec := 1 # 2;
            brightness_min := 10;
            brightness_max := 255;
            brightness_lux_max := 400;
            default_brightness := 120;
            brightnessctl_bin := "/usr/bin/brightnessctl";
            brightnessctl_device := None;
            backlight_path := None;
            enable_distance_sensor := false;
            enable_light_sensor := false |}
         (Some I2C_bus)
         (world 0 (Some (Driver Distance 1)) broken)
         (world 0 (Some (Driver Light 1)) broken)) = [].
Proof.
  apply (suite_without_sensors_skips_bus _ (Some I2C_bus)
           (world 0 (Some (Driver Distance 1)) broken)
           (world 0 (Some (Driver Light 1)) broken)
           (world 0 None broken) (world 0 None broken));
    reflexivity.
Defined.

Section SuiteHealth.

Import Sensors.

(** Both sensors of the suite are sane for the suite's bus object. *)
Lemma suite_reads_sane (ws : list (Env * Env)) :
  forall u : SensorSuite,
    sane (bus u) (distance u) -> sane (bus u) (light u) ->
    sane (bus (fst (suite_reads ws u))) (distance (fst (suite_reads ws u)))
    /\ sane (bus (fst (suite_reads ws u))) (light (fst (suite_reads ws u)))
    /\ bus (fst (suite_reads ws u)) = bus u.
Proof.
  induction ws as [|[wd wl] ws IH]; intros u Hd Hl; simpl; [tauto|].
  unfold suite_read.
  pose proof (sane_read (bus u) Distance wd (distance u) Hd) as Hd1.
  pose proof (sane_read (bus u) Light wl (light u) Hl) as Hl1.
  destruct (read Distance wd (distance u)) as [[dv d] tr1].
  destruct (read Light wl (light u)) as [[lv l] tr2]. simpl in *.
  specialize (IH {| bus := bus u; distance := d; light := l |} Hd1 Hl1).
  destruct (suite_reads ws {| bus := bus u; distance := d; light := l |})
    as [u2 rs]. exact IH.
Qed.

Lemma new_suite_sane (cfg : KioskConfig) (acquire : option I2C)
  (wd wl : Env) :
  let u := fst (new_suite cfg acquire wd wl) in
  sane (bus u) (distance u) /\ sane (bus u) (light u).
Proof.
  cbv zeta. unfold new_suite.
  destruct (_init_i2c_bus cfg acquire) as [i2c tr0].
  pose proof (sane_new_sensor Distance (enable_distance_sensor cfg) i2c wd)
    as Hd.
  pose proof (sane_new_sensor Light (enable_light_sensor cfg) i2c wl) as Hl.
  destruct (new_sensor Distance _ i2c wd) as [d tr1].
  destruct (new_sensor Light _ i2c wl) as [l tr2].
  split; assumption.
Qed.

End SuiteHealth.

(** X26: a suite never reports a sensor as alive without a bus: from its
    construction on and after any number of reads, whenever
    [health_snapshot] shows the bus as missing it shows both sensors as
    missing, and a sensor it shows as alive is enabled. *)
Theorem health_snapshot_is_consistent (cfg : KioskConfig)
  (acquire : option I2C) (wd wl : Env) (ws : list (Env * Env)) :
  let u := fst (suite_reads ws (fst (Sensors.new_suite cfg acquire wd wl))) in
  (snd (Sensors.health_snapshot u) = false ->
   Sensors.health_snapshot u = (false, false, false)) /\
  (Sensors.distance_supported u = true ->
   Sensors._enabled (Sensors.distance u) = true) /\
  (Sensors.light_supported u = true ->
   Sensors._enabled (Sensors.light u) = true).
Proof.
  cbv zeta.
  destruct (new_suite_sane cfg acquire wd wl) as [Hd0 Hl0].
  destruct (suite_reads_sane ws _ Hd0 Hl0) as (Hd & Hl & _).
  destruct (suite_reads ws (fst (Sensors.new_suite cfg acquire wd wl)))
    as [u rs]. simpl in *.
  destruct Hd as (_ & _ & Hd), Hl as (_ & _ & Hl).
  unfold Sensors.health_snapshot, Sensors.distance_supported,
    Sensors.light_supported. simpl.
  split; [|split].
  - intro Hb.
    destruct (Sensors.bus u); [discriminate|].
    destruct (Sensors.is_supported (Sensors.distance u));
      [destruct (Hd eq_refl) as [_ H]; congruence|].
    destruct (Sensors.is_supported (Sensors.light u));
      [destruct (Hl eq_refl) as [_ H]; congruence|].
    reflexivity.
  - intro H. apply Hd. exact H.
  - intro H. apply Hl. exact H.
Qed.

(** ** The screen controller: invariants and composition *)

Section ScreenInvariants.

Import Display.

Lemma wake_screen_frame (h : Host) (c : ScreenController) :
  _config (fst (wake_screen h c)) = _config c
  /\ brightness (_state (fst (wake_screen h c))) = brightness (_state c)
  /\ _warned_brightness (fst (wake_screen h c)) = _warned_brightness c.
Proof.
  unfold wake_screen. destruct (screen_on (_state c)); repeat split.
Qed.

Lemma sleep_screen_frame (h : Host) (c : ScreenController) :
  _config (fst (sleep_screen h c)) = _config c
  /\ brightness (_state (fst (sleep_screen h c))) = brightness (_state c)
  /\ _warned_brightness (fst (sleep_screen h c)) = _warned_brightness c.
Proof.
  unfold sleep_screen. destruct (screen_on (_state c)); repeat split.
Qed.

Lemma set_brightness_frame (h : Host) (c : ScreenController) (t : Z) :
  _config (fst (set_brightness h c t)) = _config c
  /\ screen_on (_state (fst (set_brightness h c t))) = screen_on (_state c)
  /\ (brightness (_state (fst (set_brightness h c t)))
      = brightness (_state c)
      \/ brightness (_state (fst (set_brightness h c t)))
         = Some (clamp c t))
  /\ (_warned_brightness c = true ->
      _warned_brightness (fst (set_brightness h c t)) = true).
Proof.
  rewrite set_brightness_unfold.
  destruct (brightness_is c (clamp c t)); simpl; [tauto|].
  destruct (fst (backends h c (clamp c t))); simpl; [tauto|].
  destruct (negb (_warned_brightness c)); simpl; tauto.
Qed.

Lemma clamp_in_bounds (c : ScreenController) (t : Z) :
  brightness_min (_config c) <= brightness_max (_config c) ->
  brightness_min (_config c) <= clamp c t <= brightness_max (_config c).
Proof.
  unfold clamp, as_brightness_bounds. lia.
Qed.

Lemma screen_op_keeps_bounds (op : ScreenOp) (c : ScreenController) :
  brightness_min (_config c) <= brightness_max (_config c) ->
  brightness_in_bounds c ->
  _config (fst (apply_screen_op op c)) = _config c
  /\ brightness_in_bounds (fst (apply_screen_op op c)).
Proof.
  intros Hb Hin. unfold brightness_in_bounds in *. destruct op; simpl.
  - destruct (wake_screen_frame h c) as (Hc & Hbr & _).
    rewrite Hc, Hbr. split; [reflexivity | exact Hin].
  - destruct (sleep_screen_frame h c) as (Hc & Hbr & _).
    rewrite Hc, Hbr. split; [reflexivity | exact Hin].
  - destruct (set_brightness_frame h c target) as (Hc & _ & Hbr & _).
    rewrite Hc. split; [reflexivity|].
    destruct Hbr as [-> | ->]; [exact Hin | apply clamp_in_bounds, Hb].
Qed.

Lemma screen_ops_keep_bounds (ops : list ScreenOp) :
  forall c : ScreenController,
    brightness_min (_config c) <= brightness_max (_config c) ->
    brightness_in_bounds c ->
    _config (fst (apply_screen_ops ops c)) = _config c
    /\ brightness_in_bounds (fst (apply_screen_ops ops c)).
Proof.
  induction ops as [|op ops IH]; intros c Hb Hin; simpl; [tauto|].
  destruct (screen_op_keeps_bounds op c Hb Hin) as [Hc1 Hin1].
  destruct (apply_screen_op op c) as [c1 tr1]. simpl in *.
  assert (Hb1 : brightness_min (_config c1) <= brightness_max (_config c1))
    by (rewrite Hc1; exact Hb).
  destruct (IH c1 Hb1 Hin1) as [Hc2 Hin2].
  destruct (apply_screen_ops ops c1) as [c2 tr2]. simpl in *.
  split; [congruence | exact Hin2].
Qed.

Lemma screen_ops_keep_warned (ops : list ScreenOp) :
  forall c : ScreenController,
    _warned_brightness c = true ->
    _warned_brightness (fst (apply_screen_ops ops c)) = true.
Proof.
  induction ops as [|op ops IH]; intros c Hw; simpl; [exact Hw|].
  assert (H1 : _warned_brightness (fst (apply_screen_op op c)) = true).
  { destruct op; simpl.
    - destruct (wake_screen_frame h c) as (_ & _ & ->). exact Hw.
    - destruct (sleep_screen_frame h c) as (_ & _ & ->). exact Hw.
    - apply set_brightness_frame. exact Hw. }
  destruct (apply_screen_op op c) as [c1 tr1]. simpl in *.
  specialize (IH c1 H1).
  destruct (apply_screen_ops ops c1) as [c2 tr2]. exact IH.
Qed.

End ScreenInvariants.

(** X10: a controller built from a configuration with
    [brightness_min <= brightness_max] never tracks a brightness outside
    these bounds, whatever methods are called on it with whatever
    targets and whatever the host answers; its configuration never
    changes. *)
Theorem tracked_brightness_stays_in_bounds (cfg : KioskConfig)
  (ops : list ScreenOp) :
  brightness_min cfg <= brightness_max cfg ->
  let c := fst (apply_screen_ops ops (Display.new_controller cfg)) in
  Display._config c = cfg /\
  match Display.brightness (Display._state c) with
  | Some b => brightness_min cfg <= b <= brightness_max cfg
  | None => True
  end.
Proof.
  intros Hb c.
  destruct (screen_ops_keep_bounds ops (Display.new_controller cfg) Hb I)
    as [Hc Hin].
  subst c. unfold brightness_in_bounds in Hin. rewrite Hc in Hin.
  split; [exact Hc | exact Hin].
Qed.

Lemma tracked_brightness_stays_in_bounds_witness :
  let c := fst (apply_screen_ops
                  [Screen_set (host true true) 1000; Screen_sleep bare_host;
                   Screen_set (host false true) (-7)]
                  (Display.new_controller backlight_config)) in
  Display._config c = backlight_config /\
  match Display.brightness (Display._state c) with
  | Some b =>
    brightness_min backlight_config <= b <= brightness_max backlight_config
  | None => True
  end.
Proof.
  apply (tracked_brightness_stays_in_bounds backlight_config
           [Screen_set (host true true) 1000; Screen_sleep bare_host;
            Screen_set (host false true) (-7)]).
  simpl. lia.
Defined.

(** The tracked brightness in that run: 1000 is clamped to 255, then -7
    to 10. *)
Example clamped_targets :
  Display.brightness
    (Display._state
       (fst (apply_screen_ops
               [Screen_set (host true true) 1000; Screen_sleep bare_host;
                Screen_set (host false true) (-7)]
               (Display.new_controller backlight_config))))
  = Some 10.
Proof. reflexivity. Qed.

Section ScreenCommands.

Import Display.

Lemma use_brightnessctl_trace (h : Host) (c : ScreenController) (t : Z) :
  snd (_use_brightnessctl h c t) = []
  \/ exists argv,
       snd (_use_brightnessctl h c t) = [Spawn argv]
       /\ carries (str t) (Spawn argv).
Proof.
  unfold _use_brightnessctl, _run.
  destruct (negb (truthy (_brightnessctl_bin c))
            || negb (path_exists h (_brightnessctl_bin c)));
    [left; reflexivity|].
  right. eexists. split; [reflexivity|]. simpl.
  exists (_brightnessctl_bin c
          :: match _brightnessctl_device c with
             | Some d => if truthy d then [("--device=" ++ d)%string] else []
             | None => []
             end).
  reflexivity.
Qed.

Lemma write_backlight_file_trace (h : Host) (c : ScreenController) (t : Z) :
  snd (_write_backlight_file h c t) = []
  \/ exists path,
       snd (_write_backlight_file h c t) = [WriteFile path (str t)].
Proof.
  unfold _write_backlight_file.
  destruct (_backlight_path c) as [p|]; [|left; reflexivity].
  destruct (negb (truthy p)); [left; reflexivity|].
  right. exists p. reflexivity.
Qed.

End ScreenCommands.

(** X11: whatever [set_brightness] issues carries the clamped target and
    nothing else: the [brightnessctl] command ends in [set <value>], the
    backlight file receives [<value>], with [<value>] the decimal form of
    the target clamped to the bounds.  At most one command of each kind
    goes out, [brightnessctl] first, and when [brightnessctl] succeeded
    the backlight file is not written. *)
Theorem set_brightness_commands (h : Host) (c : Display.ScreenController)
  (target : Z) :
  let t := Display.clamp c target in
  let tr := snd (Display.set_brightness h c target) in
  Forall (carries (str t)) tr /\
  (exists spawned written,
     tr = spawned ++ written
     /\ Forall (fun e => is_spawn e = true) spawned
     /\ Forall (fun e => is_write e = true) written
     /\ (List.length spawned <= 1)%nat
     /\ (List.length written <= 1)%nat) /\
  (fst (Display._use_brightnessctl h c t) = true -> count is_write tr = 0%nat).
Proof.
  cbv zeta. rewrite set_brightness_unfold.
  destruct (Display.brightness_is c (Display.clamp c target)); simpl.
  { split; [constructor|]. split; [|reflexivity].
    exists [], []. repeat split; try constructor; simpl; lia. }
  assert (Htr : (if fst (backends h c (Display.clamp c target))
                 then (Display.set_state_brightness
                         (Display.clamp c target) c,
                       snd (backends h c (Display.clamp c target)))
                 else
                  (if negb (Display._warned_brightness c)
                   then Display.set_warned true c else c,
                   snd (backends h c (Display.clamp c target))))
                = (fst (if fst (backends h c (Display.clamp c target))
                        then (Display.set_state_brightness
                                (Display.clamp c target) c, tt)
                        else (if negb (Display._warned_brightness c)
                              then Display.set_warned true c else c, tt)),
                   snd (backends h c (Display.clamp c target))))
    by (destruct (fst (backends h c (Display.clamp c target))); reflexivity).
  rewrite Htr. clear Htr. simpl snd.
  unfold backends.
  destruct (use_brightnessctl_trace h c (Display.clamp c target))
    as [H1 | [argv [H1 Hc1]]];
  destruct (write_backlight_file_trace h c (Display.clamp c target))
    as [H2 | [path H2]];
  destruct (Display._use_brightnessctl h c (Display.clamp c target))
    as [ok1 tr1];
  destruct (Display._write_backlight_file h c (Display.clamp c target))
    as [ok2 tr2];
  simpl in H1, H2; subst tr1 tr2; destruct ok1; simpl.
  all: split; [repeat constructor; try exact Hc1|].
  all: split; [|intro; try discriminate; reflexivity].
  - exists [], []. repeat split; try constructor; simpl; lia.
  - exists [], []. repeat split; try constructor; simpl; lia.
  - exists [], []. repeat split; try constructor; simpl; lia.
  - exists [], [WriteFile path (str (Display.clamp c target))].
    repeat split; repeat constructor; simpl; lia.
  - exists [Spawn argv], []. repeat split; repeat constructor; simpl; lia.
  - exists [Spawn argv], []. repeat split; repeat constructor; simpl; lia.
  - exists [Spawn argv], []. repeat split; repeat constructor; simpl; lia.
  - exists [Spawn argv], [WriteFile path (str (Display.clamp c target))].
    repeat split; repeat constructor; simpl; lia.
Qed.

(** X12: the warn-once flag of [set_brightness] is set exactly by a call
    whose clamped target differs from the last applied brightness and for
    which no backend succeeded, and once set it stays set through every
    later call of any method. *)
Theorem warning_flag_latches (h : Host) (c : Display.ScreenController)
  (target : Z) (ops : list ScreenOp) :
  Display._warned_brightness (fst (Display.set_brightness h c target))
  = Display._warned_brightness c
    || (negb (Display.brightness_is c (Display.clamp c target))
        && negb (fst (backends h c (Display.clamp c target)))) /\
  (Display._warned_brightness c = true ->
   Display._warned_brightness (fst (apply_screen_ops ops c)) = true).
Proof.
  split.
  - rewrite set_brightness_unfold.
    destruct (Display.brightness_is c (Display.clamp c target)); simpl;
      [rewrite orb_false_r; reflexivity|].
    destruct (fst (backends h c (Display.clamp c target))); simpl;
      [rewrite orb_false_r; reflexivity|].
    destruct (Display._warned_brightness c) eqn:Hw; simpl; rewrite ?Hw;
      reflexivity.
  - apply screen_ops_keep_warned.
Qed.

(** X13: switching the screen and setting the brightness do not
    interfere: in either order they leave the same controller behind, and
    each issues the commands it would have issued on its own. *)
Theorem power_and_brightness_commute (h h' : Host)
  (c : Display.ScreenController) (target : Z) :
  fst (Display.set_brightness h (fst (Display.wake_screen h' c)) target)
  = fst (Display.wake_screen h' (fst (Display.set_brightness h c target))) /\
  fst (Display.set_brightness h (fst (Display.sleep_screen h' c)) target)
  = fst (Display.sleep_screen h' (fst (Display.set_brightness h c target))) /\
  snd (Display.set_brightness h (fst (Display.wake_screen h' c)) target)
  = snd (Display.set_brightness h c target) /\
  snd (Display.set_brightness h (fst (Display.sleep_screen h' c)) target)
  = snd (Display.set_brightness h c target) /\
  snd (Display.wake_screen h' (fst (Display.set_brightness h c target)))
  = snd (Display.wake_screen h' c) /\
  snd (Display.sleep_screen h' (fst (Display.set_brightness h c target)))
  = snd (Display.sleep_screen h' c).
Proof.
  unfold Display.wake_screen, Display.sleep_screen.
  rewrite !set_brightness_unfold.
  destruct (Display.screen_on (Display._state c)) eqn:Hon; simpl;
    rewrite ?set_brightness_unfold;
    change (Display.clamp (Display.set_screen_on true c) target)
      with (Display.clamp c target);
    change (Display.clamp (Display.set_screen_on false c) target)
      with (Display.clamp c target);
    change (Display.brightness_is (Display.set_screen_on true c)
              (Display.clamp c target))
      with (Display.brightness_is c (Display.clamp c target));
    change (Display.brightness_is (Display.set_screen_on false c)
              (Display.clamp c target))
      with (Display.brightness_is c (Display.clamp c target));
    change (backends h (Display.set_screen_on true c)
              (Display.clamp c target))
      with (backends h c (Display.clamp c target));
    change (backends h (Display.set_screen_on false c)
              (Display.clamp c target))
      with (backends h c (Display.clamp c target));
    destruct (Display.brightness_is c (Display.clamp c target));
    try destruct (fst (backends h c (Display.clamp c target)));
    try destruct (negb (Display._warned_brightness c));
    simpl; rewrite ?Hon; simpl; repeat split.
Qed.

(** X14: sleeping a screen that is tracked as on and waking it again
    brings the controller back to exactly where it was, at the price of
    one [xset ... off] and one [xset ... on]; likewise waking and then
    sleeping a screen tracked as off. *)
Theorem sleep_wake_round_trip (h h' : Host) (c : Display.ScreenController) :
  (Display.screen_on (Display._state c) = true ->
   fst (Display.wake_screen h' (fst (Display.sleep_screen h c))) = c
   /\ snd (Display.sleep_screen h c) = [Spawn xset_off]
   /\ snd (Display.wake_screen h' (fst (Display.sleep_screen h c)))
      = [Spawn xset_on]) /\
  (Display.screen_on (Display._state c) = false ->
   fst (Display.sleep_screen h' (fst (Display.wake_screen h c))) = c
   /\ snd (Display.wake_screen h c) = [Spawn xset_on]
   /\ snd (Display.sleep_screen h' (fst (Display.wake_screen h c)))
      = [Spawn xset_off]).
Proof.
  destruct c as [cfg [on br] warned bin dev path].
  unfold Display.wake_screen, Display.sleep_screen. simpl.
  split; intro H; subst on; simpl; repeat split.
Qed.

(** ** The control loop: one iteration in full *)

Section TickShape.

Import Sensors Display Main.

(** An iteration spelled out: what it leaves behind and what it does, in
    terms of the methods it calls. *)
Lemma tick_shape (cfg : KioskConfig) (w : Tick) (k : Kiosk) :
  let r := suite_read (tick_distance w) (tick_light w) (sensors k) in
  let readings := fst (fst r) in
  let h := tick_host w in
  let seen := presence cfg readings in
  let motion1 := if seen then tick_now w else last_motion_ts (loop k) in
  let screen1 := if seen then fst (wake_screen h (screen k)) else screen k in
  let go :=
    enable_distance_sensor cfg && distance_supported (snd (fst r))
    && Qltb (inject_Z (inactivity_timeout_sec cfg))
         (tick_now w - motion1)%Q in
  let screen2 := if go then fst (sleep_screen h screen1) else screen1 in
  let target := brightness_from_lux screen2 (ambient_lux readings) in
  tick cfg w k
  = ({| sensors := snd (fst r);
        screen := fst (set_brightness h screen2 target);
        loop :=
          {| last_motion_ts := motion1;
             last_health_log :=
               if Qle_bool 60 (tick_now w - last_health_log (loop k))%Q
               then tick_now w else last_health_log (loop k) |} |},
     snd r
     ++ (if seen
         then Invoke Call_wake_screen :: snd (wake_screen h (screen k))
         else [])
     ++ (if go
         then Invoke Call_sleep_screen :: snd (sleep_screen h screen1)
         else [])
     ++ Invoke (Call_set_brightness target)
        :: snd (set_brightness h screen2 target)).
Proof.
  cbv zeta. unfold tick, presence.
  destruct (suite_read (tick_distance w) (tick_light w) (sensors k))
    as [[readings sensors1] tr_read]. simpl fst. simpl snd.
  destruct (wake_screen (tick_host w) (screen k)) as [sc_w tr_w] eqn:Ew.
  simpl fst. simpl snd.
  set (seen := match distance_mm readings with
               | Some d => Qle_bool d (inject_Z (distance_threshold_mm cfg))
               | None => false
               end).
  assert (Hstep :
    match distance_mm readings with
    | Some d =>
      if Qle_bool d (inject_Z (distance_threshold_mm cfg))
      then (tick_now w, sc_w, Invoke Call_wake_screen :: tr_w)
      else (last_motion_ts (loop k), screen k, [])
    | None => (last_motion_ts (loop k), screen k, [])
    end
    = (if seen then tick_now w else last_motion_ts (loop k),
       if seen then sc_w else screen k,
       if seen then Invoke Call_wake_screen :: tr_w else [])).
  { subst seen. destruct (distance_mm readings) as [d|]; [|reflexivity].
    destruct (Qle_bool d _); reflexivity. }
  rewrite Hstep. clear Hstep.
  set (motion1 := if seen then tick_now w else last_motion_ts (loop k)).
  set (screen1 := if seen then sc_w else screen k).
  set (go := enable_distance_sensor cfg && distance_supported sensors1
             && Qltb (inject_Z (inactivity_timeout_sec cfg))
                  (tick_now w - motion1)%Q).
  destruct (sleep_screen (tick_host w) screen1) as [sc_s tr_s] eqn:Es.
  simpl fst. simpl snd.
  assert (Hstep :
    (if go then (sc_s, Invoke Call_sleep_screen :: tr_s) else (screen1, []))
    = (if go then sc_s else screen1,
       if go then Invoke Call_sleep_screen :: tr_s else []))
    by (destruct go; reflexivity).
  rewrite Hstep. clear Hstep.
  set (screen2 := if go then sc_s else screen1).
  set (target := brightness_from_lux screen2 (ambient_lux readings)).
  destruct (set_brightness (tick_host w) screen2 target) as [sc_b tr_b].
  reflexivity.
Qed.

Lemma brightness_from_lux_by_config (c c' : ScreenController)
  (lux : option Q) :
  _config c = _config c' ->
  brightness_from_lux c lux = brightness_from_lux c' lux.
Proof.
  intro H. unfold brightness_from_lux. rewrite H. reflexivity.
Qed.

Lemma no_calls_no_set_brightness (tr : list Event) :
  calls tr = [] -> filter is_set_brightness_call tr = [].
Proof.
  unfold calls. induction tr as [|e tr IH]; simpl; [reflexivity|].
  destruct e as [op|argv|path content|c]; simpl; try exact IH.
  discriminate.
Qed.

End TickShape.

Section TickFacts.

Import Sensors Display Main.

Lemma wake_screen_on (h : Host) (c : ScreenController) :
  screen_on (_state (fst (wake_screen h c))) = true.
Proof.
  unfold wake_screen. destruct (screen_on (_state c)) eqn:E; simpl;
    [exact E | reflexivity].
Qed.

Lemma sleep_screen_off (h : Host) (c : ScreenController) :
  screen_on (_state (fst (sleep_screen h c))) = false.
Proof.
  unfold sleep_screen. destruct (screen_on (_state c)) eqn:E; simpl;
    [reflexivity | exact E].
Qed.

Lemma never_idle_at_once (timeout : Z) (now : Q) :
  0 <= timeout -> Qltb (inject_Z timeout) (now - now)%Q = false.
Proof.
  intro Ht. apply Qltb_ge.
  assert (E : (now - now == inject_Z 0)%Q) by (simpl; ring).
  rewrite E, <- Zle_Qle. exact Ht.
Qed.

(** The calls of an iteration and the screen it leaves, by the two
    decisions it takes. *)
Lemma tick_decisions (cfg : KioskConfig) (w : Tick) (k : Kiosk) :
  exists (seen go : bool) (target : Z),
    calls (snd (tick cfg w k))
    = (if seen then [Invoke Call_wake_screen] else [])
      ++ (if go then [Invoke Call_sleep_screen] else [])
      ++ [Invoke (Call_set_brightness target)]
    /\ (0 <= inactivity_timeout_sec cfg -> seen = true -> go = false)
    /\ (seen = true -> last_motion_ts (loop (fst (tick cfg w k))) = tick_now w)
    /\ screen_on (_state (screen (fst (tick cfg w k))))
       = (if go then false
          else if seen then true else screen_on (_state (screen k)))
    /\ _config (screen (fst (tick cfg w k))) = _config (screen k)
    /\ target = brightness_from_lux (screen k)
                  (ambient_lux
                     (fst (fst (suite_read (tick_distance w) (tick_light w)
                                  (sensors k))))).
Proof.
  pose proof (tick_shape cfg w k) as Hs. cbv zeta in Hs.
  set (r := suite_read (tick_distance w) (tick_light w) (sensors k)) in *.
  set (seen := presence cfg (fst (fst r))) in *.
  set (motion1 := if seen then tick_now w else last_motion_ts (loop k)) in *.
  set (screen1 := if seen then fst (wake_screen (tick_host w) (screen k))
                  else screen k) in *.
  set (go := enable_distance_sensor cfg && distance_supported (snd (fst r))
             && Qltb (inject_Z (inactivity_timeout_sec cfg))
                  (tick_now w - motion1)%Q) in *.
  set (screen2 := if go then fst (sleep_screen (tick_host w) screen1)
                  else screen1) in *.
  set (target := brightness_from_lux screen2 (ambient_lux (fst (fst r))))
    in *.
  assert (Hc1 : _config screen1 = _config (screen k)).
  { subst screen1. destruct seen; [apply wake_screen_frame | reflexivity]. }
  assert (Hc2 : _config screen2 = _config (screen k)).
  { subst screen2. destruct go; [|exact Hc1].
    rewrite <- Hc1. apply sleep_screen_frame. }
  exists seen, go, target. rewrite Hs. simpl fst. simpl snd.
  split.
  { rewrite !calls_app. unfold r. rewrite suite_read_no_calls. simpl.
    rewrite set_brightness_no_calls.
    destruct seen, go; simpl;
      rewrite ?wake_screen_no_calls, ?sleep_screen_no_calls; reflexivity. }
  split.
  { intros Ht Hseen. subst go motion1. rewrite Hseen.
    rewrite (never_idle_at_once _ _ Ht). apply andb_false_r. }
  split.
  { intro Hseen. simpl. subst motion1. rewrite Hseen. reflexivity. }
  split.
  { simpl.
    destruct (set_brightness_frame (tick_host w) screen2 target)
      as (_ & Hon & _).
    rewrite Hon. subst screen2. destruct go.
    - apply sleep_screen_off.
    - subst screen1. destruct seen; [apply wake_screen_on | reflexivity]. }
  split.
  { simpl.
    destruct (set_brightness_frame (tick_host w) screen2 target)
      as (Hc & _).
    rewrite Hc. exact Hc2. }
  subst target. apply brightness_from_lux_by_config. exact Hc2.
Qed.

End TickFacts.

(** X15: every iteration of the loop calls [set_brightness] exactly once,
    after the wake and sleep decisions, with the brightness the
    configuration gives for this iteration's lux reading; without a lux
    reading that is the default brightness. *)
Theorem tick_sets_brightness_once (cfg : KioskConfig) (w : Main.Tick)
  (k : Main.Kiosk) :
  let readings :=
    fst (fst (Sensors.suite_read (Main.tick_distance w) (Main.tick_light w)
                (Main.sensors k))) in
  let target :=
    Display.brightness_from_lux (Main.screen k)
      (Sensors.ambient_lux readings) in
  filter is_set_brightness_call (snd (Main.tick cfg w k))
  = [Invoke (Call_set_brightness target)] /\
  (exists before, calls (snd (Main.tick cfg w k))
                  = before ++ [Invoke (Call_set_brightness target)]) /\
  (Sensors.ambient_lux readings = None ->
   target = default_brightness (Display._config (Main.screen k))).
Proof.
  cbv zeta.
  destruct (tick_decisions cfg w k)
    as (seen & go & target & Hc & _ & _ & _ & _ & Ht).
  rewrite <- Ht. split; [|split].
  - assert (Hf : forall tr, filter is_set_brightness_call tr
                            = filter is_set_brightness_call (calls tr)).
    { intro tr. unfold calls. induction tr as [|e tr IH]; [reflexivity|].
      destruct e as [op|argv|path content|c]; simpl; try exact IH.
      destruct c; simpl; rewrite IH; reflexivity. }
    rewrite Hf, Hc. destruct seen, go; reflexivity.
  - exists ((if seen then [Invoke Call_wake_screen] else [])
            ++ (if go then [Invoke Call_sleep_screen] else [])).
    rewrite Hc, <- List.app_assoc. reflexivity.
  - intro Hn. rewrite Ht, Hn. reflexivity.
Qed.

(** X16: with a timeout that is not negative, one iteration never calls
    both [wake_screen] and [sleep_screen]; after an iteration that called
    [wake_screen] the screen is tracked as on and [last_motion_ts] is this
    iteration's clock reading, after one that called [sleep_screen] the
    screen is tracked as off, and after one that called neither the
    tracked state is what it was. *)
Theorem tick_wakes_or_sleeps (cfg : KioskConfig) (w : Main.Tick)
  (k : Main.Kiosk) :
  0 <= inactivity_timeout_sec cfg ->
  let k' := fst (Main.tick cfg w k) in
  let tr := snd (Main.tick cfg w k) in
  let on c := Display.screen_on (Display._state (Main.screen c)) in
  ~ (In (Invoke Call_wake_screen) tr /\ In (Invoke Call_sleep_screen) tr) /\
  (In (Invoke Call_wake_screen) tr ->
   on k' = true
   /\ Main.last_motion_ts (Main.loop k') = Main.tick_now w) /\
  (In (Invoke Call_sleep_screen) tr -> on k' = false) /\
  (~ In (Invoke Call_wake_screen) tr ->
   ~ In (Invoke Call_sleep_screen) tr -> on k' = on k).
Proof.
  intros Ht. cbv zeta.
  destruct (tick_decisions cfg w k)
    as (seen & go & target & Hc & Hex & Hm & Hon & _ & _).
  specialize (Hex Ht).
  rewrite (calls_in Call_wake_screen (snd (Main.tick cfg w k))),
    (calls_in Call_sleep_screen (snd (Main.tick cfg w k))), Hc, Hon.
  assert (Hw : In (Invoke Call_wake_screen)
                 ((if seen then [Invoke Call_wake_screen] else [])
                  ++ (if go then [Invoke Call_sleep_screen] else [])
                  ++ [Invoke (Call_set_brightness target)])
               <-> seen = true).
  { destruct seen, go; simpl; split; intro H; try reflexivity;
      try discriminate; try tauto;
      repeat (destruct H as [H|H]; try discriminate H); contradiction. }
  assert (Hs : In (Invoke Call_sleep_screen)
                 ((if seen then [Invoke Call_wake_screen] else [])
                  ++ (if go then [Invoke Call_sleep_screen] else [])
                  ++ [Invoke (Call_set_brightness target)])
               <-> go = true).
  { destruct seen, go; simpl; split; intro H; try reflexivity;
      try discriminate; try tauto;
      repeat (destruct H as [H|H]; try discriminate H); contradiction. }
  rewrite Hw, Hs. clear Hw Hs Hc.
  split; [|split; [|split]].
  - intros [H1 H2]. rewrite (Hex H1) in H2. discriminate.
  - intro H1. rewrite (Hex H1), H1. split; [reflexivity | exact (Hm H1)].
  - intro H2. rewrite H2. reflexivity.
  - intros H1 H2. destruct seen; [congruence|]. destruct go; [congruence|].
    reflexivity.
Qed.

Lemma tick_wakes_or_sleeps_witness :
  let r := Main.tick default_config
             (iteration 50 (answering true (Some 1200%Q) (Some 200%Q)))
             (kiosk_at default_config (held_sensor Distance 0 0) 7) in
  ~ (In (Invoke Call_wake_screen) (snd r)
     /\ In (Invoke Call_sleep_screen) (snd r)).
Proof.
  cbv zeta.
  apply (tick_wakes_or_sleeps default_config
           (iteration 50 (answering true (Some 1200%Q) (Some 200%Q)))
           (kiosk_at default_config (held_sensor Distance 0 0) 7)).
  simpl. lia.
Defined.

Section RunWithoutBus.

Import Sensors Display Main.

Lemma suite_read_disabled (wd wl : Env) (u : SensorSuite) :
  Disabled (distance u) -> Disabled (light u) ->
  suite_read wd wl u
  = ({| distance_mm := None; ambient_lux := None |}, u, []).
Proof.
  intros [Hd _] [Hl _]. unfold suite_read.
  rewrite (read_when_disabled Distance wd _ Hd),
    (read_when_disabled Light wl _ Hl).
  destruct u; reflexivity.
Qed.

Lemma set_brightness_no_traffic (h : Host) (c : ScreenController) (t : Z) :
  count is_driver_traffic (snd (set_brightness h c t)) = 0%nat.
Proof.
  unfold set_brightness, _use_brightnessctl, _write_backlight_file, _run.
  destruct (brightness_is c (clamp c t)); [reflexivity|].
  destruct (negb (truthy (_brightnessctl_bin c))
            || negb (path_exists h (_brightnessctl_bin c)));
    [|destruct (run_ok h _); [reflexivity|]];
    (destruct (_backlight_path c) as [p|];
     [destruct (negb (truthy p)); [|destruct (write_ok h p _)]|]);
    reflexivity.
Qed.

Lemma tick_without_sensors (cfg : KioskConfig) (w : Tick) (k : Kiosk) :
  Disabled (distance (sensors k)) -> Disabled (light (sensors k)) ->
  _config (screen k) = cfg ->
  tick cfg w k
  = ({| sensors := sensors k;
        screen := fst (set_brightness (tick_host w) (screen k)
                         (default_brightness cfg));
        loop :=
          {| last_motion_ts := last_motion_ts (loop k);
             last_health_log :=
               if Qle_bool 60 (tick_now w - last_health_log (loop k))%Q
               then tick_now w else last_health_log (loop k) |} |},
     Invoke (Call_set_brightness (default_brightness cfg))
     :: snd (set_brightness (tick_host w) (screen k)
               (default_brightness cfg))).
Proof.
  intros Hd Hl Hc. pose proof (tick_shape cfg w k) as Hs. cbv zeta in Hs.
  rewrite (suite_read_disabled _ _ _ Hd Hl) in Hs. simpl in Hs.
  assert (Hsup : distance_supported (sensors k) = false).
  { unfold distance_supported, is_supported. destruct Hd as [_ ->].
    reflexivity. }
  rewrite Hsup, andb_false_r in Hs. simpl in Hs. rewrite Hc in Hs.
  exact Hs.
Qed.

Lemma run_without_sensors (cfg : KioskConfig) (ws : list Tick) :
  forall k : Kiosk,
    Disabled (distance (sensors k)) -> Disabled (light (sensors k)) ->
    _config (screen k) = cfg ->
    calls (snd (run cfg ws k))
    = repeat (Invoke (Call_set_brightness (default_brightness cfg)))
        (List.length ws)
    /\ count is_driver_traffic (snd (run cfg ws k)) = 0%nat
    /\ screen_on (_state (screen (fst (run cfg ws k))))
       = screen_on (_state (screen k))
    /\ last_motion_ts (loop (fst (run cfg ws k))) = last_motion_ts (loop k).
Proof.
  induction ws as [|w ws IH]; intros k Hd Hl Hc; simpl; [repeat split|].
  rewrite (tick_without_sensors cfg w k Hd Hl Hc).
  set (k1 := {| sensors := sensors k;
                screen := fst (set_brightness (tick_host w) (screen k)
                                 (default_brightness cfg));
                loop := _ |}).
  destruct (set_brightness_frame (tick_host w) (screen k)
              (default_brightness cfg)) as (Hc1 & Hon1 & _).
  assert (Hk : _config (screen k1) = cfg) by (simpl; congruence).
  destruct (IH k1 Hd Hl Hk) as (H1 & H2 & H3 & H4).
  destruct (run cfg ws k1) as [k2 tr2]. simpl in *.
  split; [|split; [|split]].
  - unfold calls in *. simpl. fold (calls tr2). rewrite calls_app.
    rewrite set_brightness_no_calls. simpl. unfold calls. rewrite H1.
    reflexivity.
  - unfold count in *. simpl. rewrite filter_app, List.length_app.
    fold (count is_driver_traffic
            (snd (set_brightness (tick_host w) (screen k)
                    (default_brightness cfg)))).
    rewrite set_brightness_no_traffic. simpl. exact H2.
  - rewrite H3. exact Hon1.
  - exact H4.
Qed.

End RunWithoutBus.

(** X17: when the bus cannot be acquired at start, the loop leaves the
    screen alone for as long as it runs: over any number of iterations
    it calls neither [wake_screen] nor [sleep_screen], the screen stays
    tracked as on, each iteration asks for the default brightness, no
    iteration causes any traffic with a sensor, and [last_motion_ts]
    stays at its start value. *)
Theorem no_bus_leaves_screen_alone (cfg : KioskConfig) (wd wl : Env)
  (t0 : Q) (ws : list Main.Tick) :
  let k0 := fst (Main.start cfg None wd wl t0) in
  let r := Main.run cfg ws k0 in
  calls (snd r)
  = repeat (Invoke (Call_set_brightness (default_brightness cfg)))
      (List.length ws) /\
  count is_driver_traffic (snd r) = 0%nat /\
  Display.screen_on (Display._state (Main.screen (fst r))) = true /\
  Main.last_motion_ts (Main.loop (fst r)) = t0.
Proof.
  cbv zeta. unfold Main.start.
  assert (Hu : Sensors.new_suite cfg None wd wl
               = ({| Sensors.bus := None;
                     Sensors.distance :=
                       fst (Sensors.new_sensor Distance
                              (enable_distance_sensor cfg) None wd);
                     Sensors.light :=
                       fst (Sensors.new_sensor Light
                              (enable_light_sensor cfg) None wl) |},
                  snd (Sensors._init_i2c_bus cfg None))).
  { unfold Sensors.new_suite.
    assert (Hb : fst (Sensors._init_i2c_bus cfg None) = None).
    { unfold Sensors._init_i2c_bus.
      destruct (negb (enable_distance_sensor cfg
                      || enable_light_sensor cfg)); reflexivity. }
    destruct (Sensors._init_i2c_bus cfg None) as [i2c tr0]. simpl in Hb.
    subst i2c.
    destruct (new_sensor_without_bus Distance
                (enable_distance_sensor cfg) wd) as [_ Hd].
    destruct (new_sensor_without_bus Light
                (enable_light_sensor cfg) wl) as [_ Hl].
    destruct (Sensors.new_sensor Distance _ None wd) as [d tr1].
    destruct (Sensors.new_sensor Light _ None wl) as [l tr2].
    simpl in *. subst tr1 tr2. rewrite List.app_nil_r. reflexivity. }
  rewrite Hu. simpl fst.
  apply (run_without_sensors cfg ws).
  - apply new_sensor_without_bus.
  - apply new_sensor_without_bus.
  - reflexivity.
Qed.

(** ** The older script against the package *)

Section LegacyFacts.

Lemma py_min_between (x : Q) :
  (0 <= x)%Q -> (0 <= py_min 1 x)%Q /\ (py_min 1 x <= 1)%Q.
Proof.
  intro H. unfold py_min. destruct (Qltb x 1) eqn:E.
  - apply Qltb_lt in E. split; [exact H | apply Qlt_le_weak; exact E].
  - split; [discriminate | apply Qle_refl].
Qed.

Lemma lux_value_between (c : Display.ScreenController) (lux : Q) :
  brightness_min (Display._config c) <= brightness_max (Display._config c) ->
  (0 <= lux)%Q ->
  (inject_Z (brightness_min (Display._config c)) <= lux_value c lux)%Q
  /\ (lux_value c lux <= inject_Z (brightness_max (Display._config c)))%Q.
Proof.
  intros Hb Hl.
  assert (Hr : (0 <= lux / lux_ceiling c)%Q).
  { unfold Qdiv. apply Qmult_le_0_compat; [exact Hl|].
    apply Qinv_le_0_compat, Qlt_le_weak, lux_ceiling_pos. }
  destruct (py_min_between _ Hr) as [H0 H1].
  assert (Hd : (0 <= inject_Z (brightness_max (Display._config c)
                               - brightness_min (Display._config c)))%Q).
  { change 0%Q with (inject_Z 0). rewrite <- Zle_Qle. lia. }
  unfold lux_value. split.
  - rewrite <- (Qplus_0_r (inject_Z (brightness_min (Display._config c))))
      at 1.
    apply Qplus_le_r. apply Qmult_le_0_compat; assumption.
  - apply Qle_trans
      with (inject_Z (brightness_min (Display._config c))
            + inject_Z (brightness_max (Display._config c)
                        - brightness_min (Display._config c)) * 1)%Q.
    + apply Qplus_le_r. rewrite !(Qmult_comm (inject_Z _)).
      apply Qmult_le_compat_r; assumption.
    + rewrite Qmult_1_r, <- inject_Z_plus, <- Zle_Qle. lia.
Qed.

Lemma distance_invalid_agrees (distance : option Q) :
  Sensors.distance_invalid distance = Legacy.distance_invalid distance.
Proof.
  destruct distance as [v|]; simpl; [|reflexivity].
  destruct (Qeq_bool v 0) eqn:E; simpl; [|reflexivity].
  apply Qeq_bool_iff in E. symmetry. apply Qle_bool_iff.
  rewrite E. apply Qle_refl.
Qed.

Lemma distance_try_agrees (d : Device) :
  Sensors.distance_try d = Legacy.distance_try d.
Proof.
  unfold Sensors.distance_try, Legacy.distance_try.
  destruct (Sensors.data_not_ready d) as [tr0 [[|]|]]; simpl;
    try reflexivity.
  destruct (Sensors.getattr_default ReadDistance (dev_distance d))
    as [tr1 [distance|]]; simpl; try reflexivity.
  destruct (Sensors.clear_interrupt d) as [tr2 [u|]]; simpl;
    try reflexivity.
  rewrite distance_invalid_agrees. reflexivity.
Qed.

End LegacyFacts.

(** X18: for every lux reading that is not negative, and bounds with
    [brightness_min <= brightness_max], the older script's
    [brightness_from_lux], which does not clamp, gives the same
    brightness as the package's, which does; so do both for a missing
    reading. *)
Theorem legacy_brightness_agrees (c : Display.ScreenController) (lux : Q) :
  brightness_min (Display._config c) <= brightness_max (Display._config c) ->
  (0 <= lux)%Q ->
  Legacy.brightness_from_lux (settings_of (Display._config c)) (Some lux)
  = Display.brightness_from_lux c (Some lux) /\
  Legacy.brightness_from_lux (settings_of (Display._config c)) None
  = Display.brightness_from_lux c None.
Proof.
  intros Hb Hl. split; [|reflexivity].
  rewrite brightness_from_lux_some.
  change (Legacy.brightness_from_lux (settings_of (Display._config c))
            (Some lux))
    with (int_of_float (lux_value c lux)).
  destruct (lux_value_between c lux Hb Hl) as [H0 H1].
  pose proof (int_of_float_mono _ _ H0) as L0.
  pose proof (int_of_float_mono _ _ H1) as L1.
  rewrite (int_of_float_inject (inject_Z _) _ (Qeq_refl _)) in L0.
  rewrite (int_of_float_inject (inject_Z _) _ (Qeq_refl _)) in L1.
  lia.
Qed.

Lemma legacy_brightness_agrees_witness :
  Legacy.brightness_from_lux
    (settings_of (Display._config (Display.new_controller default_config)))
    (Some 200%Q)
  = Display.brightness_from_lux (Display.new_controller default_config)
      (Some 200%Q).
Proof.
  apply (legacy_brightness_agrees (Display.new_controller default_config)
           200%Q).
  - simpl. lia.
  - unfold Qle; simpl; lia.
Defined.

(** Below zero the two part: the older script hands [set_brightness] a
    value under [BRIGHTNESS_MIN], the package stays at [brightness_min]. *)
Example negative_lux :
  Legacy.brightness_from_lux (settings_of default_config) (Some (-400)%Q)
  = -235 /\
  Display.brightness_from_lux (Display.new_controller default_config)
    (Some (-400)%Q) = 10.
Proof. split; reflexivity. Qed.

(** X19: in the older script, with [brightnessctl] found at start, a
    [set_brightness] whose clamped target differs from the last one
    issues exactly one [brightnessctl] command carrying the clamped
    target and records the target as applied without looking at the
    command's result; a repeated call with the same value then issues
    nothing, whether or not the command had worked. *)
Theorem legacy_set_brightness_never_retries (g : Legacy.Settings)
  (h h' : Host) (c : Legacy.ScreenController) (target : Z) :
  Legacy._brightnessctl_available c = true ->
  let t :=
    Z.max (Legacy.BRIGHTNESS_MIN g) (Z.min (Legacy.BRIGHTNESS_MAX g) target) in
  Legacy.last_is c t = false ->
  let c' := fst (Legacy.set_brightness g h c target) in
  (exists argv,
     snd (Legacy.set_brightness g h c target) = [Spawn argv]
     /\ carries (str t) (Spawn argv)) /\
  Legacy._last_brightness c' = Some t /\
  Legacy.set_brightness g h' c' target = (c', []).
Proof.
  intros Ha t Hl c'. subst c'. unfold Legacy.set_brightness. fold t.
  rewrite Hl, Ha. simpl. split; [|split].
  - eexists. split; [reflexivity|]. simpl.
    exists (Legacy.BRIGHTNESSCTL_BIN g
            :: (if truthy (Legacy.BRIGHTNESSCTL_DEVICE g)
                then [("--device=" ++ Legacy.BRIGHTNESSCTL_DEVICE g)%string]
                else [])).
    reflexivity.
  - reflexivity.
  - unfold Legacy.last_is. simpl. rewrite Z.eqb_refl. reflexivity.
Qed.

Lemma legacy_set_brightness_never_retries_witness :
  let g := settings_of default_config in
  let c := Legacy.new_controller g (host false false) in
  Legacy._last_brightness
    (fst (Legacy.set_brightness g (host false false) c 132)) = Some 132.
Proof.
  cbv zeta.
  apply (legacy_set_brightness_never_retries (settings_of default_config)
           (host false false) (host false false)
           (Legacy.new_controller (settings_of default_config)
              (host false false)) 132);
    reflexivity.
Defined.

(** X20: on a sensor in state [Ready], the package's [read] returns the
    value, and causes the traffic, that the older script's
    [_read_distance] and [_read_lux] return and cause for the same
    answers of the driver object. *)
Theorem legacy_read_agrees (w : Env) (sd sl : Sensors.Sensor)
  (u : Legacy.SensorSuite) :
  Ready (clock_ready w) sd ->
  Ready (clock_ready w) sl ->
  Legacy.distance_supported u = true ->
  Legacy.light_supported u = true ->
  (fst (fst (Sensors.read Distance w sd)), snd (Sensors.read Distance w sd))
  = Legacy._read_distance u (device w) /\
  (fst (fst (Sensors.read Light w sl)), snd (Sensors.read Light w sl))
  = Legacy._read_lux u (device w).
Proof.
  intros Hd Hl Hud Hul.
  rewrite (read_when_ready Distance w sd Hd),
    (read_when_ready Light w sl Hl).
  unfold Legacy._read_distance, Legacy._read_lux,
    Legacy.distance_supported, Legacy.light_supported in *.
  destruct (Legacy._distance_sensor u); [|discriminate].
  destruct (Legacy._light_sensor u); [|discriminate].
  simpl. rewrite distance_try_agrees. split.
  - destruct (Legacy.distance_try (device w)) as [tr [[v|]|]]; reflexivity.
  - unfold Sensors.light_try.
    destruct (dev_lux (device w)) as [| |[v|]]; reflexivity.
Qed.

Lemma legacy_read_agrees_witness :
  let w := world 5 None (answering true (Some 1200%Q) (Some 200%Q)) in
  let u := fst (Legacy.new_suite (Some I2C_bus) (Some (Driver Distance 0))
                  (Some (Driver Light 0)) true) in
  (fst (fst (Sensors.read Distance w (held_sensor Distance 0 0))),
   snd (Sensors.read Distance w (held_sensor Distance 0 0)))
  = Legacy._read_distance u (device w).
Proof.
  cbv zeta.
  apply (legacy_read_agrees
           (world 5 None (answering true (Some 1200%Q) (Some 200%Q)))
           (held_sensor Distance 0 0) (held_sensor Light 0 0)
           (fst (Legacy.new_suite (Some I2C_bus) (Some (Driver Distance 0))
                   (Some (Driver Light 0)) true))).
  - apply held_sensor_ready.
  - apply held_sensor_ready.
  - reflexivity.
  - reflexivity.
Defined.

Section LegacyLoop.

Lemma legacy_read_no_calls (u : Legacy.SensorSuite) (dd dl : Device) :
  calls (snd (Legacy.read u dd dl)) = [].
Proof.
  unfold Legacy.read, Legacy._read_distance, Legacy._read_lux.
  rewrite <- distance_try_agrees.
  pose proof (read_try_no_calls Distance dd) as Hd. simpl in Hd.
  destruct (Legacy._distance_sensor u);
    [destruct (Sensors.distance_try dd) as [tr1 [v|]]; simpl in Hd|];
    (destruct (Legacy._light_sensor u);
     [destruct (dev_lux dl) as [| |x]|]); simpl;
    rewrite ?calls_app, ?Hd; reflexivity.
Qed.

Lemma legacy_set_brightness_no_calls (g : Legacy.Settings) (h : Host)
  (c : Legacy.ScreenController) (t : Z) :
  calls (snd (Legacy.set_brightness g h c t)) = [].
Proof.
  unfold Legacy.set_brightness.
  destruct (Legacy.last_is c _); [reflexivity|].
  destruct (Legacy._brightnessctl_available c); [reflexivity|].
  destruct (truthy (Legacy.BACKLIGHT_PATH g)); [|reflexivity].
  destruct (write_ok h _ _); reflexivity.
Qed.

Lemma legacy_tick_calls (g : Legacy.Settings) (h : Host) (dd dl : Device)
  (now : Q) (k : Legacy.Kiosk) :
  exists target : Z,
    calls (snd (Legacy.tick g h dd dl now k))
    = match snd (Legacy.presence_step (Legacy.DISTANCE_THRESHOLD_MM g)
                   (Legacy.INACTIVITY_TIMEOUT_SEC g)
                   (Legacy.motion_supported k)
                   (Legacy.distance_mm
                      (fst (Legacy.read (Legacy.sensors k) dd dl)))
                   now (Legacy.last_motion_ts k)) with
      | Legacy.Wake => [Invoke Call_wake_screen]
      | Legacy.Sleep => [Invoke Call_sleep_screen]
      | Legacy.Idle => []
      end
      ++ [Invoke (Call_set_brightness target)].
Proof.
  unfold Legacy.tick.
  pose proof (legacy_read_no_calls (Legacy.sensors k) dd dl) as Hr.
  destruct (Legacy.read (Legacy.sensors k) dd dl) as [readings tr_read].
  simpl in Hr. simpl fst.
  destruct (Legacy.presence_step _ _ _ _ _ _) as [motion1 action].
  simpl snd.
  set (target := Legacy.brightness_from_lux g (Legacy.ambient_lux readings)).
  exists target.
  assert (Hw : calls (snd (Legacy.wake_screen (Legacy.screen k))) = []).
  { unfold Legacy.wake_screen.
    destruct (Legacy._screen_on (Legacy.screen k)); reflexivity. }
  assert (Hs : calls (snd (Legacy.sleep_screen (Legacy.screen k))) = []).
  { unfold Legacy.sleep_screen.
    destruct (Legacy._screen_on (Legacy.screen k)); reflexivity. }
  destruct action.
  - destruct (Legacy.wake_screen (Legacy.screen k)) as [sc1 tr1].
    pose proof (legacy_set_brightness_no_calls g h sc1 target) as Hset.
    destruct (Legacy.set_brightness g h sc1 target) as [sc tr].
    simpl in *. rewrite !calls_app, Hr. simpl. rewrite calls_app, Hw.
    simpl. rewrite Hset. reflexivity.
  - destruct (Legacy.sleep_screen (Legacy.screen k)) as [sc1 tr1].
    pose proof (legacy_set_brightness_no_calls g h sc1 target) as Hset.
    destruct (Legacy.set_brightness g h sc1 target) as [sc tr].
    simpl in *. rewrite !calls_app, Hr. simpl. rewrite calls_app, Hs.
    simpl. rewrite Hset. reflexivity.
  - pose proof (legacy_set_brightness_no_calls g h (Legacy.screen k) target)
      as Hset.
    destruct (Legacy.set_brightness g h (Legacy.screen k) target)
      as [sc tr].
    simpl in *. rewrite !calls_app, Hr. simpl. rewrite Hset. reflexivity.
Qed.

End LegacyLoop.

(** X21: one iteration of the older script's loop never calls both
    [wake_screen] and [sleep_screen], whatever the timeout; it calls
    [sleep_screen] only if the distance sensor was found at start and
    this iteration saw nobody within the threshold. *)
Theorem legacy_tick_wakes_or_sleeps (g : Legacy.Settings) (h : Host)
  (dd dl : Device) (now : Q) (k : Legacy.Kiosk) :
  let tr := snd (Legacy.tick g h dd dl now k) in
  let distance :=
    Legacy.distance_mm (fst (Legacy.read (Legacy.sensors k) dd dl)) in
  ~ (In (Invoke Call_wake_screen) tr /\ In (Invoke Call_sleep_screen) tr) /\
  (In (Invoke Call_sleep_screen) tr ->
   Legacy.motion_supported k = true
   /\ (inject_Z (Legacy.INACTIVITY_TIMEOUT_SEC g)
       < now - Legacy.last_motion_ts k)%Q
   /\ match distance with
      | Some d => ~ (d <= inject_Z (Legacy.DISTANCE_THRESHOLD_MM g))%Q
      | None => True
      end).
Proof.
  cbv zeta.
  destruct (legacy_tick_calls g h dd dl now k) as [target Hc].
  rewrite (calls_in Call_wake_screen), (calls_in Call_sleep_screen), Hc.
  unfold Legacy.presence_step.
  destruct (Legacy.distance_mm (fst (Legacy.read (Legacy.sensors k) dd dl)))
    as [d|].
  - destruct (Qle_bool d (inject_Z (Legacy.DISTANCE_THRESHOLD_MM g)))
      eqn:Ed; simpl.
    + split; [intros [_ [H|[H|[]]]]; discriminate H|].
      intros [H|[H|[]]]; discriminate H.
    + destruct (Legacy.motion_supported k); simpl.
      * destruct (Qltb _ _) eqn:Eq; simpl.
        -- split; [intros [[H|[H|[]]] _]; discriminate H|].
           intros _. split; [reflexivity|]. split.
           ++ apply Qltb_lt. exact Eq.
           ++ intro Hle. apply Qle_bool_iff in Hle. congruence.
        -- split; [intros [[H|[]] _]; discriminate H|].
           intros [H|[]]; discriminate H.
      * split; [intros [[H|[]] _]; discriminate H|].
        intros [H|[]]; discriminate H.
  - destruct (Legacy.motion_supported k); simpl.
    + destruct (Qltb _ _) eqn:Eq; simpl.
      * split; [intros [[H|[H|[]]] _]; discriminate H|].
        intros _. split; [reflexivity|]. split; [|exact I].
        apply Qltb_lt. exact Eq.
      * split; [intros [[H|[]] _]; discriminate H|].
        intros [H|[]]; discriminate H.
    + split; [intros [[H|[]] _]; discriminate H|].
      intros [H|[]]; discriminate H.
Qed.

(** X9: for a timeout that is not negative, the [if]/[elif] of the older
    script decides to sleep in exactly the iterations in which the two
    separate [if]s of the package's loop do, given the same support
    flag, reading, clock and [last_motion_ts]. *)
Theorem legacy_decides_sleep_like_run (cfg : KioskConfig) (supported : bool)
  (readings : Sensors.SensorReadings) (now last : Q) :
  0 <= inactivity_timeout_sec cfg ->
  snd (Legacy.presence_step (distance_threshold_mm cfg)
         (inactivity_timeout_sec cfg) supported
         (Sensors.distance_mm readings) now last) = Legacy.Sleep
  <->
  supported
  && Qltb (inject_Z (inactivity_timeout_sec cfg))
       (now - (if presence cfg readings then now else last))%Q = true.
Proof.
  exact (legacy_sleep_agrees cfg supported readings now last).
Qed.

Lemma legacy_decides_sleep_like_run_witness :
  snd (Legacy.presence_step (distance_threshold_mm default_config)
         (inactivity_timeout_sec default_config) true
         (Sensors.distance_mm
            {| Sensors.distance_mm := None; Sensors.ambient_lux := None |})
         98 7) = Legacy.Sleep.
Proof.
  apply (legacy_decides_sleep_like_run default_config true
           {| Sensors.distance_mm := None; Sensors.ambient_lux := None |}
           98 7).
  - simpl. lia.
  - reflexivity.
Defined.

(** ** The environment file *)

Section DictFacts.

Import Config.

Lemma dict_get_set_same (k v : string) (d : Dict) :
  dict_get k (dict_set k v d) = Some v.
Proof.
  induction d as [|[k' v'] d IH]; simpl.
  - rewrite String.eqb_refl. reflexivity.
  - destruct (String.eqb k' k) eqn:E; simpl; rewrite E;
      [reflexivity | exact IH].
Qed.

Lemma dict_get_set_other (k k' v : string) (d : Dict) :
  String.eqb k k' = false ->
  dict_get k' (dict_set k v d) = dict_get k' d.
Proof.
  intro Hne. induction d as [|[k0 v0] d IH]; simpl.
  - rewrite Hne. reflexivity.
  - destruct (String.eqb k0 k) eqn:E; simpl.
    + apply String.eqb_eq in E. subst k0. rewrite Hne. reflexivity.
    + destruct (String.eqb k0 k'); [reflexivity | exact IH].
Qed.

Lemma dict_set_keys (k v : string) (d : Dict) :
  map fst (dict_set k v d)
  = if existsb (fun kv => String.eqb (fst kv) k) d
    then map fst d else map fst d ++ [k].
Proof.
  induction d as [|[k' v'] d IH]; simpl; [reflexivity|].
  destruct (String.eqb k' k) eqn:E; simpl; [reflexivity|].
  rewrite IH. destruct (existsb _ d); reflexivity.
Qed.

Lemma existsb_key_in (k : string) (d : Dict) :
  existsb (fun kv => String.eqb (fst kv) k) d = false ->
  ~ In k (map fst d).
Proof.
  induction d as [|[k' v'] d IH]; simpl; [tauto|].
  destruct (String.eqb k' k) eqn:E; simpl; [discriminate|].
  intros H [Hk | Hin]; [|exact (IH H Hin)].
  subst k'. rewrite String.eqb_refl in E. discriminate.
Qed.

Lemma dict_set_nodup (k v : string) (d : Dict) :
  NoDup (map fst d) -> NoDup (map fst (dict_set k v d)).
Proof.
  intro H. rewrite dict_set_keys.
  destruct (existsb _ d) eqn:E; [exact H|].
  apply NoDup_app; [exact H | repeat constructor; simpl; tauto |].
  intros x Hx [Hk | []]. subst x. exact (existsb_key_in k d E Hx).
Qed.

Lemma dict_set_truthy_keys (k v : string) (d : Dict) :
  truthy k = true ->
  Forall (fun kv => truthy (fst kv) = true) d ->
  Forall (fun kv => truthy (fst kv) = true) (dict_set k v d).
Proof.
  intros Hk H. induction d as [|[k' v'] d IH]; simpl.
  - repeat constructor. exact Hk.
  - inversion H as [|x l Hx Hl]; subst.
    destruct (String.eqb k' k); constructor; auto.
Qed.

Lemma dict_get_absent (k : string) (d : Dict) :
  ~ In k (map fst d) -> dict_get k d = None.
Proof.
  induction d as [|[k' v'] d IH]; simpl; [reflexivity|].
  intro H. destruct (String.eqb k' k) eqn:E.
  - apply String.eqb_eq in E. tauto.
  - apply IH. tauto.
Qed.

Lemma dict_get_update (k : string) (e : Dict) :
  forall d : Dict,
    NoDup (map fst e) ->
    dict_get k (dict_update d e)
    = match dict_get k e with
      | Some v => Some v
      | None => dict_get k d
      end.
Proof.
  unfold dict_update.
  induction e as [|[k1 v1] e IH]; intros d Hnd; simpl; [reflexivity|].
  inversion Hnd as [|x l Hx Hl]; subst.
  rewrite (IH _ Hl). destruct (String.eqb k1 k) eqn:E.
  - apply String.eqb_eq in E. subst k1.
    rewrite (dict_get_absent k e Hx). apply dict_get_set_same.
  - destruct (dict_get k e); [reflexivity|].
    apply dict_get_set_other. exact E.
Qed.

End DictFacts.

Section ParseFacts.

Import Config.

Variable strip : string -> string.
Variable shlex_split : string -> option (list string).

Lemma parse_line_assignment (data : Dict) (raw_line : string) :
  parse_line strip shlex_split data raw_line
  = match assignment strip shlex_split raw_line with
    | Some (k, v) => dict_set k v data
    | None => data
    end.
Proof.
  unfold parse_line, assignment.
  destruct (truthy (strip raw_line)); simpl; [|reflexivity].
  destruct (is_comment (strip raw_line)); simpl; [reflexivity|].
  destruct (partition_eq (strip raw_line)) as [[key raw_value]|];
    [|reflexivity].
  destruct (truthy (strip key)); reflexivity.
Qed.

Lemma assignment_key_truthy (raw_line k v : string) :
  assignment strip shlex_split raw_line = Some (k, v) -> truthy k = true.
Proof.
  unfold assignment.
  destruct (truthy (strip raw_line) && negb (is_comment (strip raw_line)));
    [|discriminate].
  destruct (partition_eq (strip raw_line)) as [[key raw_value]|];
    [|discriminate].
  destruct (truthy (strip key)) eqn:E; [|discriminate].
  intro H. injection H as Hk _. subst k. exact E.
Qed.

Lemma parse_fold_get (k : string) (lines : list string) :
  forall data : Dict,
    dict_get k (fold_left (parse_line strip shlex_split) lines data)
    = match last_assignment strip shlex_split k lines with
      | Some v => Some v
      | None => dict_get k data
      end.
Proof.
  induction lines as [|raw lines IH]; intro data; simpl; [reflexivity|].
  rewrite IH, parse_line_assignment.
  destruct (last_assignment strip shlex_split k lines); [reflexivity|].
  destruct (assignment strip shlex_split raw) as [[k' v]|]; [|reflexivity].
  destruct (String.eqb k' k) eqn:E.
  - apply String.eqb_eq in E. subst k'. apply dict_get_set_same.
  - apply dict_get_set_other. exact E.
Qed.

Lemma parse_fold_keys (lines : list string) :
  forall data : Dict,
    NoDup (map fst data) ->
    Forall (fun kv => truthy (fst kv) = true) data ->
    NoDup (map fst (fold_left (parse_line strip shlex_split) lines data))
    /\ Forall (fun kv => truthy (fst kv) = true)
         (fold_left (parse_line strip shlex_split) lines data).
Proof.
  induction lines as [|raw lines IH]; intros data Hn Ht; simpl; [tauto|].
  apply IH; rewrite parse_line_assignment;
    destruct (assignment strip shlex_split raw) as [[k v]|] eqn:E;
    try assumption.
  - apply dict_set_nodup. exact Hn.
  - apply dict_set_truthy_keys; [|exact Ht].
    exact (assignment_key_truthy raw k v E).
Qed.

Lemma parse_env_keys_nodup (lines : list string) :
  NoDup (map fst (parse_env_lines strip shlex_split lines)).
Proof.
  apply (parse_fold_keys lines []); constructor.
Qed.

Lemma parse_skips (before after : list string) (raw : string) :
  assignment strip shlex_split raw = None ->
  parse_env_lines strip shlex_split (before ++ raw :: after)
  = parse_env_lines strip shlex_split (before ++ after).
Proof.
  intro H. unfold parse_env_lines. rewrite !fold_left_app. simpl.
  rewrite parse_line_assignment, H. reflexivity.
Qed.

End ParseFacts.

(** X22: in the dictionary [parse_env_lines] returns, a key is bound to
    the value of the last line that assigns it, and is absent when no
    line assigns it: later lines override earlier ones. *)
Theorem parse_env_last_assignment_wins (strip : string -> string)
  (shlex_split : string -> option (list string)) (lines : list string)
  (k : string) :
  Config.dict_get k (Config.parse_env_lines strip shlex_split lines)
  = last_assignment strip shlex_split k lines.
Proof.
  unfold Config.parse_env_lines. rewrite parse_fold_get.
  destruct (last_assignment strip shlex_split k lines); reflexivity.
Qed.

(** X23: the dictionary [parse_env_lines] returns has no key twice and no
    empty key. *)
Theorem parse_env_keys_well_formed (strip : string -> string)
  (shlex_split : string -> option (list string)) (lines : list string) :
  NoDup (map fst (Config.parse_env_lines strip shlex_split lines)) /\
  Forall (fun kv => fst kv <> EmptyString)
    (Config.parse_env_lines strip shlex_split lines).
Proof.
  destruct (parse_fold_keys strip shlex_split lines [])
    as [Hn Ht]; [constructor | constructor |].
  split; [exact Hn|].
  eapply Forall_impl; [|exact Ht].
  intros [k v] H. simpl in *. intro Hk. subst k. discriminate.
Qed.

(** X24: a line that is blank after stripping, that starts with [#], that
    contains no [=], or whose text before the first [=] is blank, leaves
    no trace: the result is the same with the line removed. *)
Theorem parse_env_ignores_line (strip : string -> string)
  (shlex_split : string -> option (list string))
  (before after : list string) (raw : string) :
  strip raw = EmptyString
  \/ Config.is_comment (strip raw) = true
  \/ Config.partition_eq (strip raw) = None
  \/ (exists key value,
        Config.partition_eq (strip raw) = Some (key, value)
        /\ strip key = EmptyString) ->
  Config.parse_env_lines strip shlex_split (before ++ raw :: after)
  = Config.parse_env_lines strip shlex_split (before ++ after).
Proof.
  intro H. apply parse_skips. unfold assignment.
  destruct H as [H | [H | [H | (key & value & H & Hk)]]].
  - rewrite H. reflexivity.
  - rewrite H, andb_false_r. reflexivity.
  - rewrite H. destruct (truthy (strip raw) && _); reflexivity.
  - rewrite H, Hk. destruct (truthy (strip raw) && _); reflexivity.
Qed.

Lemma parse_env_ignores_line_witness :
  Config.parse_env_lines (fun s => s) (fun s => Some [s])
    (["A=1"; "# A=2"; "B=3"]%string)
  = Config.parse_env_lines (fun s => s) (fun s => Some [s])
      (["A=1"; "B=3"]%string).
Proof.
  apply (parse_env_ignores_line (fun s => s) (fun s => Some [s])
           ["A=1"%string] ["B=3"%string] "# A=2"%string).
  right. left. reflexivity.
Defined.

(** X25: when [load_config] gets as far as validating, a variable of the
    environment overrides the file's assignment to the same key, and a
    key the environment does not have keeps the value of the last line of
    the file that assigns it; with no file the dictionary is the
    environment. *)
Theorem environment_overrides_file (strip : string -> string)
  (shlex_split : string -> option (list string)) (lines : list string)
  (environ : Config.Dict) (k : string) :
  NoDup (map fst environ) ->
  (exists data,
     Config.load_config_data strip shlex_split (Config.Content lines)
       environ = Config.Data data
     /\ Config.dict_get k data
        = match Config.dict_get k environ with
          | Some v => Some v
          | None => last_assignment strip shlex_split k lines
          end) /\
  (exists data,
     Config.load_config_data strip shlex_split Config.Missing environ
     = Config.Data data
     /\ Config.dict_get k data = Config.dict_get k environ).
Proof.
  intro Hn. split.
  - eexists. split; [reflexivity|].
    rewrite (dict_get_update k environ _ Hn).
    destruct (Config.dict_get k environ); [reflexivity|].
    pose proof (parse_env_keys_nodup strip shlex_split lines) as Hp.
    rewrite (dict_get_update k _ [] Hp).
    unfold Config.parse_env_lines.
    rewrite (parse_fold_get strip shlex_split k lines []).
    destruct (last_assignment strip shlex_split k lines); reflexivity.
  - eexists. split; [reflexivity|].
    rewrite (dict_get_update k environ [] Hn).
    destruct (Config.dict_get k environ); reflexivity.
Qed.

Lemma environment_overrides_file_witness :
  exists data,
    Config.load_config_data (fun s => s) (fun s => Some [s])
      (Config.Content ["BRIGHTNESS_MIN=10"; "LOG_LEVEL=INFO"]%string)
      [("LOG_LEVEL", "DEBUG")]%string
    = Config.Data data
    /\ Config.dict_get "LOG_LEVEL" data = Some "DEBUG"%string.
Proof.
  assert (Hn : NoDup (map fst [("LOG_LEVEL", "DEBUG")]%string))
    by (repeat constructor; simpl; tauto).
  exact (proj1 (environment_overrides_file (fun s => s)
                  (fun s => Some [s])
                  ["BRIGHTNESS_MIN=10"; "LOG_LEVEL=INFO"]%string
                  [("LOG_LEVEL", "DEBUG")]%string "LOG_LEVEL"%string Hn)).
Defined.

(** The file alone: the last assignment to a key is the one that counts,
    comment lines and lines without [=] are skipped, an empty right-hand
    side gives the empty string. *)
Example parse_env_sample :
  Config.parse_env_lines (fun s => s) (fun s => Some [s])
    ["A=1"; "# B=2"; "nonsense"; "C="; "A=3"; "=4"]%string
  = [("A", "3"); ("C", EmptyString)]%string.
Proof. reflexivity. Qed.
